(** * JCB Parts Finder: catalog ingestion, exact-match search and the
      quotation ledger

    A shallow embedding of the TypeScript sources

      - [types.ts]                     (the [Part] and [QuotationPart] records),
      - [services/fileParser]          (header normalisation, required-column
                                        validation, record extraction),
      - [App]                          (upload handler, search handler,
                                        quotation handlers),
      - [components/QuotationSidebar]  (currency parsing, totals, the discount
                                        input, the quantity controls),
      - [components/PartCard]          (the card's price formatting),

    followed by the properties established about them.

    Conventions.
    - A JavaScript [number] is an IEEE-754 binary64 value: [spec_float] with
      precision 53 and maximal exponent 1024, the arithmetic being the
      round-to-nearest-even operations of [SpecFloat].
    - A JavaScript string is a [string] holding its UTF-8 bytes.  [trim]
      removes the white space of the language (the Unicode spaces, the line
      terminators and the byte order mark included), and [toLowerCase]
      follows the case mappings of Unicode.
    - An object built property by property ([const part: any = {}]) is a
      [gmap string string].
    - A promise is modelled by its settled outcome, [resolve] or [reject].
    - The libraries loaded from a CDN (Fuse, Papa, XLSX) and the browser's
      [FileReader] are not part of the sources: what they return is an input
      of the model. *)

From Stdlib Require Import ZArith String Ascii List Bool Lia.
From Stdlib Require Import Floats.SpecFloat.
From stdpp Require Import gmap strings list fin_maps pretty.

Local Open Scope Z_scope.

(** ** JavaScript built-ins used by the sources *)

Module JS.

(** *** Numbers *)

Definition prec : Z := 53.
Definition emax : Z := 1024.

Abbreviation Number := spec_float.
Abbreviation NaN := S754_nan.

Definition Number_of_Z (z : Z) : Number := binary_normalize prec emax z 0 false.

Definition Number_add : Number -> Number -> Number := SFadd prec emax.
Definition Number_sub : Number -> Number -> Number := SFsub prec emax.
Definition Number_mul : Number -> Number -> Number := SFmul prec emax.
Definition Number_div : Number -> Number -> Number := SFdiv prec emax.

(** [isNaN(x)] *)
Definition isNaN (x : Number) : bool :=
  match x with NaN => true | _ => false end.

(** [x === y] on numbers: [NaN] differs from everything, [+0 === -0]. *)
Definition Number_strictEq (x y : Number) : bool := SFeqb x y.

(** [x <= y] and [x > y] on numbers (false as soon as one side is [NaN]). *)
Definition Number_le (x y : Number) : bool := SFleb x y.
Definition Number_gt (x y : Number) : bool := SFltb y x.

(** [ToBoolean(x)]: [+0], [-0] and [NaN] are falsy. *)
Definition ToBoolean (x : Number) : bool :=
  match x with
  | NaN | S754_zero _ => false
  | _ => true
  end.

(** [x || y] on numbers. *)
Definition Number_or (x y : Number) : Number := if ToBoolean x then x else y.

(** [Math.max(a, b)]: [NaN] if either is, and [+0] counts as larger than [-0]. *)
Definition Math_max (a b : Number) : Number :=
  match SFcompare a b with
  | None => NaN
  | Some Lt => b
  | Some Gt => a
  | Some Eq => match a with S754_zero true => b | _ => a end
  end.

(** [Math.min(a, b)]: [NaN] if either is, and [-0] counts as smaller than [+0]. *)
Definition Math_min (a b : Number) : Number :=
  match SFcompare a b with
  | None => NaN
  | Some Lt => a
  | Some Gt => b
  | Some Eq => match a with S754_zero false => b | _ => a end
  end.

(** *** Strings *)

(** A JavaScript string is represented by its UTF-8 bytes; the built-ins
    that look at characters ([trim], [toLowerCase], the white space skipped
    by [parseFloat] and [parseInt]) work on the code points these bytes
    encode.  (A surrogate without its partner has no encoding: its three
    bytes [0xED 0xA0..0xBF 0x80..0xBF] are bytes at which no well-formed
    encoding begins, and the built-ins leave them where they are, as they
    leave the surrogate.) *)

Definition byte (n : N) : ascii := ascii_of_N n.

(** The UTF-8 bytes of a code point.  (A number from [0x110000] on is not a
    code point: it stands for a byte at which no well-formed encoding
    begins, see [decodeUTF8_from].) *)
Definition encodeUTF8 (cp : N) : string :=
  (if cp <? 0x80 then String (byte cp) ""
   else if cp <? 0x800 then
     String (byte (0xC0 + cp / 0x40)) (String (byte (0x80 + cp mod 0x40)) "")
   else if cp <? 0x10000 then
     String (byte (0xE0 + cp / 0x1000))
       (String (byte (0x80 + (cp / 0x40) mod 0x40))
          (String (byte (0x80 + cp mod 0x40)) ""))
   else if cp <? 0x110000 then
     String (byte (0xF0 + cp / 0x40000))
       (String (byte (0x80 + (cp / 0x1000) mod 0x40))
          (String (byte (0x80 + (cp / 0x40) mod 0x40))
             (String (byte (0x80 + cp mod 0x40)) "")))
   else String (byte (cp - 0x110000)) "")%N.

(** The payload of a continuation byte [10xxxxxx]. *)
Definition continuation (c : ascii) : option N :=
  let n := N_of_ascii c in
  (if (0x80 <=? n) && (n <=? 0xBF) then Some (n - 0x80) else None)%N.

(** The payloads of the [count] continuation bytes at the head of [s], and
    what follows them. *)
Fixpoint payloads (count : nat) (s : string) : option (list N * string) :=
  match count with
  | O => Some ([], s)
  | S count' =>
      match s with
      | String c r =>
          match continuation c with
          | Some x =>
              match payloads count' r with
              | Some (xs, rest) => Some (x :: xs, rest)
              | None => None
              end
          | None => None
          end
      | EmptyString => None
      end
  end.

(** The code point whose well-formed encoding is at the head of [s], and
    what follows it: no overlong encoding, no surrogate, nothing above
    [0x10FFFF]. *)
Definition sequenceAt (s : string) : option (N * string) :=
  match s with
  | EmptyString => None
  | String c0 r0 =>
      let b0 := N_of_ascii c0 in
      (if b0 <? 0x80 then Some (b0, r0)
       else if (0xC2 <=? b0) && (b0 <=? 0xDF) then
         match payloads 1 r0 with
         | Some ([x1], rest) => Some ((b0 - 0xC0) * 0x40 + x1, rest)
         | _ => None
         end
       else if (0xE0 <=? b0) && (b0 <=? 0xEF) then
         match payloads 2 r0 with
         | Some ([x1; x2], rest) =>
             let cp := (b0 - 0xE0) * 0x1000 + x1 * 0x40 + x2 in
             if (0x800 <=? cp) && negb ((0xD800 <=? cp) && (cp <=? 0xDFFF))
             then Some (cp, rest)
             else None
         | _ => None
         end
       else if (0xF0 <=? b0) && (b0 <=? 0xF4) then
         match payloads 3 r0 with
         | Some ([x1; x2; x3], rest) =>
             let cp := (b0 - 0xF0) * 0x40000 + x1 * 0x1000 + x2 * 0x40 + x3 in
             if (0x10000 <=? cp) && (cp <? 0x110000) then Some (cp, rest)
             else None
         | _ => None
         end
       else None)%N
  end.

(** [fuel] bounds the number of code points read; the length of the string
    is enough.  A byte at which no well-formed encoding begins is kept
    apart from the code points, as [0x110000] plus the byte. *)
Fixpoint decodeUTF8_from (fuel : nat) (s : string) : list N :=
  match fuel, s with
  | S fuel', String c0 r0 =>
      match sequenceAt s with
      | Some (cp, rest) => cp :: decodeUTF8_from fuel' rest
      | None => (0x110000 + N_of_ascii c0)%N :: decodeUTF8_from fuel' r0
      end
  | _, _ => []
  end.

(** The code points of a string. *)
Definition decodeUTF8 (s : string) : list N :=
  decodeUTF8_from (String.length s) s.

Definition encodeAll (codePoints : list N) : string :=
  fold_right (fun cp s => encodeUTF8 cp +:+ s) "" codePoints.

(** **** White space *)

(** [WhiteSpace] and [LineTerminator] of the language: TAB, LF, VT, FF, CR,
    SPACE, NO-BREAK SPACE, the other space separators of Unicode, LINE
    SEPARATOR, PARAGRAPH SEPARATOR and the byte order mark. *)
Definition whiteSpaceCodePoints : list N :=
  [ 0x9; 0xA; 0xB; 0xC; 0xD; 0x20; 0xA0; 0x1680;
    0x2000; 0x2001; 0x2002; 0x2003; 0x2004; 0x2005; 0x2006; 0x2007; 0x2008;
    0x2009; 0x200A; 0x2028; 0x2029; 0x202F; 0x205F; 0x3000; 0xFEFF ]%N.

Definition WhiteSpace : list string := map encodeUTF8 whiteSpaceCodePoints.

(** What follows [w] in [s], when [s] begins with [w]. *)
Fixpoint stripPrefix (w s : string) : option string :=
  match w with
  | EmptyString => Some s
  | String a w' =>
      match s with
      | String b s' => if Ascii.eqb a b then stripPrefix w' s' else None
      | EmptyString => None
      end
  end.

(** What follows the white-space character at the head of [s], if there is
    one. *)
Definition stripWhiteSpace (s : string) : option string :=
  fold_right (fun w found =>
                match stripPrefix w s with
                | Some r => Some r
                | None => found
                end) None WhiteSpace.

(** [fuel] bounds the number of characters removed; the length of the
    string is enough. *)
Fixpoint trimStart_from (fuel : nat) (s : string) : string :=
  match fuel with
  | O => s
  | S fuel' =>
      match stripWhiteSpace s with
      | Some r => trimStart_from fuel' r
      | None => s
      end
  end.

(** [s.trimStart()] *)
Definition trimStart (s : string) : string := trimStart_from (String.length s) s.

Definition allWhiteSpace (s : string) : bool := String.eqb (trimStart s) "".

(** [s.trimEnd()]: the string is cut where only white space follows. *)
Fixpoint trimEnd (s : string) : string :=
  match s with
  | EmptyString => EmptyString
  | String c r => if allWhiteSpace s then EmptyString else String c (trimEnd r)
  end.

(** [s.trim()] *)
Definition trim (s : string) : string := trimEnd (trimStart s).

(** **** Letter case *)

(** The lower-case mappings of the Unicode Character Database (version 14):
    in each entry [(first, last, step, image)] the code points [first],
    [first + step], ..., [last] are mapped to [image], [image + step], ... *)
Definition lowerCaseMappings : list (N * N * N * N) :=
  [
    (0x41, 0x5A, 1, 0x61); (0xC0, 0xD6, 1, 0xE0); (0xD8, 0xDE, 1, 0xF8);
    (0x100, 0x12E, 2, 0x101); (0x132, 0x136, 2, 0x133);
    (0x139, 0x147, 2, 0x13A); (0x14A, 0x176, 2, 0x14B);
    (0x178, 0x178, 1, 0xFF); (0x179, 0x17D, 2, 0x17A);
    (0x181, 0x181, 1, 0x253); (0x182, 0x184, 2, 0x183);
    (0x186, 0x186, 1, 0x254); (0x187, 0x187, 1, 0x188);
    (0x189, 0x18A, 1, 0x256); (0x18B, 0x18B, 1, 0x18C);
    (0x18E, 0x18E, 1, 0x1DD); (0x18F, 0x18F, 1, 0x259);
    (0x190, 0x190, 1, 0x25B); (0x191, 0x191, 1, 0x192);
    (0x193, 0x193, 1, 0x260); (0x194, 0x194, 1, 0x263);
    (0x196, 0x196, 1, 0x269); (0x197, 0x197, 1, 0x268);
    (0x198, 0x198, 1, 0x199); (0x19C, 0x19C, 1, 0x26F);
    (0x19D, 0x19D, 1, 0x272); (0x19F, 0x19F, 1, 0x275);
    (0x1A0, 0x1A4, 2, 0x1A1); (0x1A6, 0x1A6, 1, 0x280);
    (0x1A7, 0x1A7, 1, 0x1A8); (0x1A9, 0x1A9, 1, 0x283);
    (0x1AC, 0x1AC, 1, 0x1AD); (0x1AE, 0x1AE, 1, 0x288);
    (0x1AF, 0x1AF, 1, 0x1B0); (0x1B1, 0x1B2, 1, 0x28A);
    (0x1B3, 0x1B5, 2, 0x1B4); (0x1B7, 0x1B7, 1, 0x292);
    (0x1B8, 0x1B8, 1, 0x1B9); (0x1BC, 0x1BC, 1, 0x1BD);
    (0x1C4, 0x1C4, 1, 0x1C6); (0x1C5, 0x1C5, 1, 0x1C6);
    (0x1C7, 0x1C7, 1, 0x1C9); (0x1C8, 0x1C8, 1, 0x1C9);
    (0x1CA, 0x1CA, 1, 0x1CC); (0x1CB, 0x1DB, 2, 0x1CC);
    (0x1DE, 0x1EE, 2, 0x1DF); (0x1F1, 0x1F1, 1, 0x1F3);
    (0x1F2, 0x1F4, 2, 0x1F3); (0x1F6, 0x1F6, 1, 0x195);
    (0x1F7, 0x1F7, 1, 0x1BF); (0x1F8, 0x21E, 2, 0x1F9);
    (0x220, 0x220, 1, 0x19E); (0x222, 0x232, 2, 0x223);
    (0x23A, 0x23A, 1, 0x2C65); (0x23B, 0x23B, 1, 0x23C);
    (0x23D, 0x23D, 1, 0x19A); (0x23E, 0x23E, 1, 0x2C66);
    (0x241, 0x241, 1, 0x242); (0x243, 0x243, 1, 0x180);
    (0x244, 0x244, 1, 0x289); (0x245, 0x245, 1, 0x28C);
    (0x246, 0x24E, 2, 0x247); (0x370, 0x372, 2, 0x371);
    (0x376, 0x376, 1, 0x377); (0x37F, 0x37F, 1, 0x3F3);
    (0x386, 0x386, 1, 0x3AC); (0x388, 0x38A, 1, 0x3AD);
    (0x38C, 0x38C, 1, 0x3CC); (0x38E, 0x38F, 1, 0x3CD);
    (0x391, 0x3A1, 1, 0x3B1); (0x3A4, 0x3AB, 1, 0x3C4);
    (0x3CF, 0x3CF, 1, 0x3D7); (0x3D8, 0x3EE, 2, 0x3D9);
    (0x3F4, 0x3F4, 1, 0x3B8); (0x3F7, 0x3F7, 1, 0x3F8);
    (0x3F9, 0x3F9, 1, 0x3F2); (0x3FA, 0x3FA, 1, 0x3FB);
    (0x3FD, 0x3FF, 1, 0x37B); (0x400, 0x40F, 1, 0x450);
    (0x410, 0x42F, 1, 0x430); (0x460, 0x480, 2, 0x461);
    (0x48A, 0x4BE, 2, 0x48B); (0x4C0, 0x4C0, 1, 0x4CF);
    (0x4C1, 0x4CD, 2, 0x4C2); (0x4D0, 0x52E, 2, 0x4D1);
    (0x531, 0x556, 1, 0x561); (0x10A0, 0x10C5, 1, 0x2D00);
    (0x10C7, 0x10C7, 1, 0x2D27); (0x10CD, 0x10CD, 1, 0x2D2D);
    (0x13A0, 0x13EF, 1, 0xAB70); (0x13F0, 0x13F5, 1, 0x13F8);
    (0x1C90, 0x1CBA, 1, 0x10D0); (0x1CBD, 0x1CBF, 1, 0x10FD);
    (0x1E00, 0x1E94, 2, 0x1E01); (0x1E9E, 0x1E9E, 1, 0xDF);
    (0x1EA0, 0x1EFE, 2, 0x1EA1); (0x1F08, 0x1F0F, 1, 0x1F00);
    (0x1F18, 0x1F1D, 1, 0x1F10); (0x1F28, 0x1F2F, 1, 0x1F20);
    (0x1F38, 0x1F3F, 1, 0x1F30); (0x1F48, 0x1F4D, 1, 0x1F40);
    (0x1F59, 0x1F5F, 2, 0x1F51); (0x1F68, 0x1F6F, 1, 0x1F60);
    (0x1F88, 0x1F8F, 1, 0x1F80); (0x1F98, 0x1F9F, 1, 0x1F90);
    (0x1FA8, 0x1FAF, 1, 0x1FA0); (0x1FB8, 0x1FB9, 1, 0x1FB0);
    (0x1FBA, 0x1FBB, 1, 0x1F70); (0x1FBC, 0x1FBC, 1, 0x1FB3);
    (0x1FC8, 0x1FCB, 1, 0x1F72); (0x1FCC, 0x1FCC, 1, 0x1FC3);
    (0x1FD8, 0x1FD9, 1, 0x1FD0); (0x1FDA, 0x1FDB, 1, 0x1F76);
    (0x1FE8, 0x1FE9, 1, 0x1FE0); (0x1FEA, 0x1FEB, 1, 0x1F7A);
    (0x1FEC, 0x1FEC, 1, 0x1FE5); (0x1FF8, 0x1FF9, 1, 0x1F78);
    (0x1FFA, 0x1FFB, 1, 0x1F7C); (0x1FFC, 0x1FFC, 1, 0x1FF3);
    (0x2126, 0x2126, 1, 0x3C9); (0x212A, 0x212A, 1, 0x6B);
    (0x212B, 0x212B, 1, 0xE5); (0x2132, 0x2132, 1, 0x214E);
    (0x2160, 0x216F, 1, 0x2170); (0x2183, 0x2183, 1, 0x2184);
    (0x24B6, 0x24CF, 1, 0x24D0); (0x2C00, 0x2C2F, 1, 0x2C30);
    (0x2C60, 0x2C60, 1, 0x2C61); (0x2C62, 0x2C62, 1, 0x26B);
    (0x2C63, 0x2C63, 1, 0x1D7D); (0x2C64, 0x2C64, 1, 0x27D);
    (0x2C67, 0x2C6B, 2, 0x2C68); (0x2C6D, 0x2C6D, 1, 0x251);
    (0x2C6E, 0x2C6E, 1, 0x271); (0x2C6F, 0x2C6F, 1, 0x250);
    (0x2C70, 0x2C70, 1, 0x252); (0x2C72, 0x2C72, 1, 0x2C73);
    (0x2C75, 0x2C75, 1, 0x2C76); (0x2C7E, 0x2C7F, 1, 0x23F);
    (0x2C80, 0x2CE2, 2, 0x2C81); (0x2CEB, 0x2CED, 2, 0x2CEC);
    (0x2CF2, 0x2CF2, 1, 0x2CF3); (0xA640, 0xA66C, 2, 0xA641);
    (0xA680, 0xA69A, 2, 0xA681); (0xA722, 0xA72E, 2, 0xA723);
    (0xA732, 0xA76E, 2, 0xA733); (0xA779, 0xA77B, 2, 0xA77A);
    (0xA77D, 0xA77D, 1, 0x1D79); (0xA77E, 0xA786, 2, 0xA77F);
    (0xA78B, 0xA78B, 1, 0xA78C); (0xA78D, 0xA78D, 1, 0x265);
    (0xA790, 0xA792, 2, 0xA791); (0xA796, 0xA7A8, 2, 0xA797);
    (0xA7AA, 0xA7AA, 1, 0x266); (0xA7AB, 0xA7AB, 1, 0x25C);
    (0xA7AC, 0xA7AC, 1, 0x261); (0xA7AD, 0xA7AD, 1, 0x26C);
    (0xA7AE, 0xA7AE, 1, 0x26A); (0xA7B0, 0xA7B0, 1, 0x29E);
    (0xA7B1, 0xA7B1, 1, 0x287); (0xA7B2, 0xA7B2, 1, 0x29D);
    (0xA7B3, 0xA7B3, 1, 0xAB53); (0xA7B4, 0xA7C2, 2, 0xA7B5);
    (0xA7C4, 0xA7C4, 1, 0xA794); (0xA7C5, 0xA7C5, 1, 0x282);
    (0xA7C6, 0xA7C6, 1, 0x1D8E); (0xA7C7, 0xA7C9, 2, 0xA7C8);
    (0xA7D0, 0xA7D0, 1, 0xA7D1); (0xA7D6, 0xA7D8, 2, 0xA7D7);
    (0xA7F5, 0xA7F5, 1, 0xA7F6); (0xFF21, 0xFF3A, 1, 0xFF41);
    (0x10400, 0x10427, 1, 0x10428); (0x104B0, 0x104D3, 1, 0x104D8);
    (0x10570, 0x1057A, 1, 0x10597); (0x1057C, 0x1058A, 1, 0x105A3);
    (0x1058C, 0x10592, 1, 0x105B3); (0x10594, 0x10595, 1, 0x105BB);
    (0x10C80, 0x10CB2, 1, 0x10CC0); (0x118A0, 0x118BF, 1, 0x118C0);
    (0x16E40, 0x16E5F, 1, 0x16E60); (0x1E900, 0x1E921, 1, 0x1E922)
  ]%N.

(** The code points with the property [Cased]. *)
Definition casedRanges : list (N * N) :=
  [
    (0x41, 0x5A); (0x61, 0x7A); (0xAA, 0xAA); (0xB5, 0xB5); (0xBA, 0xBA);
    (0xC0, 0xD6); (0xD8, 0xF6); (0xF8, 0x1BA); (0x1BC, 0x1BF);
    (0x1C4, 0x293); (0x295, 0x2B8); (0x2C0, 0x2C1); (0x2E0, 0x2E4);
    (0x345, 0x345); (0x370, 0x373); (0x376, 0x377); (0x37A, 0x37D);
    (0x37F, 0x37F); (0x386, 0x386); (0x388, 0x38A); (0x38C, 0x38C);
    (0x38E, 0x3A1); (0x3A3, 0x3F5); (0x3F7, 0x481); (0x48A, 0x52F);
    (0x531, 0x556); (0x560, 0x588); (0x10A0, 0x10C5); (0x10C7, 0x10C7);
    (0x10CD, 0x10CD); (0x10D0, 0x10FA); (0x10FD, 0x10FF); (0x13A0, 0x13F5);
    (0x13F8, 0x13FD); (0x1C80, 0x1C88); (0x1C90, 0x1CBA); (0x1CBD, 0x1CBF);
    (0x1D00, 0x1DBF); (0x1E00, 0x1F15); (0x1F18, 0x1F1D); (0x1F20, 0x1F45);
    (0x1F48, 0x1F4D); (0x1F50, 0x1F57); (0x1F59, 0x1F59); (0x1F5B, 0x1F5B);
    (0x1F5D, 0x1F5D); (0x1F5F, 0x1F7D); (0x1F80, 0x1FB4); (0x1FB6, 0x1FBC);
    (0x1FBE, 0x1FBE); (0x1FC2, 0x1FC4); (0x1FC6, 0x1FCC); (0x1FD0, 0x1FD3);
    (0x1FD6, 0x1FDB); (0x1FE0, 0x1FEC); (0x1FF2, 0x1FF4); (0x1FF6, 0x1FFC);
    (0x2071, 0x2071); (0x207F, 0x207F); (0x2090, 0x209C); (0x2102, 0x2102);
    (0x2107, 0x2107); (0x210A, 0x2113); (0x2115, 0x2115); (0x2119, 0x211D);
    (0x2124, 0x2124); (0x2126, 0x2126); (0x2128, 0x2128); (0x212A, 0x212D);
    (0x212F, 0x2134); (0x2139, 0x2139); (0x213C, 0x213F); (0x2145, 0x2149);
    (0x214E, 0x214E); (0x2160, 0x217F); (0x2183, 0x2184); (0x24B6, 0x24E9);
    (0x2C00, 0x2CE4); (0x2CEB, 0x2CEE); (0x2CF2, 0x2CF3); (0x2D00, 0x2D25);
    (0x2D27, 0x2D27); (0x2D2D, 0x2D2D); (0xA640, 0xA66D); (0xA680, 0xA69D);
    (0xA722, 0xA787); (0xA78B, 0xA78E); (0xA790, 0xA7CA); (0xA7D0, 0xA7D1);
    (0xA7D3, 0xA7D3); (0xA7D5, 0xA7D9); (0xA7F5, 0xA7F6); (0xA7F8, 0xA7FA);
    (0xAB30, 0xAB5A); (0xAB5C, 0xAB68); (0xAB70, 0xABBF); (0xFB00, 0xFB06);
    (0xFB13, 0xFB17); (0xFF21, 0xFF3A); (0xFF41, 0xFF5A); (0x10400, 0x1044F);
    (0x104B0, 0x104D3); (0x104D8, 0x104FB); (0x10570, 0x1057A);
    (0x1057C, 0x1058A); (0x1058C, 0x10592); (0x10594, 0x10595);
    (0x10597, 0x105A1); (0x105A3, 0x105B1); (0x105B3, 0x105B9);
    (0x105BB, 0x105BC); (0x10780, 0x10780); (0x10783, 0x10785);
    (0x10787, 0x107B0); (0x107B2, 0x107BA); (0x10C80, 0x10CB2);
    (0x10CC0, 0x10CF2); (0x118A0, 0x118DF); (0x16E40, 0x16E7F);
    (0x1D400, 0x1D454); (0x1D456, 0x1D49C); (0x1D49E, 0x1D49F);
    (0x1D4A2, 0x1D4A2); (0x1D4A5, 0x1D4A6); (0x1D4A9, 0x1D4AC);
    (0x1D4AE, 0x1D4B9); (0x1D4BB, 0x1D4BB); (0x1D4BD, 0x1D4C3);
    (0x1D4C5, 0x1D505); (0x1D507, 0x1D50A); (0x1D50D, 0x1D514);
    (0x1D516, 0x1D51C); (0x1D51E, 0x1D539); (0x1D53B, 0x1D53E);
    (0x1D540, 0x1D544); (0x1D546, 0x1D546); (0x1D54A, 0x1D550);
    (0x1D552, 0x1D6A5); (0x1D6A8, 0x1D6C0); (0x1D6C2, 0x1D6DA);
    (0x1D6DC, 0x1D6FA); (0x1D6FC, 0x1D714); (0x1D716, 0x1D734);
    (0x1D736, 0x1D74E); (0x1D750, 0x1D76E); (0x1D770, 0x1D788);
    (0x1D78A, 0x1D7A8); (0x1D7AA, 0x1D7C2); (0x1D7C4, 0x1D7CB);
    (0x1DF00, 0x1DF09); (0x1DF0B, 0x1DF1E); (0x1E900, 0x1E943);
    (0x1F130, 0x1F149); (0x1F150, 0x1F169); (0x1F170, 0x1F189)
  ]%N.

(** The code points with the property [Case_Ignorable]. *)
Definition caseIgnorableRanges : list (N * N) :=
  [
    (0x27, 0x27); (0x2E, 0x2E); (0x3A, 0x3A); (0x5E, 0x5E); (0x60, 0x60);
    (0xA8, 0xA8); (0xAD, 0xAD); (0xAF, 0xAF); (0xB4, 0xB4); (0xB7, 0xB8);
    (0x2B0, 0x36F); (0x374, 0x375); (0x37A, 0x37A); (0x384, 0x385);
    (0x387, 0x387); (0x483, 0x489); (0x559, 0x559); (0x55F, 0x55F);
    (0x591, 0x5BD); (0x5BF, 0x5BF); (0x5C1, 0x5C2); (0x5C4, 0x5C5);
    (0x5C7, 0x5C7); (0x5F4, 0x5F4); (0x600, 0x605); (0x610, 0x61A);
    (0x61C, 0x61C); (0x640, 0x640); (0x64B, 0x65F); (0x670, 0x670);
    (0x6D6, 0x6DD); (0x6DF, 0x6E8); (0x6EA, 0x6ED); (0x70F, 0x70F);
    (0x711, 0x711); (0x730, 0x74A); (0x7A6, 0x7B0); (0x7EB, 0x7F5);
    (0x7FA, 0x7FA); (0x7FD, 0x7FD); (0x816, 0x82D); (0x859, 0x85B);
    (0x888, 0x888); (0x890, 0x891); (0x898, 0x89F); (0x8C9, 0x902);
    (0x93A, 0x93A); (0x93C, 0x93C); (0x941, 0x948); (0x94D, 0x94D);
    (0x951, 0x957); (0x962, 0x963); (0x971, 0x971); (0x981, 0x981);
    (0x9BC, 0x9BC); (0x9C1, 0x9C4); (0x9CD, 0x9CD); (0x9E2, 0x9E3);
    (0x9FE, 0x9FE); (0xA01, 0xA02); (0xA3C, 0xA3C); (0xA41, 0xA42);
    (0xA47, 0xA48); (0xA4B, 0xA4D); (0xA51, 0xA51); (0xA70, 0xA71);
    (0xA75, 0xA75); (0xA81, 0xA82); (0xABC, 0xABC); (0xAC1, 0xAC5);
    (0xAC7, 0xAC8); (0xACD, 0xACD); (0xAE2, 0xAE3); (0xAFA, 0xAFF);
    (0xB01, 0xB01); (0xB3C, 0xB3C); (0xB3F, 0xB3F); (0xB41, 0xB44);
    (0xB4D, 0xB4D); (0xB55, 0xB56); (0xB62, 0xB63); (0xB82, 0xB82);
    (0xBC0, 0xBC0); (0xBCD, 0xBCD); (0xC00, 0xC00); (0xC04, 0xC04);
    (0xC3C, 0xC3C); (0xC3E, 0xC40); (0xC46, 0xC48); (0xC4A, 0xC4D);
    (0xC55, 0xC56); (0xC62, 0xC63); (0xC81, 0xC81); (0xCBC, 0xCBC);
    (0xCBF, 0xCBF); (0xCC6, 0xCC6); (0xCCC, 0xCCD); (0xCE2, 0xCE3);
    (0xD00, 0xD01); (0xD3B, 0xD3C); (0xD41, 0xD44); (0xD4D, 0xD4D);
    (0xD62, 0xD63); (0xD81, 0xD81); (0xDCA, 0xDCA); (0xDD2, 0xDD4);
    (0xDD6, 0xDD6); (0xE31, 0xE31); (0xE34, 0xE3A); (0xE46, 0xE4E);
    (0xEB1, 0xEB1); (0xEB4, 0xEBC); (0xEC6, 0xEC6); (0xEC8, 0xECD);
    (0xF18, 0xF19); (0xF35, 0xF35); (0xF37, 0xF37); (0xF39, 0xF39);
    (0xF71, 0xF7E); (0xF80, 0xF84); (0xF86, 0xF87); (0xF8D, 0xF97);
    (0xF99, 0xFBC); (0xFC6, 0xFC6); (0x102D, 0x1030); (0x1032, 0x1037);
    (0x1039, 0x103A); (0x103D, 0x103E); (0x1058, 0x1059); (0x105E, 0x1060);
    (0x1071, 0x1074); (0x1082, 0x1082); (0x1085, 0x1086); (0x108D, 0x108D);
    (0x109D, 0x109D); (0x10FC, 0x10FC); (0x135D, 0x135F); (0x1712, 0x1714);
    (0x1732, 0x1733); (0x1752, 0x1753); (0x1772, 0x1773); (0x17B4, 0x17B5);
    (0x17B7, 0x17BD); (0x17C6, 0x17C6); (0x17C9, 0x17D3); (0x17D7, 0x17D7);
    (0x17DD, 0x17DD); (0x180B, 0x180F); (0x1843, 0x1843); (0x1885, 0x1886);
    (0x18A9, 0x18A9); (0x1920, 0x1922); (0x1927, 0x1928); (0x1932, 0x1932);
    (0x1939, 0x193B); (0x1A17, 0x1A18); (0x1A1B, 0x1A1B); (0x1A56, 0x1A56);
    (0x1A58, 0x1A5E); (0x1A60, 0x1A60); (0x1A62, 0x1A62); (0x1A65, 0x1A6C);
    (0x1A73, 0x1A7C); (0x1A7F, 0x1A7F); (0x1AA7, 0x1AA7); (0x1AB0, 0x1ACE);
    (0x1B00, 0x1B03); (0x1B34, 0x1B34); (0x1B36, 0x1B3A); (0x1B3C, 0x1B3C);
    (0x1B42, 0x1B42); (0x1B6B, 0x1B73); (0x1B80, 0x1B81); (0x1BA2, 0x1BA5);
    (0x1BA8, 0x1BA9); (0x1BAB, 0x1BAD); (0x1BE6, 0x1BE6); (0x1BE8, 0x1BE9);
    (0x1BED, 0x1BED); (0x1BEF, 0x1BF1); (0x1C2C, 0x1C33); (0x1C36, 0x1C37);
    (0x1C78, 0x1C7D); (0x1CD0, 0x1CD2); (0x1CD4, 0x1CE0); (0x1CE2, 0x1CE8);
    (0x1CED, 0x1CED); (0x1CF4, 0x1CF4); (0x1CF8, 0x1CF9); (0x1D2C, 0x1D6A);
    (0x1D78, 0x1D78); (0x1D9B, 0x1DFF); (0x1FBD, 0x1FBD); (0x1FBF, 0x1FC1);
    (0x1FCD, 0x1FCF); (0x1FDD, 0x1FDF); (0x1FED, 0x1FEF); (0x1FFD, 0x1FFE);
    (0x200B, 0x200F); (0x2018, 0x2019); (0x2024, 0x2024); (0x2027, 0x2027);
    (0x202A, 0x202E); (0x2060, 0x2064); (0x2066, 0x206F); (0x2071, 0x2071);
    (0x207F, 0x207F); (0x2090, 0x209C); (0x20D0, 0x20F0); (0x2C7C, 0x2C7D);
    (0x2CEF, 0x2CF1); (0x2D6F, 0x2D6F); (0x2D7F, 0x2D7F); (0x2DE0, 0x2DFF);
    (0x2E2F, 0x2E2F); (0x3005, 0x3005); (0x302A, 0x302D); (0x3031, 0x3035);
    (0x303B, 0x303B); (0x3099, 0x309E); (0x30FC, 0x30FE); (0xA015, 0xA015);
    (0xA4F8, 0xA4FD); (0xA60C, 0xA60C); (0xA66F, 0xA672); (0xA674, 0xA67D);
    (0xA67F, 0xA67F); (0xA69C, 0xA69F); (0xA6F0, 0xA6F1); (0xA700, 0xA721);
    (0xA770, 0xA770); (0xA788, 0xA78A); (0xA7F2, 0xA7F4); (0xA7F8, 0xA7F9);
    (0xA802, 0xA802); (0xA806, 0xA806); (0xA80B, 0xA80B); (0xA825, 0xA826);
    (0xA82C, 0xA82C); (0xA8C4, 0xA8C5); (0xA8E0, 0xA8F1); (0xA8FF, 0xA8FF);
    (0xA926, 0xA92D); (0xA947, 0xA951); (0xA980, 0xA982); (0xA9B3, 0xA9B3);
    (0xA9B6, 0xA9B9); (0xA9BC, 0xA9BD); (0xA9CF, 0xA9CF); (0xA9E5, 0xA9E6);
    (0xAA29, 0xAA2E); (0xAA31, 0xAA32); (0xAA35, 0xAA36); (0xAA43, 0xAA43);
    (0xAA4C, 0xAA4C); (0xAA70, 0xAA70); (0xAA7C, 0xAA7C); (0xAAB0, 0xAAB0);
    (0xAAB2, 0xAAB4); (0xAAB7, 0xAAB8); (0xAABE, 0xAABF); (0xAAC1, 0xAAC1);
    (0xAADD, 0xAADD); (0xAAEC, 0xAAED); (0xAAF3, 0xAAF4); (0xAAF6, 0xAAF6);
    (0xAB5B, 0xAB5F); (0xAB69, 0xAB6B); (0xABE5, 0xABE5); (0xABE8, 0xABE8);
    (0xABED, 0xABED); (0xFB1E, 0xFB1E); (0xFBB2, 0xFBC2); (0xFE00, 0xFE0F);
    (0xFE13, 0xFE13); (0xFE20, 0xFE2F); (0xFE52, 0xFE52); (0xFE55, 0xFE55);
    (0xFEFF, 0xFEFF); (0xFF07, 0xFF07); (0xFF0E, 0xFF0E); (0xFF1A, 0xFF1A);
    (0xFF3E, 0xFF3E); (0xFF40, 0xFF40); (0xFF70, 0xFF70); (0xFF9E, 0xFF9F);
    (0xFFE3, 0xFFE3); (0xFFF9, 0xFFFB); (0x101FD, 0x101FD);
    (0x102E0, 0x102E0); (0x10376, 0x1037A); (0x10780, 0x10785);
    (0x10787, 0x107B0); (0x107B2, 0x107BA); (0x10A01, 0x10A03);
    (0x10A05, 0x10A06); (0x10A0C, 0x10A0F); (0x10A38, 0x10A3A);
    (0x10A3F, 0x10A3F); (0x10AE5, 0x10AE6); (0x10D24, 0x10D27);
    (0x10EAB, 0x10EAC); (0x10F46, 0x10F50); (0x10F82, 0x10F85);
    (0x11001, 0x11001); (0x11038, 0x11046); (0x11070, 0x11070);
    (0x11073, 0x11074); (0x1107F, 0x11081); (0x110B3, 0x110B6);
    (0x110B9, 0x110BA); (0x110BD, 0x110BD); (0x110C2, 0x110C2);
    (0x110CD, 0x110CD); (0x11100, 0x11102); (0x11127, 0x1112B);
    (0x1112D, 0x11134); (0x11173, 0x11173); (0x11180, 0x11181);
    (0x111B6, 0x111BE); (0x111C9, 0x111CC); (0x111CF, 0x111CF);
    (0x1122F, 0x11231); (0x11234, 0x11234); (0x11236, 0x11237);
    (0x1123E, 0x1123E); (0x112DF, 0x112DF); (0x112E3, 0x112EA);
    (0x11300, 0x11301); (0x1133B, 0x1133C); (0x11340, 0x11340);
    (0x11366, 0x1136C); (0x11370, 0x11374); (0x11438, 0x1143F);
    (0x11442, 0x11444); (0x11446, 0x11446); (0x1145E, 0x1145E);
    (0x114B3, 0x114B8); (0x114BA, 0x114BA); (0x114BF, 0x114C0);
    (0x114C2, 0x114C3); (0x115B2, 0x115B5); (0x115BC, 0x115BD);
    (0x115BF, 0x115C0); (0x115DC, 0x115DD); (0x11633, 0x1163A);
    (0x1163D, 0x1163D); (0x1163F, 0x11640); (0x116AB, 0x116AB);
    (0x116AD, 0x116AD); (0x116B0, 0x116B5); (0x116B7, 0x116B7);
    (0x1171D, 0x1171F); (0x11722, 0x11725); (0x11727, 0x1172B);
    (0x1182F, 0x11837); (0x11839, 0x1183A); (0x1193B, 0x1193C);
    (0x1193E, 0x1193E); (0x11943, 0x11943); (0x119D4, 0x119D7);
    (0x119DA, 0x119DB); (0x119E0, 0x119E0); (0x11A01, 0x11A0A);
    (0x11A33, 0x11A38); (0x11A3B, 0x11A3E); (0x11A47, 0x11A47);
    (0x11A51, 0x11A56); (0x11A59, 0x11A5B); (0x11A8A, 0x11A96);
    (0x11A98, 0x11A99); (0x11C30, 0x11C36); (0x11C38, 0x11C3D);
    (0x11C3F, 0x11C3F); (0x11C92, 0x11CA7); (0x11CAA, 0x11CB0);
    (0x11CB2, 0x11CB3); (0x11CB5, 0x11CB6); (0x11D31, 0x11D36);
    (0x11D3A, 0x11D3A); (0x11D3C, 0x11D3D); (0x11D3F, 0x11D45);
    (0x11D47, 0x11D47); (0x11D90, 0x11D91); (0x11D95, 0x11D95);
    (0x11D97, 0x11D97); (0x11EF3, 0x11EF4); (0x13430, 0x13438);
    (0x16AF0, 0x16AF4); (0x16B30, 0x16B36); (0x16B40, 0x16B43);
    (0x16F4F, 0x16F4F); (0x16F8F, 0x16F9F); (0x16FE0, 0x16FE1);
    (0x16FE3, 0x16FE4); (0x1AFF0, 0x1AFF3); (0x1AFF5, 0x1AFFB);
    (0x1AFFD, 0x1AFFE); (0x1BC9D, 0x1BC9E); (0x1BCA0, 0x1BCA3);
    (0x1CF00, 0x1CF2D); (0x1CF30, 0x1CF46); (0x1D167, 0x1D169);
    (0x1D173, 0x1D182); (0x1D185, 0x1D18B); (0x1D1AA, 0x1D1AD);
    (0x1D242, 0x1D244); (0x1DA00, 0x1DA36); (0x1DA3B, 0x1DA6C);
    (0x1DA75, 0x1DA75); (0x1DA84, 0x1DA84); (0x1DA9B, 0x1DA9F);
    (0x1DAA1, 0x1DAAF); (0x1E000, 0x1E006); (0x1E008, 0x1E018);
    (0x1E01B, 0x1E021); (0x1E023, 0x1E024); (0x1E026, 0x1E02A);
    (0x1E130, 0x1E13D); (0x1E2AE, 0x1E2AE); (0x1E2EC, 0x1E2EF);
    (0x1E8D0, 0x1E8D6); (0x1E944, 0x1E94B); (0x1F3FB, 0x1F3FF);
    (0xE0001, 0xE0001); (0xE0020, 0xE007F); (0xE0100, 0xE01EF)
  ]%N.

Definition inRanges (cp : N) (ranges : list (N * N)) : bool :=
  existsb (fun '(first, last) => (first <=? cp) && (cp <=? last))%N ranges.

Definition isCased (cp : N) : bool := inRanges cp casedRanges.
Definition isCaseIgnorable (cp : N) : bool := inRanges cp caseIgnorableRanges.

Definition simpleLowerCase (cp : N) : N :=
  match
    List.find (fun '(first, last, step, _) =>
                 (first <=? cp) && (cp <=? last) && ((cp - first) mod step =? 0))%N
      lowerCaseMappings
  with
  | Some (first, _, _, image) => (image + (cp - first))%N
  | None => cp
  end.

(** Whether a cased letter follows, case-ignorable characters apart. *)
Fixpoint followedByCased (codePoints : list N) : bool :=
  match codePoints with
  | [] => false
  | cp :: rest =>
      if isCaseIgnorable cp then followedByCased rest else isCased cp
  end.

(** The lower-casing of a sequence of code points; [afterCased] tells
    whether a cased letter precedes, case-ignorable characters apart.  Two
    code points have a mapping of their own: CAPITAL SIGMA becomes the
    final small sigma at the end of a word and the small sigma elsewhere,
    and CAPITAL I WITH DOT ABOVE becomes [i] followed by COMBINING DOT
    ABOVE. *)
Fixpoint lowerCodePoints (afterCased : bool) (codePoints : list N) : list N :=
  match codePoints with
  | [] => []
  | cp :: rest =>
      (if (cp =? 0x3A3)%N then
         [ if afterCased && negb (followedByCased rest) then 0x3C2 else 0x3C3 ]%N
       else if (cp =? 0x130)%N then [ 0x69; 0x307 ]%N
       else [ simpleLowerCase cp ])
      ++ lowerCodePoints
           (if isCaseIgnorable cp then afterCased else isCased cp) rest
  end.

(** [s.toLowerCase()] *)
Definition toLowerCase (s : string) : string :=
  encodeAll (lowerCodePoints false (decodeUTF8 s)).

(** [xs.join(sep)] on an array of strings. *)
Fixpoint join (sep : string) (xs : list string) : string :=
  match xs with
  | [] => ""
  | [x] => x
  | x :: rest => x +:+ sep +:+ join sep rest
  end.

(** [s.replace(/[^...]+/g, "")]: every character outside the class [keep]
    is dropped. *)
Fixpoint replace_outside (keep : ascii -> bool) (s : string) : string :=
  match s with
  | EmptyString => EmptyString
  | String c r =>
      if keep c then String c (replace_outside keep r) else replace_outside keep r
  end.

(** *** [parseFloat] *)

Definition isDigit (c : ascii) : bool :=
  let n := N_of_ascii c in ((48 <=? n) && (n <=? 57))%N.

Definition digitValue (c : ascii) : Z := Z.of_N (N_of_ascii c) - 48.

(** Reads the longest run of decimal digits at the head of [s]; [acc] is the
    value read so far and [n] the number of digits read so far. *)
Fixpoint readDigits (acc : Z) (n : nat) (s : string) : Z * nat * string :=
  match s with
  | String c r =>
      if isDigit c then readDigits (10 * acc + digitValue c) (S n) r
      else (acc, n, s)
  | EmptyString => (acc, n, s)
  end.

(** The Number value of [(-1)^neg * m * 10^e10], correctly rounded. *)
Definition decimalValue (neg : bool) (m : Z) (e10 : Z) : Number :=
  match m with
  | Zpos p =>
      SFdiv prec emax
        (S754_finite neg (p * Z.to_pos (10 ^ Z.max e10 0))%positive 0)
        (S754_finite false (Z.to_pos (10 ^ Z.max (- e10) 0)) 0)
  | _ => S754_zero neg
  end.

Definition readSign (s : string) : bool * string :=
  match s with
  | String "-" r => (true, r)
  | String "+" r => (false, r)
  | _ => (false, s)
  end.

(** The [ExponentPart] at the head of [s], if there is a complete one. *)
Definition readExponent (s : string) : Z :=
  match s with
  | String c r =>
      if (Ascii.eqb c "e" || Ascii.eqb c "E")%bool then
        let '(eneg, r1) := readSign r in
        let '(ev, en, _) := readDigits 0 0 r1 in
        match en with
        | O => 0
        | _ => if eneg then - ev else ev
        end
      else 0
  | EmptyString => 0
  end.

(** [parseFloat(s)]: leading white space is skipped, the longest prefix that
    is a [StrDecimalLiteral] is read, and [NaN] is returned when there is
    none. *)
Definition parseFloat (s : string) : Number :=
  let '(neg, s1) := readSign (trimStart s) in
  if String.prefix "Infinity" s1 then S754_infinity neg
  else
    let '(iv, inum, s2) := readDigits 0 0 s1 in
    let '(v, fnum, s3) :=
      match s2 with
      | String "." r => readDigits iv 0 r
      | _ => (iv, O, s2)
      end in
    match inum, fnum with
    | O, O => NaN
    | _, _ => decimalValue neg v (readExponent s3 - Z.of_nat fnum)
    end.

(** *** [parseInt] *)

(** [parseInt(s, 10)]: leading white space is skipped, an optional sign and
    the longest run of decimal digits are read, and [NaN] is returned when
    there is no digit. *)
Definition parseInt (s : string) : Number :=
  let '(neg, s1) := readSign (trimStart s) in
  let '(v, n, _) := readDigits 0 0 s1 in
  match n with
  | O => NaN
  | _ =>
      match v with
      | Z0 => S754_zero neg
      | _ => Number_of_Z (if neg then - v else v)
      end
  end.

End JS.

(** ** [types.ts] *)

Module Types.
Import JS.

Record Part := {
  itemNo : string;
  itemDescription : string;
  itemGroup : string;
  model : string;
  bhlHlnFlag : string;
  hsnTax : string;
  saleRate : string;
  mrp : string;
}.

(** [interface QuotationPart extends Part { quantity: number }] *)
Record QuotationPart := {
  part :> Part;
  quantity : Number;
}.

End Types.

(** ** [services/fileParser] *)

Module FileParser.
Import JS Types.

(** The settled outcome of a [Promise<A>]; [reject] carries the message of
    the [Error]. *)
Inductive Promise (A : Type) :=
| resolve (value : A)
| reject (message : string).
Arguments resolve {A} value.
Arguments reject {A} message.

Definition REQUIRED_HEADERS : list string :=
  [ "itemNo"; "itemDescription"; "itemGroup"; "model";
    "bhlHlnFlag"; "hsnTax"; "saleRate"; "mrp" ].

(** The own properties of the object literal [HEADER_MAPPING]. *)
Definition HEADER_MAPPING_own : gmap string string :=
  list_to_map
    [ ("item no", "itemNo");
      ("item no.", "itemNo");
      ("item description", "itemDescription");
      ("description", "itemDescription");
      ("item group", "itemGroup");
      ("model", "model");
      ("bhl/hln flag", "bhlHlnFlag");
      ("hsn tax %", "hsnTax");
      ("hsn tax", "hsnTax");
      ("sale rate", "saleRate");
      ("mrp", "mrp") ].

(** The property names every object literal inherits from
    [Object.prototype]. *)
Definition Object_prototype_names : list string :=
  [ "constructor"; "__defineGetter__"; "__defineSetter__"; "hasOwnProperty";
    "__lookupGetter__"; "__lookupSetter__"; "isPrototypeOf";
    "propertyIsEnumerable"; "toString"; "valueOf"; "__proto__";
    "toLocaleString" ].

Definition isInherited (h : string) : bool :=
  existsb (String.eqb h) Object_prototype_names.

(** What [HEADER_MAPPING[h]] evaluates to when it is not [undefined]: the
    canonical key stored under [h], or, for a name the literal does not
    define itself, the (truthy) function or object found on the prototype
    chain. *)
Inductive Mapped :=
| PartKey (k : string)
| Inherited (name : string).

Definition HEADER_MAPPING (h : string) : option Mapped :=
  match HEADER_MAPPING_own !! h with
  | Some k => Some (PartKey k)
  | None => if isInherited h then Some (Inherited h) else None
  end.

(** [String(v)] for an inherited value [v], as used when it is the key of a
    property assignment or is coerced to text. *)
Definition String_inherited (name : string) : string :=
  if String.eqb name "__proto__" then "[object Object]"
  else "function "
       +:+ (if String.eqb name "constructor" then "Object" else name)
       +:+ "() { [native code] }".

(** The property name under which [part[partKey] = ...] stores. *)
Definition ToPropertyKey (partKey : Mapped) : string :=
  match partKey with
  | PartKey k => k
  | Inherited name => String_inherited name
  end.

(** [foundHeaders.includes(rh)] for a string [rh]. *)
Definition includes (rh : string) (foundHeaders : list Mapped) : bool :=
  existsb (fun h => match h with
                    | PartKey k => String.eqb k rh
                    | Inherited _ => false
                    end) foundHeaders.

Definition normalizeHeader (header : string) : string :=
  trim (toLowerCase header).

(** [REQUIRED_HEADERS.filter(rh => !foundHeaders.includes(rh))] *)
Definition missingHeaders (foundHeaders : list Mapped) : list string :=
  List.filter (fun rh => negb (includes rh foundHeaders)) REQUIRED_HEADERS.

Definition missingColumnsMessage (missing : list string) : string :=
  "Missing required columns: " +:+ join ", " missing.

(** [part as Part]: the typed view of the object that was built.  A field
    the object lacks would read as [undefined]; the cast is reached only
    after the required-column check, where all eight are present. *)
Definition asPart (o : gmap string string) : Part :=
  {| itemNo := default "" (o !! "itemNo");
     itemDescription := default "" (o !! "itemDescription");
     itemGroup := default "" (o !! "itemGroup");
     model := default "" (o !! "model");
     bhlHlnFlag := default "" (o !! "bhlHlnFlag");
     hsnTax := default "" (o !! "hsnTax");
     saleRate := default "" (o !! "saleRate");
     mrp := default "" (o !! "mrp") |}.

(** [file.name.split('.').pop()]: the text after the last dot, the whole
    name when it has none. *)
Fixpoint lastSegment (acc s : string) : string :=
  match s with
  | EmptyString => acc
  | String c r =>
      if Ascii.eqb c "." then lastSegment "" r
      else lastSegment (acc +:+ String c "") r
  end.

(** What [Papa.parse] hands to its callbacks: [error], or [complete] with
    [results.errors] (their messages), [results.meta.fields] and
    [results.data] (one object per data line, keyed by header). *)
Inductive PapaRead :=
| PapaError (message : string)
| PapaComplete (errors : list string) (fields : list string)
    (data : list (gmap string string)).

(** [row[rawHeader] ?? ''] coerced by [String]: an own property of the row,
    else what the prototype chain gives, else the empty string. *)
Definition csvCellText (row : gmap string string) (rawHeader : string) : string :=
  match row !! rawHeader with
  | Some v => v
  | None => if isInherited rawHeader then String_inherited rawHeader else ""
  end.

(** The body of [for (const rawHeader of headers)] in [parseCsvTsv]. *)
Fixpoint csvRow_object (row : gmap string string) (headers : list string)
    (part : gmap string string) : gmap string string :=
  match headers with
  | [] => part
  | rawHeader :: rest =>
      csvRow_object row rest
        match HEADER_MAPPING rawHeader with
        | Some partKey => <[ToPropertyKey partKey := csvCellText row rawHeader]> part
        | None => part
        end
  end.

Definition parseCsvTsv (read : PapaRead) : Promise (list Part) :=
  match read with
  | PapaError message => reject ("Failed to parse file: " +:+ message)
  | PapaComplete errors fields data =>
      match errors with
      | e :: _ => reject ("CSV parsing error: " +:+ e)
      | [] =>
          let headers := map normalizeHeader fields in
          let headerMapValues := map HEADER_MAPPING headers in
          let foundHeaders := omap id headerMapValues in
          let missing := missingHeaders foundHeaders in
          if (0 <? Z.of_nat (length missing)) then
            reject (missingColumnsMessage missing)
          else
            resolve (map (fun row => asPart (csvRow_object row headers ∅)) data)
      end
  end.

Section Spreadsheet.

(** The values a sheet cell can hold (text, numbers, booleans, dates) and
    JavaScript's [String] on them. *)
Variable Cell : Type.
Variable String_ : Cell -> string.

(** A row of [sheet_to_json(worksheet, { header: 1 })]: an array of cell
    values in which an empty cell is absent ([None]). *)
Definition Row := list (option Cell).

(** What the [FileReader] and [XLSX] deliver: [onerror], an exception
    inside [onload], or the rows of the first sheet. *)
Inductive SheetRead :=
| ReaderError
| SheetThrows
| Sheet (json : list Row).

(** [String(row[index] ?? '')] *)
Definition cellText (row : Row) (index : nat) : string :=
  match row !! index with
  | Some (Some value) => String_ value
  | _ => ""
  end.

(** The [forEach] of [processRow], from column [index] on. *)
Fixpoint processRow_from (row : Row) (index : nat)
    (headerMap : list (option Mapped)) (part : gmap string string)
  : gmap string string :=
  match headerMap with
  | [] => part
  | partKey :: rest =>
      processRow_from row (S index) rest
        match partKey with
        | Some k => <[ToPropertyKey k := cellText row index]> part
        | None => part
        end
  end.

Definition processRow_object (row : Row) (headerMap : list (option Mapped))
  : gmap string string :=
  processRow_from row 0 headerMap ∅.

Definition processRow (row : Row) (headerMap : list (option Mapped)) : Part :=
  asPart (processRow_object row headerMap).

(** [json[0].map(h => normalizeHeader(String(h)))]; an absent header cell is
    a hole of the array, which [map], [filter] and [forEach] skip. *)
Definition sheetHeaders (json : list Row) : list (option string) :=
  map (option_map (fun h => normalizeHeader (String_ h))) (hd [] json).

(** [headers.map(h => HEADER_MAPPING[h] || null)] *)
Definition sheetHeaderMap (json : list Row) : list (option Mapped) :=
  map (fun h => match h with
                | Some h => HEADER_MAPPING h
                | None => None
                end) (sheetHeaders json).

Definition parseExcel (read : SheetRead) : Promise (list Part) :=
  match read with
  | ReaderError => reject "Could not read the file."
  | SheetThrows => reject "Failed to parse Excel file."
  | Sheet json =>
      if (Z.of_nat (length json) <? 2) then
        reject "File is empty or contains only headers."
      else
        let headerMap := sheetHeaderMap json in
        let foundHeaders := omap id headerMap in
        let missing := missingHeaders foundHeaders in
        if (0 <? Z.of_nat (length missing)) then
          reject (missingColumnsMessage missing)
        else
          resolve (map (fun row => processRow row headerMap) (tail json))
  end.

(** An uploaded file: its name and what each reader makes of its bytes. *)
Record File := {
  name : string;
  sheet : SheetRead;
  papa : PapaRead;
}.

Definition extensionOf (file : File) : string :=
  toLowerCase (lastSegment "" (name file)).

Definition parsePartsFile (file : File) : Promise (list Part) :=
  let extension := extensionOf file in
  if String.eqb extension "xlsx" then parseExcel (sheet file)
  else if (String.eqb extension "csv" || String.eqb extension "tsv")%bool then
    parseCsvTsv (papa file)
  else reject "File format not supported. Please upload CSV, TSV, or Excel.".

End Spreadsheet.

End FileParser.

(** ** [App] *)

Module App.
Import JS Types FileParser.

Inductive UploadStatus := idle | loading | success | error.

Definition MAX_PARTS_LIMIT : Z := 65000.

(** One entry of [fuse.search(...)] (the index is built with
    [includeScore: true]). *)
Record FuseResult := {
  item : Part;
  refIndex : nat;
  score : Number;
}.

(** The component's state: its [useState] cells, and [fuseRef.current],
    the index, represented by the array it was built from ([None] for
    [null]). *)
Record AppState := {
  parts : list Part;
  searchResults : option (list Part);
  searchQuery : string;
  uploadStatus : UploadStatus;
  uploadMessage : string;
  isUploadModalOpen : bool;
  quotationParts : list QuotationPart;
  isQuotationOpen : bool;
  discountPercentage : Number;
  fuseRef : option (list Part);
}.

Definition initialState : AppState :=
  {| parts := []; searchResults := None; searchQuery := "";
     uploadStatus := idle; uploadMessage := ""; isUploadModalOpen := true;
     quotationParts := []; isQuotationOpen := false;
     discountPercentage := Number_of_Z 0; fuseRef := None |}.

Definition setParts (v : list Part) (st : AppState) : AppState :=
  {| parts := v; searchResults := searchResults st;
     searchQuery := searchQuery st; uploadStatus := uploadStatus st;
     uploadMessage := uploadMessage st;
     isUploadModalOpen := isUploadModalOpen st;
     quotationParts := quotationParts st;
     isQuotationOpen := isQuotationOpen st;
     discountPercentage := discountPercentage st; fuseRef := fuseRef st |}.

Definition setSearchResults (v : option (list Part)) (st : AppState) : AppState :=
  {| parts := parts st; searchResults := v;
     searchQuery := searchQuery st; uploadStatus := uploadStatus st;
     uploadMessage := uploadMessage st;
     isUploadModalOpen := isUploadModalOpen st;
     quotationParts := quotationParts st;
     isQuotationOpen := isQuotationOpen st;
     discountPercentage := discountPercentage st; fuseRef := fuseRef st |}.

Definition setSearchQuery (v : string) (st : AppState) : AppState :=
  {| parts := parts st; searchResults := searchResults st;
     searchQuery := v; uploadStatus := uploadStatus st;
     uploadMessage := uploadMessage st;
     isUploadModalOpen := isUploadModalOpen st;
     quotationParts := quotationParts st;
     isQuotationOpen := isQuotationOpen st;
     discountPercentage := discountPercentage st; fuseRef := fuseRef st |}.

Definition setUploadStatus (v : UploadStatus) (st : AppState) : AppState :=
  {| parts := parts st; searchResults := searchResults st;
     searchQuery := searchQuery st; uploadStatus := v;
     uploadMessage := uploadMessage st;
     isUploadModalOpen := isUploadModalOpen st;
     quotationParts := quotationParts st;
     isQuotationOpen := isQuotationOpen st;
     discountPercentage := discountPercentage st; fuseRef := fuseRef st |}.

Definition setUploadMessage (v : string) (st : AppState) : AppState :=
  {| parts := parts st; searchResults := searchResults st;
     searchQuery := searchQuery st; uploadStatus := uploadStatus st;
     uploadMessage := v;
     isUploadModalOpen := isUploadModalOpen st;
     quotationParts := quotationParts st;
     isQuotationOpen := isQuotationOpen st;
     discountPercentage := discountPercentage st; fuseRef := fuseRef st |}.

Definition setQuotationParts (v : list QuotationPart) (st : AppState) : AppState :=
  {| parts := parts st; searchResults := searchResults st;
     searchQuery := searchQuery st; uploadStatus := uploadStatus st;
     uploadMessage := uploadMessage st;
     isUploadModalOpen := isUploadModalOpen st;
     quotationParts := v;
     isQuotationOpen := isQuotationOpen st;
     discountPercentage := discountPercentage st; fuseRef := fuseRef st |}.

Definition setDiscountPercentage (v : Number) (st : AppState) : AppState :=
  {| parts := parts st; searchResults := searchResults st;
     searchQuery := searchQuery st; uploadStatus := uploadStatus st;
     uploadMessage := uploadMessage st;
     isUploadModalOpen := isUploadModalOpen st;
     quotationParts := quotationParts st;
     isQuotationOpen := isQuotationOpen st;
     discountPercentage := v; fuseRef := fuseRef st |}.

Definition setFuseRef (v : option (list Part)) (st : AppState) : AppState :=
  {| parts := parts st; searchResults := searchResults st;
     searchQuery := searchQuery st; uploadStatus := uploadStatus st;
     uploadMessage := uploadMessage st;
     isUploadModalOpen := isUploadModalOpen st;
     quotationParts := quotationParts st;
     isQuotationOpen := isQuotationOpen st;
     discountPercentage := discountPercentage st; fuseRef := v |}.

(** The effect that runs after [parts] has changed: a non-empty catalog gets
    a fresh index, an empty one leaves [fuseRef] as it was. *)
Definition useEffect_parts (st : AppState) : AppState :=
  if (0 <? Z.of_nat (length (parts st))) then setFuseRef (Some (parts st)) st
  else st.

Definition sizeExceededMessage (n : Z) : string :=
  "File contains " +:+ pretty n +:+ " items, exceeding the limit of "
  +:+ pretty MAX_PARTS_LIMIT +:+ ".".

Section Upload.

Variable Cell : Type.
Variable String_ : Cell -> string.

(** The [try] block of [handleFileChange] up to the first state update: the
    awaited parse, then the size check, whose [throw] lands in the same
    [catch] as a rejected parse. *)
Definition ingest (file : File Cell) : Promise (list Part) :=
  match parsePartsFile Cell String_ file with
  | resolve parsedData =>
      if (MAX_PARTS_LIMIT <? Z.of_nat (length parsedData)) then
        reject (sizeExceededMessage (Z.of_nat (length parsedData)))
      else resolve parsedData
  | reject message => reject message
  end.

(** [handleFileChange], for [event.target.files?.[0]] being [file], with no
    other event between the selection and the settling of the promise.
    (Closing the dialog two seconds after a success is a later event of its
    own, and clearing the file input does not touch the state.) *)
Definition handleFileChange (file : option (File Cell)) (st : AppState) : AppState :=
  match file with
  | None => st
  | Some file =>
      let st := setUploadStatus loading st in
      let st := setUploadMessage "Parsing your file..." st in
      let st := setSearchResults None st in
      let st := setSearchQuery "" st in
      match ingest file with
      | resolve parsedData =>
          let st := setParts parsedData st in
          let st := setQuotationParts [] st in
          let st := setDiscountPercentage (Number_of_Z 0) st in
          let st := setUploadStatus success st in
          setUploadMessage
            ("✔️ " +:+ pretty (Z.of_nat (length parsedData))
             +:+ " parts uploaded successfully.") st
      | reject message =>
          let st := setUploadStatus error st in
          let st := setUploadMessage ("⚠️ " +:+ message) st in
          let st := setParts [] st in
          let st := setQuotationParts [] st in
          setDiscountPercentage (Number_of_Z 0) st
      end
  end.

(** A file selection followed by the re-render it causes. *)
Definition upload (file : File Cell) (st : AppState) : AppState :=
  useEffect_parts (handleFileChange (Some file) st).

End Upload.

Section Search.

(** [fuse.search(pattern)] for the index built from a catalog with the
    options of the source (keys [itemNo] and [itemDescription], threshold
    0.4, [minMatchCharLength] 2, case-insensitive): the candidates, best
    score first. *)
Variable Fuse_search : list Part -> string -> list FuseResult.

Definition handleSearch (st : AppState) : AppState :=
  let trimmedQuery := trim (searchQuery st) in
  if String.eqb trimmedQuery "" then setSearchResults None st
  else
    match fuseRef st with
    | Some index =>
        let resultsWithScore := Fuse_search index trimmedQuery in
        let exactMatch :=
          List.find
            (fun result =>
               String.eqb (toLowerCase (itemNo (item result)))
                          (toLowerCase trimmedQuery))
            resultsWithScore in
        match exactMatch with
        | Some exactMatch => setSearchResults (Some [item exactMatch]) st
        | None => setSearchResults (Some (map item resultsWithScore)) st
        end
    | None => st
    end.

End Search.

Definition handleClear (st : AppState) : AppState :=
  setSearchResults None (setSearchQuery "" st).

(** The handlers below run in the render that shows the current state, so
    that the [quotationParts] they close over and the [prevParts] their
    updaters receive are the same array. *)
Definition handleAddToQuotation (partToAdd : Part) (st : AppState) : AppState :=
  if negb (existsb (fun p : QuotationPart => String.eqb (itemNo p) (itemNo partToAdd))
             (quotationParts st))
  then
    setQuotationParts
      (quotationParts st ++ [ {| part := partToAdd; quantity := Number_of_Z 1 |} ]) st
  else st.

Definition handleRemoveFromQuotation (itemNoToRemove : string) (st : AppState) : AppState :=
  setQuotationParts
    (List.filter (fun p : QuotationPart => negb (String.eqb (itemNo p) itemNoToRemove))
       (quotationParts st)) st.

Definition handleUpdateQuotationQuantity (itemNoToUpdate : string)
    (newQuantity : Number) (st : AppState) : AppState :=
  let quantity := Math_max (Number_of_Z 0) newQuantity in
  if Number_strictEq quantity (Number_of_Z 0) then
    handleRemoveFromQuotation itemNoToUpdate st
  else
    setQuotationParts
      (map (fun p : QuotationPart =>
              if String.eqb (itemNo p) itemNoToUpdate
              then {| part := part p; quantity := quantity |}
              else p)
         (quotationParts st)) st.

Definition handleClearQuotation (st : AppState) : AppState :=
  setDiscountPercentage (Number_of_Z 0) (setQuotationParts [] st).

Definition isPartInQuotation (itemNo_ : string) (st : AppState) : bool :=
  existsb (fun p : QuotationPart => String.eqb (itemNo p) itemNo_) (quotationParts st).

(** The prop [onDiscountChange={setDiscountPercentage}] handed to the
    sidebar. *)
Definition onDiscountChange : Number -> AppState -> AppState := setDiscountPercentage.


Definition setIsUploadModalOpen (v : bool) (st : AppState) : AppState :=
  {| parts := parts st; searchResults := searchResults st;
     searchQuery := searchQuery st; uploadStatus := uploadStatus st;
     uploadMessage := uploadMessage st;
     isUploadModalOpen := v;
     quotationParts := quotationParts st;
     isQuotationOpen := isQuotationOpen st;
     discountPercentage := discountPercentage st; fuseRef := fuseRef st |}.

Definition setIsQuotationOpen (v : bool) (st : AppState) : AppState :=
  {| parts := parts st; searchResults := searchResults st;
     searchQuery := searchQuery st; uploadStatus := uploadStatus st;
     uploadMessage := uploadMessage st;
     isUploadModalOpen := isUploadModalOpen st;
     quotationParts := quotationParts st;
     isQuotationOpen := v;
     discountPercentage := discountPercentage st; fuseRef := fuseRef st |}.

(** [const hasData = parts.length > 0] *)
Definition hasData (st : AppState) : bool := 0 <? Z.of_nat (length (parts st)).

Section UploadSteps.

Variable Cell : Type.
Variable String_ : Cell -> string.

(** [handleFileChange] up to its [await]: what it does at once when a file
    is selected. *)
Definition handleFileChange_start (st : AppState) : AppState :=
  let st := setUploadStatus loading st in
  let st := setUploadMessage "Parsing your file..." st in
  let st := setSearchResults None st in
  setSearchQuery "" st.

(** [handleFileChange] from its [await] on: what it does when the parse of
    [file] has settled, in the state of that moment. *)
Definition handleFileChange_settle (file : File Cell) (st : AppState) : AppState :=
  match ingest Cell String_ file with
  | resolve parsedData =>
      let st := setParts parsedData st in
      let st := setQuotationParts [] st in
      let st := setDiscountPercentage (Number_of_Z 0) st in
      let st := setUploadStatus success st in
      setUploadMessage
        ("✔️ " +:+ pretty (Z.of_nat (length parsedData))
         +:+ " parts uploaded successfully.") st
  | reject message =>
      let st := setUploadStatus error st in
      let st := setUploadMessage ("⚠️ " +:+ message) st in
      let st := setParts [] st in
      let st := setQuotationParts [] st in
      setDiscountPercentage (Number_of_Z 0) st
  end.

End UploadSteps.

End App.

(** ** [components/QuotationSidebar] *)

Module QuotationSidebar.
Import JS Types.

(** The characters the class [[^0-9.-]] leaves in place. *)
Definition isCurrencyChar (c : ascii) : bool :=
  (isDigit c || Ascii.eqb c "." || Ascii.eqb c "-")%bool.

Definition parseCurrency (value : string) : Number :=
  let number := parseFloat (replace_outside isCurrencyChar value) in
  if isNaN number then Number_of_Z 0 else number.

Record Totals := {
  subtotal : Number;
  discountAmount : Number;
  total : Number;
}.

(** The [useMemo] of the sidebar. *)
Definition totals (parts : list QuotationPart) (discount : Number) : Totals :=
  let subtotal :=
    fold_left
      (fun acc (part : QuotationPart) =>
         Number_add acc (Number_mul (parseCurrency (mrp part)) (quantity part)))
      parts (Number_of_Z 0) in
  let discountAmount := Number_mul subtotal (Number_div discount (Number_of_Z 100)) in
  let total := Number_sub subtotal discountAmount in
  {| subtotal := subtotal; discountAmount := discountAmount; total := total |}.

(** The [onChange] of the discount input, [value] being [e.target.value]. *)
Definition discount_onChange {A : Type} (onDiscountChange : Number -> A)
    (value : string) : A :=
  let val :=
    Math_max (Number_of_Z 0)
      (Math_min (Number_of_Z 100) (Number_or (parseFloat value) (Number_of_Z 0))) in
  onDiscountChange val.

(** The sidebar as [App] renders it: typing [value] into the discount
    input. *)
Definition typeDiscount (value : string) (st : App.AppState) : App.AppState :=
  discount_onChange App.onDiscountChange value st.


(** The [onClick] of a line's "-" button. *)
Definition minus_onClick {A : Type} (onUpdateQuantity : string -> Number -> A)
    (part : QuotationPart) : A :=
  onUpdateQuantity (itemNo part) (Number_sub (quantity part) (Number_of_Z 1)).

(** The [onChange] of a line's quantity input, [value] being
    [e.target.value]. *)
Definition quantity_onChange {A : Type} (onUpdateQuantity : string -> Number -> A)
    (part : QuotationPart) (value : string) : A :=
  onUpdateQuantity (itemNo part) (Number_or (parseInt value) (Number_of_Z 1)).

(** The [onClick] of a line's "+" button. *)
Definition plus_onClick {A : Type} (onUpdateQuantity : string -> Number -> A)
    (part : QuotationPart) : A :=
  onUpdateQuantity (itemNo part) (Number_add (quantity part) (Number_of_Z 1)).

(** The [onClick] of a line's trash button. *)
Definition remove_onClick {A : Type} (onRemove : string -> A)
    (part : QuotationPart) : A :=
  onRemove (itemNo part).

(** The sidebar as [App] renders it, with
    [onUpdateQuantity={handleUpdateQuotationQuantity}] and
    [onRemove={handleRemoveFromQuotation}]. *)
Definition pressMinus (line : QuotationPart) (st : App.AppState) : App.AppState :=
  minus_onClick App.handleUpdateQuotationQuantity line st.

Definition typeQuantity (line : QuotationPart) (value : string)
    (st : App.AppState) : App.AppState :=
  quantity_onChange App.handleUpdateQuotationQuantity line value st.

Definition pressPlus (line : QuotationPart) (st : App.AppState) : App.AppState :=
  plus_onClick App.handleUpdateQuotationQuantity line st.

Definition pressRemove (line : QuotationPart) (st : App.AppState) : App.AppState :=
  remove_onClick App.handleRemoveFromQuotation line st.

End QuotationSidebar.

(** ** [components/PartCard] *)

Module PartCard.
Import JS Types.

Section Formatting.

(** [new Intl.NumberFormat('en-IN', { style: 'currency', ... }).format]:
    the browser's rendering of a number as an amount in rupees. *)
Variable Intl_format : Number -> string.

(** The card's [formatCurrency]; its character class is the one of the
    sidebar's [parseCurrency]. *)
Definition formatCurrency (value : string) : string :=
  let number := parseFloat (replace_outside QuotationSidebar.isCurrencyChar value) in
  if isNaN number then value else Intl_format number.

(** What a [DetailRow] shows for its value. *)
Definition DetailRow_text (value : string) (isCurrency : bool) : string :=
  if isCurrency then formatCurrency value else value.

End Formatting.

End PartCard.

(** ** The events of the interface *)

Module Events.
Import JS Types FileParser App QuotationSidebar.

Section Wiring.

Variable Cell : Type.
Variable String_ : Cell -> string.
Variable Fuse_search : list Part -> string -> list FuseResult.

(** What the user, the timer that closes the upload dialog and the reader
    of a selected file can do; each event names the element of the
    rendered page it comes from.  A file selection is two events, the
    selection and the settling of the parse, between which others may
    come. *)
Inductive Event :=
| SelectFile (file : File Cell)
| FileSettled (file : File Cell)
| OpenUploadDialog
| CloseUploadDialog
| OpenQuotation
| CloseQuotation
| TypeQuery (value : string)
| PressSearch
| PressClear
| PressAdd (part : Part)
| PressRemove (line : QuotationPart)
| PressMinus (line : QuotationPart)
| PressPlus (line : QuotationPart)
| TypeQuantity (line : QuotationPart) (value : string)
| PressClearQuotation
| TypeDiscount (value : string).

(** The handler the page attaches to the element, followed, when the parse
    of a file has settled, by the effect on the changed catalog. *)
Definition dispatch (ev : Event) (st : AppState) : AppState :=
  match ev with
  | SelectFile file => handleFileChange_start st
  | FileSettled file => useEffect_parts (handleFileChange_settle Cell String_ file st)
  | OpenUploadDialog => setIsUploadModalOpen true st
  | CloseUploadDialog => setIsUploadModalOpen false st
  | OpenQuotation => setIsQuotationOpen true st
  | CloseQuotation => setIsQuotationOpen false st
  | TypeQuery value => setSearchQuery value st
  | PressSearch => handleSearch Fuse_search st
  | PressClear => handleClear st
  | PressAdd part => handleAddToQuotation part st
  | PressRemove line => pressRemove line st
  | PressMinus line => pressMinus line st
  | PressPlus line => pressPlus line st
  | TypeQuantity line value => typeQuantity line value st
  | PressClearQuotation => handleClearQuotation st
  | TypeDiscount value => typeDiscount value st
  end.

(** The buttons and the input of a line exist for the lines of the ledger
    only.  (The page restricts the events further: the search box needs a
    catalog, the sidebar must be open, a card's button is disabled once its
    part is in the quotation, a parse settles only for a file that was
    selected.  None of that is needed below.) *)
Definition offered (ev : Event) (st : AppState) : Prop :=
  match ev with
  | PressRemove line | PressMinus line | PressPlus line | TypeQuantity line _ =>
      In line (quotationParts st)
  | _ => True
  end.

(** The states the page can be in. *)
Inductive reachable : AppState -> Prop :=
| reachable_initial : reachable initialState
| reachable_event (st : AppState) (ev : Event) :
    reachable st -> offered ev st -> reachable (dispatch ev st).

End Wiring.

End Events.

(** ** Notions used to state the properties *)

Module Spec.
Import JS Types FileParser App QuotationSidebar.

(** The sum of a sequence of numbers, taken from left to right. *)
Definition Number_sum (xs : list Number) : Number :=
  fold_left Number_add xs (Number_of_Z 0).

(** A line's [mrp] as a number: everything but digits, dots and minus signs
    is stripped, and what does not parse counts as 0. *)
Definition parsedMrp (line : QuotationPart) : Number :=
  match parseFloat (replace_outside isCurrencyChar (mrp line)) with
  | NaN => Number_of_Z 0
  | n => n
  end.

(** The ledger lines with a given [itemNo]. *)
Definition linesOf (itemNo_ : string) (st : AppState) : list QuotationPart :=
  List.filter (fun p : QuotationPart => String.eqb (itemNo p) itemNo_)
    (quotationParts st).

(** No two lines of the ledger have the same [itemNo]. *)
Definition distinctItemNos (st : AppState) : Prop :=
  List.NoDup (map (fun p : QuotationPart => itemNo p) (quotationParts st)).

(** [setQuantity]'s replacement of a quantity. *)
Definition withQuantity (itemNo_ : string) (q : Number) (p : QuotationPart)
  : QuotationPart :=
  if String.eqb (itemNo p) itemNo_ then {| part := part p; quantity := q |} else p.

(** A normalised header [h] is a spelling of the canonical field [k]. *)
Definition spells (k : string) (h : string) : bool :=
  match HEADER_MAPPING_own !! h with
  | Some k' => String.eqb k' k
  | None => false
  end.

(** Some column of the header row is a source for the canonical field. *)
Definition hasSourceColumn (columns : list (option string)) (k : string) : bool :=
  existsb (fun c => match c with Some h => spells k h | None => false end) columns.

(** The text a data row holds for the canonical field [k]: that of its
    cell in the column that is a source for [k] (the last one, should there
    be several).  [texts] are the row's cell texts, column by column. *)
Fixpoint lastText (columns : list (option string)) (texts : list string)
    (k : string) : option string :=
  match columns, texts with
  | c :: columns', t :: texts' =>
      match lastText columns' texts' k with
      | Some x => Some x
      | None =>
          match c with
          | Some h => if spells k h then Some t else None
          | None => None
          end
      end
  | _, _ => None
  end.

Definition fieldOf (columns : list (option string)) (texts : list string)
    (k : string) : string :=
  default "" (lastText columns texts k).

(** The record a data row stands for. *)
Definition recordOf (columns : list (option string)) (texts : list string) : Part :=
  {| itemNo := fieldOf columns texts "itemNo";
     itemDescription := fieldOf columns texts "itemDescription";
     itemGroup := fieldOf columns texts "itemGroup";
     model := fieldOf columns texts "model";
     bhlHlnFlag := fieldOf columns texts "bhlHlnFlag";
     hsnTax := fieldOf columns texts "hsnTax";
     saleRate := fieldOf columns texts "saleRate";
     mrp := fieldOf columns texts "mrp" |}.

(** The field of a record that has a given canonical name. *)
Definition field (k : string) (p : Part) : string :=
  if String.eqb k "itemNo" then itemNo p
  else if String.eqb k "itemDescription" then itemDescription p
  else if String.eqb k "itemGroup" then itemGroup p
  else if String.eqb k "model" then model p
  else if String.eqb k "bhlHlnFlag" then bhlHlnFlag p
  else if String.eqb k "hsnTax" then hsnTax p
  else if String.eqb k "saleRate" then saleRate p
  else if String.eqb k "mrp" then mrp p
  else "".

(** A file as its reader presents it once it was read without error: the
    normalised header of each column ([None] for an absent header cell)
    and, per data row, the text of its cell in each of these columns, the
    empty string where the row has no cell there. *)
Record Table := {
  columns : list (option string);
  rows : list (list string);
}.

Definition csvTable (fields : list string) (data : list (gmap string string)) : Table :=
  let headers := map normalizeHeader fields in
  {| columns := map Some headers;
     rows := map (fun row => map (csvCellText row) headers) data |}.

(** The objects [parseCsvTsv] builds, before they are typed as [Part]. *)
Definition csvObjects (fields : list string) (data : list (gmap string string))
  : list (gmap string string) :=
  map (fun row => csvRow_object row (map normalizeHeader fields) ∅) data.

(** The value stored under a normalised header, for a header row given
    column by column. *)
Definition mappedColumn (c : option string) : option Mapped :=
  match c with
  | Some h => HEADER_MAPPING h
  | None => None
  end.

(** One step of either extraction loop: the assignment made for a column
    with header [c] and cell text [t]. *)
Definition assign (c : option string) (t : string) (part : gmap string string)
  : gmap string string :=
  match mappedColumn c with
  | Some partKey => <[ToPropertyKey partKey := t]> part
  | None => part
  end.

Fixpoint assignAll (columns : list (option string)) (texts : list string)
    (part : gmap string string) : gmap string string :=
  match columns, texts with
  | c :: columns', t :: texts' => assignAll columns' texts' (assign c t part)
  | _, _ => part
  end.

(** The messages of the five ingestion errors: unsupported format, empty or
    header-only sheet, missing columns, malformed file (the reader failed)
    and size exceeded. *)
Inductive IngestionError : string -> Prop :=
| UnsupportedFormat :
    IngestionError "File format not supported. Please upload CSV, TSV, or Excel."
| EmptyOrHeaderOnly :
    IngestionError "File is empty or contains only headers."
| MissingColumns (missing : list string) :
    missing <> [] -> IngestionError (missingColumnsMessage missing)
| MalformedFile_unreadable :
    IngestionError "Could not read the file."
| MalformedFile_sheet :
    IngestionError "Failed to parse Excel file."
| MalformedFile_syntax (detail : string) :
    IngestionError ("CSV parsing error: " +:+ detail)
| MalformedFile_text (detail : string) :
    IngestionError ("Failed to parse file: " +:+ detail)
| SizeExceeded (count : Z) :
    MAX_PARTS_LIMIT < count -> IngestionError (sizeExceededMessage count).

(** The required canonical fields without a source column. *)
Definition missingFields (columns : list (option string)) : list string :=
  List.filter (fun k => negb (hasSourceColumn columns k)) REQUIRED_HEADERS.

(** No column header is a name that object literals inherit. *)
Definition noInheritedHeader (columns : list (option string)) : bool :=
  forallb (fun c => match c with Some h => negb (isInherited h) | None => true end)
    columns.

Section Files.

Variable Cell : Type.
Variable String_ : Cell -> string.

Definition sheetTable (json : list (Row Cell)) : Table :=
  let headers := sheetHeaders Cell String_ json in
  {| columns := headers;
     rows := map (fun row => map (cellText Cell String_ row) (seq 0 (length headers)))
               (tail json) |}.

(** The objects [parseExcel] builds, before they are typed as [Part]. *)
Definition sheetObjects (json : list (Row Cell)) : list (gmap string string) :=
  map (fun row => processRow_object Cell String_ row (sheetHeaderMap Cell String_ json))
    (tail json).

(** The table of a supported file that was read without error and, for a
    spreadsheet, has at least two rows. *)
Definition tableOf (file : File Cell) : option Table :=
  let extension := extensionOf Cell file in
  if String.eqb extension "xlsx" then
    match sheet Cell file with
    | Sheet _ json =>
        if (2 <=? Z.of_nat (length json)) then Some (sheetTable json) else None
    | _ => None
    end
  else if (String.eqb extension "csv" || String.eqb extension "tsv")%bool then
    match papa Cell file with
    | PapaComplete [] fields data => Some (csvTable fields data)
    | _ => None
    end
  else None.

(** The objects built for such a file. *)
Definition objectsOf (file : File Cell) : list (gmap string string) :=
  if String.eqb (extensionOf Cell file) "xlsx" then
    match sheet Cell file with
    | Sheet _ json => sheetObjects json
    | _ => []
    end
  else
    match papa Cell file with
    | PapaComplete _ fields data => csvObjects fields data
    | _ => []
    end.

(** The header row of a file, whatever else is wrong with it. *)
Definition headerRow (file : File Cell) : list (option string) :=
  if String.eqb (extensionOf Cell file) "xlsx" then
    match sheet Cell file with
    | Sheet _ json => sheetHeaders Cell String_ json
    | _ => []
    end
  else
    match papa Cell file with
    | PapaComplete _ fields _ => map (fun h => Some (normalizeHeader h)) fields
    | _ => []
    end.

End Files.


(** A string made of white space only: of any number of the characters
    that count as white space in the language. *)
Inductive isBlank : string -> Prop :=
| blank_empty : isBlank ""
| blank_more (w s : string) : In w WhiteSpace -> isBlank s -> isBlank (w +:+ s).

(** A code point: a number up to [0x10FFFF] that is no surrogate. *)
Definition isScalar (cp : N) : bool :=
  ((cp <? 0xD800) || ((0xDFFF <? cp) && (cp <? 0x110000)))%N.

(** The code points an entry of [lowerCaseMappings] maps. *)
Definition mappedBy (entry : N * N * N * N) : list N :=
  let '(first, last, step, _) := entry in
  map (fun i => first + step * N.of_nat i)%N
    (seq 0 (S (N.to_nat ((last - first) / step)))).

Definition mappedCodePoints : list N := flat_map mappedBy lowerCaseMappings.

(** A code point that lower-casing leaves as it is, wherever it stands. *)
Definition isLowerCased (cp : N) : bool :=
  (negb (cp =? 0x3A3) && negb (cp =? 0x130) && (simpleLowerCase cp =? cp))%N.

(** A code point, or a byte at which no well-formed encoding begins. *)
Definition isDecoded (cp : N) : bool := (isScalar cp || (0x110000 <=? cp))%N.

(** [l'] is [l] with each code point replaced by one or more code points;
    the bytes outside encodings are where they were. *)
Inductive recased : list N -> list N -> Prop :=
| recased_nil : recased [] []
| recased_stray (cp : N) (l l' : list N) :
    (0x110000 <= cp)%N -> recased l l' -> recased (cp :: l) (cp :: l')
| recased_scalar (cp : N) (cps l l' : list N) :
    isScalar cp = true -> cps <> [] -> Forall (fun c => isScalar c = true) cps ->
    recased l l' -> recased (cp :: l) (cps ++ l').

(** The bytes of a character after its first. *)
Definition laterBytes (w : string) : list ascii :=
  match w with
  | String _ r => list_ascii_of_string r
  | EmptyString => []
  end.

(** The string begins with one of the given bytes. *)
Definition firstByteIn (bytes : list ascii) (s : string) : bool :=
  match s with
  | String c _ => existsb (Ascii.eqb c) bytes
  | EmptyString => false
  end.

(** The string holds no decimal digit. *)
Definition hasNoDigit (s : string) : bool :=
  forallb (fun c => negb (isDigit c)) (list_ascii_of_string s).

(** The string holds no digit, dot or minus sign. *)
Definition isDecoration (s : string) : bool :=
  forallb (fun c => negb (isCurrencyChar c)) (list_ascii_of_string s).

(** The string holds no dot. *)
Definition hasNoDot (s : string) : bool :=
  forallb (fun c => negb (Ascii.eqb c ".")) (list_ascii_of_string s).

(** A number that is neither [NaN] nor infinite. *)
Definition isFinite (x : Number) : bool :=
  match x with
  | S754_zero _ | S754_finite _ _ _ => true
  | _ => false
  end.

(** Every line of the ledger has a quantity above 0. *)
Definition positiveQuantities (st : AppState) : Prop :=
  forall line : QuotationPart,
    In line (quotationParts st) -> Number_gt (quantity line) (Number_of_Z 0) = true.

(** The discount lies between 0 and 100. *)
Definition discountInRange (st : AppState) : Prop :=
  Number_le (Number_of_Z 0) (discountPercentage st) = true /\
  Number_le (discountPercentage st) (Number_of_Z 100) = true.

(** A catalog that is not empty is the one the search index was built
    from. *)
Definition indexInSync (st : AppState) : Prop :=
  parts st <> [] -> fuseRef st = Some (parts st).

(** The catalog holds no more records than the limit. *)
Definition catalogWithinLimit (st : AppState) : Prop :=
  Z.of_nat (length (parts st)) <= MAX_PARTS_LIMIT.

(** A text of dots and minus signs only. *)
Definition dotsAndDashes (s : string) : bool :=
  forallb (fun c => (Ascii.eqb c "." || Ascii.eqb c "-")%bool)
    (list_ascii_of_string s).

End Spec.

(** ** Sample data *)

Module Sample.
Import JS Types FileParser App QuotationSidebar Spec.

(** Sheets whose cells all hold text. *)
Definition String_ (c : string) : string := c.

Definition headerCells : Row string :=
  [ Some "Item No."; Some "Description"; Some "Item Group"; Some "Model";
    Some "BHL/HLN Flag"; Some "HSN Tax %"; Some "Sale Rate"; Some " MRP ";
    Some "Remarks" ].

Definition oilFilterCells : Row string :=
  [ Some "AB-123"; Some "Oil filter"; Some "Filters"; Some "3DX";
    Some "BHL"; Some "18"; Some "₹450.00"; Some "₹500.00"; Some "fast moving" ].

Definition oilFilter : Part :=
  {| itemNo := "AB-123"; itemDescription := "Oil filter";
     itemGroup := "Filters"; model := "3DX"; bhlHlnFlag := "BHL";
     hsnTax := "18"; saleRate := "₹450.00"; mrp := "₹500.00" |}.



(** A spreadsheet with the header row and [n] copies of one data row. *)
Definition sheetFile (n : nat) : File string :=
  {| name := "parts.xlsx";
     sheet := Sheet string (headerCells :: repeat oilFilterCells n);
     papa := PapaError "" |}.


(** A spreadsheet that has all eight columns and no data row. *)
Definition headerOnlyFile : File string :=
  {| name := "catalog.xlsx";
     sheet := Sheet string [headerCells];
     papa := PapaError "" |}.

(** A spreadsheet that has a single column and no data row. *)
Definition shortHeaderOnlyFile : File string :=
  {| name := "short.xlsx";
     sheet := Sheet string [[Some "Item No"]];
     papa := PapaError "" |}.

(** A comma-separated file without the columns for [saleRate] and [mrp]. *)
Definition noPricesFile : File string :=
  {| name := "parts.CSV";
     sheet := ReaderError string;
     papa :=
       PapaComplete []
         [ "item no"; "description"; "item group"; "model"; "bhl/hln flag";
           "hsn tax" ]
         [ list_to_map
             [ ("item no", "AB-123"); ("description", "Oil filter");
               ("item group", "Filters"); ("model", "3DX");
               ("bhl/hln flag", "BHL"); ("hsn tax", "18") ] ] |}.

(** A tab-separated file with all eight columns, in another order. *)
Definition tsvFile : File string :=
  {| name := "parts.tsv";
     sheet := ReaderError string;
     papa :=
       PapaComplete []
         [ "mrp"; "item no"; "item description"; "item group"; "model";
           "bhl/hln flag"; "hsn tax %"; "sale rate"; "remarks" ]
         [ list_to_map
             [ ("mrp", "₹500.00"); ("item no", "AB-123");
               ("item description", "Oil filter");
               ("item group", "Filters"); ("model", "3DX");
               ("bhl/hln flag", "BHL"); ("hsn tax %", "18");
               ("sale rate", "₹450.00"); ("remarks", "fast moving") ] ] |}.

(** A search engine that offers every record of the index, in its order. *)
Definition offerAll (index : list Part) (pattern : string) : list FuseResult :=
  imap (fun i p => {| item := p; refIndex := i; score := Number_of_Z 0 |}) index.



(** A ledger that holds one line. *)
Definition oneLineState : AppState :=
  handleAddToQuotation oilFilter initialState.

(** A ledger line with a given item number, price and quantity. *)
Definition line (itemNo_ mrp_ : string) (q : Z) : QuotationPart :=
  {| part := {| itemNo := itemNo_; itemDescription := ""; itemGroup := "";
                model := ""; bhlHlnFlag := ""; hsnTax := ""; saleRate := "";
                mrp := mrp_ |};
     quantity := Number_of_Z q |}.

Definition pump : Part :=
  {| itemNo := "AB-1234"; itemDescription := "Water pump";
     itemGroup := "Pumps"; model := "3DX"; bhlHlnFlag := "HLN";
     hsnTax := "28"; saleRate := "₹900"; mrp := "₹1,000.50" |}.

Definition pumpCells : Row string :=
  [ Some "AB-1234"; Some "Water pump"; Some "Pumps"; Some "3DX";
    Some "HLN"; Some "28"; Some "₹900"; Some "₹1,000.50" ].

(** A row whose item-number cell is blank. *)
Definition unnumberedCells : Row string :=
  [ None; Some "Washer"; Some "Hardware"; Some "3DX";
    Some "BHL"; Some "18"; Some "₹4"; Some "₹5" ].

Definition unnumbered : Part :=
  {| itemNo := ""; itemDescription := "Washer";
     itemGroup := "Hardware"; model := "3DX"; bhlHlnFlag := "BHL";
     hsnTax := "18"; saleRate := "₹4"; mrp := "₹5" |}.

(** The state after a catalog of a pump and an oil filter was uploaded and
    the oil filter's number typed into the search box. *)
Definition searchState : AppState :=
  setSearchQuery "  ab-123 "
    (upload string String_
       {| name := "parts.xlsx";
          sheet := Sheet string [headerCells; pumpCells; oilFilterCells];
          papa := PapaError "" |}
       initialState).



(** A spreadsheet with a pump and an oil filter, named in capitals. *)
Definition twoPartsFile : File string :=
  {| name := "Parts.Final.XLSX";
     sheet := Sheet string [headerCells; pumpCells; oilFilterCells];
     papa := PapaError "" |}.

(** A file of a kind that is not supported. *)
Definition notesFile : File string :=
  {| name := "parts.xlsx.txt";
     sheet := Sheet string [headerCells; oilFilterCells];
     papa := PapaError "" |}.

(** A comma-separated file with the eight columns and no data line. *)
Definition headerOnlyTextFile : File string :=
  {| name := "parts.csv";
     sheet := ReaderError string;
     papa :=
       PapaComplete []
         [ "item no"; "description"; "item group"; "model"; "bhl/hln flag";
           "hsn tax"; "sale rate"; "mrp" ]
         [] |}.

(** NO-BREAK SPACE, IDEOGRAPHIC SPACE and the byte order mark. *)
Definition nbsp : string := encodeUTF8 0xA0.
Definition ideographicSpace : string := encodeUTF8 0x3000.
Definition byteOrderMark : string := encodeUTF8 0xFEFF.

(** The state after a catalog was uploaded and white space of several
    kinds typed into the search box. *)
Definition whiteSpaceState : AppState :=
  setSearchQuery (nbsp +:+ " " +:+ ideographicSpace)
    (upload string String_ twoPartsFile initialState).

(** A header row in which the price column comes twice, the second time
    with NO-BREAK SPACE around its header. *)
Definition paddedHeaderCells : Row string :=
  [ Some "Item No"; Some "Description"; Some "Item Group"; Some "Model";
    Some "BHL/HLN Flag"; Some "HSN Tax"; Some "Sale Rate"; Some "MRP";
    Some (nbsp +:+ "MRP" +:+ nbsp) ].

Definition repricedCells : Row string :=
  [ Some "AB-123"; Some "Oil filter"; Some "Filters"; Some "3DX";
    Some "BHL"; Some "18"; Some "₹450.00"; Some "₹500.00"; Some "₹550.00" ].

Definition repriced : Part :=
  {| itemNo := "AB-123"; itemDescription := "Oil filter";
     itemGroup := "Filters"; model := "3DX"; bhlHlnFlag := "BHL";
     hsnTax := "18"; saleRate := "₹450.00"; mrp := "₹550.00" |}.

Definition repricedFile : File string :=
  {| name := "parts.xlsx";
     sheet := Sheet string [paddedHeaderCells; repricedCells];
     papa := PapaError "" |}.

(** A spreadsheet whose price column has NO-BREAK SPACE around its header
    and a byte order mark in front of its first header. *)
Definition paddedFile : File string :=
  {| name := "parts.xlsx";
     sheet :=
       Sheet string
         [ [ Some (byteOrderMark +:+ "Item No"); Some "Description";
             Some "Item Group"; Some "Model"; Some "BHL/HLN Flag";
             Some "HSN Tax"; Some "Sale Rate"; Some (nbsp +:+ "MRP" +:+ nbsp) ];
           oilFilterCells ];
     papa := PapaError "" |}.

(** A spreadsheet with a row whose item-number cell is blank. *)
Definition unnumberedFile : File string :=
  {| name := "parts.xlsx";
     sheet := Sheet string [headerCells; unnumberedCells; oilFilterCells];
     papa := PapaError "" |}.

(** A record whose item number has a letter outside ASCII. *)
Definition valve : Part :=
  {| itemNo := "ÄB-9"; itemDescription := "Valve";
     itemGroup := "Hydraulics"; model := "3DX"; bhlHlnFlag := "BHL";
     hsnTax := "18"; saleRate := "₹700"; mrp := "₹800" |}.

Definition valveCells : Row string :=
  [ Some "ÄB-9"; Some "Valve"; Some "Hydraulics"; Some "3DX";
    Some "BHL"; Some "18"; Some "₹700"; Some "₹800" ].

(** The state after a catalog of a pump and that valve was uploaded and the
    valve's number typed in small letters. *)
Definition valveSearchState : AppState :=
  setSearchQuery "äb-9"
    (upload string String_
       {| name := "parts.xlsx";
          sheet := Sheet string [headerCells; pumpCells; valveCells];
          papa := PapaError "" |}
       initialState).

(** A comma-separated file with all eight columns in which Papa found a
    line that is too short. *)
Definition raggedFile : File string :=
  {| name := "parts.csv";
     sheet := ReaderError string;
     papa :=
       PapaComplete
         [ "Too few fields: expected 8 fields but parsed 7" ]
         [ "item no"; "description"; "item group"; "model"; "bhl/hln flag";
           "hsn tax"; "sale rate"; "mrp" ]
         [ list_to_map
             [ ("item no", "AB-123"); ("description", "Oil filter");
               ("item group", "Filters"); ("model", "3DX");
               ("bhl/hln flag", "BHL"); ("hsn tax", "18");
               ("sale rate", "₹450.00") ] ] |}.

(** A comma-separated file with a single column in which Papa found a
    quote that is not closed. *)
Definition raggedShortFile : File string :=
  {| name := "short.csv";
     sheet := ReaderError string;
     papa :=
       PapaComplete [ "Quoted field unterminated" ] [ "item no" ]
         [ list_to_map [ ("item no", "AB-123") ] ] |}.

(** A text file of a kind that is not supported, with a single column. *)
Definition shortNotesFile : File string :=
  {| name := "short.txt";
     sheet := ReaderError string;
     papa :=
       PapaComplete [] [ "item no" ]
         [ list_to_map [ ("item no", "AB-123") ] ] |}.

(** A stand-in for the browser's number formatting. *)
Definition rupees (n : Number) : string := "₹ ...".

(** The oil filter's line as [add] creates it. *)
Definition oilFilterLine : QuotationPart :=
  {| part := oilFilter; quantity := Number_of_Z 1 |}.

(** The state after a search for a word that is no item number. *)
Definition wordSearchState : AppState :=
  setSearchQuery "filter"
    (upload string String_ twoPartsFile initialState).

(** A session: select a file, have it parsed, search for the oil filter,
    add it, raise its quantity, type a discount. *)
Definition session : AppState :=
  Events.dispatch string String_ offerAll (Events.TypeDiscount string "12.5")
    (Events.dispatch string String_ offerAll (Events.PressPlus string oilFilterLine)
       (Events.dispatch string String_ offerAll (Events.PressAdd string oilFilter)
          (Events.dispatch string String_ offerAll (Events.PressSearch string)
             (Events.dispatch string String_ offerAll
                (Events.TypeQuery string "  ab-123 ")
                (Events.dispatch string String_ offerAll
                   (Events.FileSettled string twoPartsFile)
                   (Events.dispatch string String_ offerAll
                      (Events.SelectFile string twoPartsFile) initialState)))))).

End Sample.

(** * Properties *)

Import JS Types FileParser App QuotationSidebar Spec.

(** ** Numbers *)

Lemma Number_zero : Number_of_Z 0 = S754_zero false.
Proof. reflexivity. Qed.

Lemma Number_one : Number_of_Z 1 = S754_finite false 4503599627370496 (-52).
Proof. vm_compute. reflexivity. Qed.

Lemma Number_hundred : Number_of_Z 100 = S754_finite false 7036874417766400 (-46).
Proof. vm_compute. reflexivity. Qed.

(** [Math.max(0, n)] is [n] for a positive [n], [+0] for every [n <= 0],
    and [NaN] for [NaN]. *)
Lemma Math_max_zero (n : Number) :
  Math_max (Number_of_Z 0) n =
    match n with
    | NaN => NaN
    | S754_zero _ => S754_zero false
    | S754_infinity s | S754_finite s _ _ => if s then S754_zero false else n
    end.
Proof. rewrite Number_zero. destruct n as [[]|[]| |[] m e]; reflexivity. Qed.

Lemma clamp_nonpositive (n : Number) :
  Number_le n (Number_of_Z 0) = true ->
  Math_max (Number_of_Z 0) n = Number_of_Z 0.
Proof.
  rewrite Math_max_zero, Number_zero.
  destruct n as [[]|[]| |[] m e]; cbn; congruence.
Qed.

Lemma clamp_at_least_one (n : Number) :
  Number_le (Number_of_Z 1) n = true ->
  Math_max (Number_of_Z 0) n = n /\
  Number_strictEq (Math_max (Number_of_Z 0) n) (Number_of_Z 0) = false.
Proof.
  rewrite Math_max_zero, Number_zero, Number_one.
  destruct n as [[]|[]| |[] m e]; cbn; intros H; try discriminate H; auto.
Qed.

(** ** State *)

Lemma setQuotationParts_same (st : AppState) :
  setQuotationParts (quotationParts st) st = st.
Proof. destruct st; reflexivity. Qed.

Lemma isPartInQuotation_false (i : string) (st : AppState) :
  isPartInQuotation i st = false <->
  forall p : QuotationPart, In p (quotationParts st) -> itemNo p <> i.
Proof.
  unfold isPartInQuotation. split.
  - intros H p Hp Heq.
    assert (existsb (fun p : QuotationPart => String.eqb (itemNo p) i)
              (quotationParts st) = true) as Hex.
    { apply existsb_exists. exists p. split; [exact Hp|]. now apply String.eqb_eq. }
    congruence.
  - intros H. apply not_true_is_false. intros Hex.
    apply existsb_exists in Hex as (p & Hp & Heq).
    apply String.eqb_eq in Heq. exact (H p Hp Heq).
Qed.

Lemma map_withQuantity_absent (i : string) (q : Number) (l : list QuotationPart) :
  (forall p : QuotationPart, In p l -> itemNo p <> i) ->
  map (withQuantity i q) l = l.
Proof.
  induction l as [|p l IH]; intros H; [reflexivity|].
  cbn [map]. rewrite IH by (intros p' Hp'; apply H; now right).
  unfold withQuantity.
  destruct (String.eqb_spec (itemNo p) i) as [Heq|Hne]; [|reflexivity].
  exfalso. apply (H p); [now left | exact Heq].
Qed.

Lemma filter_same_absent (i : string) (l : list QuotationPart) :
  (forall p : QuotationPart, In p l -> itemNo p <> i) ->
  List.filter (fun p : QuotationPart => String.eqb (itemNo p) i) l = [].
Proof.
  induction l as [|p l IH]; intros H; [reflexivity|].
  cbn [List.filter].
  destruct (String.eqb_spec (itemNo p) i) as [Heq|Hne].
  - exfalso. apply (H p); [now left | exact Heq].
  - apply IH. intros p' Hp'. apply H. now right.
Qed.

Lemma filter_same_unique (i : string) (l : list QuotationPart) (p : QuotationPart) :
  List.NoDup (map (fun p : QuotationPart => itemNo p) l) ->
  In p l -> itemNo p = i ->
  List.filter (fun p : QuotationPart => String.eqb (itemNo p) i) l = [p].
Proof.
  induction l as [|x l IH]; intros Hnd Hin Hi; [destruct Hin|].
  cbn [map] in Hnd. apply NoDup_cons_iff in Hnd as [Hx Hnd].
  cbn [List.filter].
  destruct Hin as [->|Hin].
  - rewrite (proj2 (String.eqb_eq _ _) Hi).
    rewrite filter_same_absent; [reflexivity|].
    intros p' Hp' Heq. apply Hx. apply in_map_iff. exists p'. split; [congruence|exact Hp'].
  - destruct (String.eqb_spec (itemNo x) i) as [Heq|Hne].
    + exfalso. apply Hx. apply in_map_iff. exists p. split; [congruence|exact Hin].
    + now apply IH.
Qed.

(** ** The ledger's item numbers stay distinct *)

Lemma distinct_filter (f : QuotationPart -> bool) (l : list QuotationPart) :
  List.NoDup (map (fun p : QuotationPart => itemNo p) l) ->
  List.NoDup (map (fun p : QuotationPart => itemNo p) (List.filter f l)).
Proof.
  induction l as [|x l IH]; intros Hnd; [constructor|].
  cbn [map] in Hnd. apply NoDup_cons_iff in Hnd as [Hx Hnd].
  cbn [List.filter]. destruct (f x); [|now apply IH].
  cbn [map]. apply NoDup_cons_iff. split; [|now apply IH].
  intros Hin. apply Hx. apply in_map_iff in Hin as (p & Hp & Hin).
  apply List.filter_In in Hin as [Hin _].
  apply in_map_iff. now exists p.
Qed.

Lemma distinct_snoc (l : list QuotationPart) (x : QuotationPart) :
  List.NoDup (map (fun p : QuotationPart => itemNo p) l) ->
  (forall p : QuotationPart, In p l -> itemNo p <> itemNo x) ->
  List.NoDup (map (fun p : QuotationPart => itemNo p) (l ++ [x])).
Proof.
  induction l as [|y l IH]; intros Hnd Hx.
  - cbn. apply NoDup_cons_iff. split; [intros []|constructor].
  - cbn [map app] in *. apply NoDup_cons_iff in Hnd as [Hy Hnd].
    apply NoDup_cons_iff. split.
    + rewrite List.map_app, in_app_iff. intros [Hin|[Heq|[]]].
      * now apply Hy.
      * apply (Hx y); [now left | now symmetry].
    + apply IH; [exact Hnd|]. intros p Hp. apply Hx. now right.
Qed.

Lemma itemNos_withQuantity (i : string) (q : Number) (l : list QuotationPart) :
  map (fun p : QuotationPart => itemNo p) (map (withQuantity i q) l)
  = map (fun p : QuotationPart => itemNo p) l.
Proof.
  rewrite map_map. apply map_ext. intros p. unfold withQuantity.
  now destruct (String.eqb (itemNo p) i).
Qed.

(** Every ledger operation keeps the item numbers of the lines distinct;
    they are so in the initial state and after every upload. *)
Lemma handlers_keep_itemNos_distinct (st : AppState) :
  distinctItemNos st ->
  (forall partToAdd, distinctItemNos (handleAddToQuotation partToAdd st)) /\
  (forall i, distinctItemNos (handleRemoveFromQuotation i st)) /\
  (forall i n, distinctItemNos (handleUpdateQuotationQuantity i n st)) /\
  distinctItemNos (handleClearQuotation st).
Proof.
  unfold distinctItemNos. intros Hnd. split; [|split; [|split]].
  - intros partToAdd. unfold handleAddToQuotation.
    destruct (existsb _ (quotationParts st)) eqn:Hex; cbn [negb]; [exact Hnd|].
    cbn [quotationParts setQuotationParts]. apply distinct_snoc; [exact Hnd|].
    now apply isPartInQuotation_false.
  - intros i. now apply distinct_filter.
  - intros i n. unfold handleUpdateQuotationQuantity.
    destruct (Number_strictEq _ _).
    + now apply distinct_filter.
    + cbn [quotationParts setQuotationParts].
      change (fun p : QuotationPart =>
                if String.eqb (itemNo p) i
                then {| part := part p;
                        quantity := Math_max (Number_of_Z 0) n |} else p)
        with (withQuantity i (Math_max (Number_of_Z 0) n)).
      now rewrite itemNos_withQuantity.
  - constructor.
Qed.

(** ** The quotation ledger *)

(** C7. [add(part)] appends the line [{part, quantity: 1}] when no line has
    the part's [itemNo], and leaves the state as it is when one has; a
    second [add] of the same [itemNo] changes nothing, so that a ledger
    whose item numbers were distinct holds exactly one line for that
    [itemNo], the one the first [add] left. *)
Theorem add_once (partToAdd : Part) (st : AppState) :
  let line := {| part := partToAdd; quantity := Number_of_Z 1 |} in
  let st1 := handleAddToQuotation partToAdd st in
  (isPartInQuotation (itemNo partToAdd) st = false ->
     st1 = setQuotationParts (quotationParts st ++ [line]) st) /\
  (isPartInQuotation (itemNo partToAdd) st = true -> st1 = st) /\
  (forall again : Part,
     itemNo again = itemNo partToAdd ->
     let st2 := handleAddToQuotation again st1 in
     st2 = st1 /\
     (distinctItemNos st ->
      exists l : QuotationPart,
        linesOf (itemNo partToAdd) st2 = [l] /\
        (isPartInQuotation (itemNo partToAdd) st = false -> l = line) /\
        (isPartInQuotation (itemNo partToAdd) st = true -> In l (quotationParts st)))).
Proof.
  cbn zeta. unfold handleAddToQuotation.
  assert (Hpresent : isPartInQuotation (itemNo partToAdd)
                       (handleAddToQuotation partToAdd st) = true).
  { unfold handleAddToQuotation, isPartInQuotation.
    destruct (existsb _ (quotationParts st)) eqn:Hex; cbn [negb].
    - exact Hex.
    - cbn. rewrite existsb_app. cbn. rewrite String.eqb_refl. now rewrite orb_true_r. }
  unfold handleAddToQuotation in Hpresent.
  change (existsb (fun p : QuotationPart => String.eqb (itemNo p) (itemNo partToAdd))
            (quotationParts st)) with (isPartInQuotation (itemNo partToAdd) st) in *.
  split; [|split].
  - intros ->. reflexivity.
  - intros ->. reflexivity.
  - intros again Hagain.
    assert (Hsame : forall s, isPartInQuotation (itemNo again) s
                              = isPartInQuotation (itemNo partToAdd) s)
      by (intros s; now rewrite Hagain).
    destruct (isPartInQuotation (itemNo partToAdd) st) eqn:Hin; cbn [negb] in *.
    + unfold isPartInQuotation in Hsame. rewrite Hsame.
      unfold isPartInQuotation in Hin. rewrite Hin. cbn [negb].
      split; [reflexivity|]. intros Hnd.
      apply existsb_exists in Hin as (l & Hl & Heq). apply String.eqb_eq in Heq.
      exists l. split; [|split].
      * unfold linesOf. now apply filter_same_unique.
      * discriminate.
      * intros _. exact Hl.
    + unfold isPartInQuotation in Hsame. rewrite Hsame.
      unfold isPartInQuotation in Hpresent. rewrite Hpresent. cbn [negb].
      split; [reflexivity|]. intros Hnd.
      eexists. split; [|split].
      * unfold linesOf. cbn [quotationParts setQuotationParts].
        rewrite List.filter_app. rewrite filter_same_absent.
        -- cbn. rewrite String.eqb_refl. reflexivity.
        -- now apply isPartInQuotation_false.
      * reflexivity.
      * discriminate.
Qed.

(** C8. [setQuantity(itemNo, n)] works with [n] clamped to a minimum of 0:
    when the clamped quantity is 0, which it is for every [n <= 0], the
    result is that of [remove(itemNo)]; otherwise every line with that
    [itemNo] gets the clamped quantity, which then is [n] itself, and the
    other lines stay as they are. *)
Theorem setQuantity_clamps (itemNoToUpdate : string) (n : Number) (st : AppState) :
  let quantity := Math_max (Number_of_Z 0) n in
  let st' := handleUpdateQuotationQuantity itemNoToUpdate n st in
  (Number_le n (Number_of_Z 0) = true -> quantity = Number_of_Z 0) /\
  (Number_gt n (Number_of_Z 0) = true -> quantity = n) /\
  (Number_strictEq quantity (Number_of_Z 0) = true ->
     st' = handleRemoveFromQuotation itemNoToUpdate st) /\
  (Number_le n (Number_of_Z 0) = true ->
     st' = handleRemoveFromQuotation itemNoToUpdate st) /\
  (Number_strictEq quantity (Number_of_Z 0) = false ->
     st' = setQuotationParts
             (map (withQuantity itemNoToUpdate quantity) (quotationParts st)) st).
Proof.
  cbn zeta. unfold handleUpdateQuotationQuantity.
  split; [|split; [|split; [|split]]].
  - apply clamp_nonpositive.
  - rewrite Math_max_zero, Number_zero.
    destruct n as [[]|[]| |[] m e]; cbn; congruence.
  - intros ->. reflexivity.
  - intros Hle. rewrite (clamp_nonpositive n Hle). reflexivity.
  - intros ->. reflexivity.
Qed.

(** C10. [setQuantity(itemNo, n)] with [n >= 1] for an [itemNo] that no
    line of the ledger has leaves the whole state as it was: no line is
    added or changed, and the discount is untouched. *)
Theorem setQuantity_absent (itemNoToUpdate : string) (n : Number) (st : AppState) :
  isPartInQuotation itemNoToUpdate st = false ->
  Number_le (Number_of_Z 1) n = true ->
  handleUpdateQuotationQuantity itemNoToUpdate n st = st.
Proof.
  intros Habsent Hn. unfold handleUpdateQuotationQuantity.
  destruct (clamp_at_least_one n Hn) as [Hq Hne]. rewrite Hne, Hq.
  change (fun p : QuotationPart =>
            if String.eqb (itemNo p) itemNoToUpdate
            then {| part := part p; quantity := n |} else p)
    with (withQuantity itemNoToUpdate n).
  rewrite map_withQuantity_absent by (now apply isPartInQuotation_false).
  apply setQuotationParts_same.
Qed.

(** ** The discount *)

Lemma SFcompare_antisym (a b : Number) :
  SFcompare b a = option_map CompOpp (SFcompare a b).
Proof.
  destruct a as [[]|[]| |[] ma ea], b as [[]|[]| |[] mb eb]; cbn; try reflexivity.
  - rewrite (Z.compare_antisym ea eb).
    destruct (ea ?= eb)%Z; cbn; try reflexivity.
    rewrite CompOpp_involutive. f_equal.
    exact (Pos.compare_cont_antisym mb ma Eq).
  - rewrite (Z.compare_antisym ea eb).
    destruct (ea ?= eb)%Z; cbn; try reflexivity.
    f_equal. symmetry. exact (Pos.compare_cont_antisym ma mb Eq).
Qed.

(** The value the discount input hands on lies between 0 and 100. *)
Lemma clamp_percentage_range (v : Number) :
  let d := Math_max (Number_of_Z 0)
             (Math_min (Number_of_Z 100) (Number_or v (Number_of_Z 0))) in
  Number_le (Number_of_Z 0) d = true /\ Number_le d (Number_of_Z 100) = true.
Proof.
  cbn zeta. rewrite Number_hundred, Number_zero.
  set (x := Number_or v (S754_zero false)).
  assert (Hx : x <> NaN) by (subst x; destruct v as [[]|[]| |[] m e]; cbn; congruence).
  unfold Math_min.
  destruct (SFcompare (S754_finite false 7036874417766400 (-46)) x) as [[]|] eqn:Hc.
  - split; reflexivity.
  - split; reflexivity.
  - pose proof (SFcompare_antisym (S754_finite false 7036874417766400 (-46)) x) as Ha.
    rewrite Hc in Ha. cbn in Ha.
    unfold Math_max, Number_le, SFleb.
    destruct (SFcompare (S754_zero false) x) as [[]|] eqn:Hz.
    + split; reflexivity.
    + rewrite Hz, Ha. split; reflexivity.
    + split; reflexivity.
    + exfalso. destruct x as [[]|[]| |[] m e]; cbn in Hz; congruence.
  - exfalso. destruct x as [[]|[]| |[] m e]; cbn in Hc; congruence.
Qed.

Lemma discount_150 :
  Math_max (Number_of_Z 0)
    (Math_min (Number_of_Z 100) (Number_or (parseFloat "150") (Number_of_Z 0)))
  = Number_of_Z 100.
Proof. vm_compute. reflexivity. Qed.

Lemma discount_minus_10 :
  Math_max (Number_of_Z 0)
    (Math_min (Number_of_Z 100) (Number_or (parseFloat "-10") (Number_of_Z 0)))
  = Number_of_Z 0.
Proof. vm_compute. reflexivity. Qed.

(** C9.  The discount is set by the change handler of the sidebar's
    discount input, the only caller of [onDiscountChange]: whatever the
    input holds, the percentage stored is
    [max(0, min(100, parseFloat(text) || 0))], a number between 0 and 100,
    and the rest of the state is untouched; 150 stores 100 and -10 stores
    0. *)
Theorem discount_input_clamps (value : string) (st : AppState) :
  let d := discountPercentage (typeDiscount value st) in
  d = Math_max (Number_of_Z 0)
        (Math_min (Number_of_Z 100) (Number_or (parseFloat value) (Number_of_Z 0))) /\
  Number_le (Number_of_Z 0) d = true /\
  Number_le d (Number_of_Z 100) = true /\
  typeDiscount value st = setDiscountPercentage d st /\
  discountPercentage (typeDiscount "150" st) = Number_of_Z 100 /\
  discountPercentage (typeDiscount "-10" st) = Number_of_Z 0.
Proof.
  cbn zeta. unfold typeDiscount, discount_onChange, onDiscountChange.
  cbn [discountPercentage setDiscountPercentage].
  pose proof (clamp_percentage_range (parseFloat value)) as [H0 H100].
  split; [reflexivity|]. split; [exact H0|]. split; [exact H100|].
  split; [reflexivity|]. split; [apply discount_150 | apply discount_minus_10].
Qed.

(** ** Totals *)

Lemma parsedMrp_parseCurrency (line : QuotationPart) :
  parsedMrp line = parseCurrency (mrp line).
Proof.
  unfold parsedMrp, parseCurrency.
  now destruct (parseFloat (replace_outside isCurrencyChar (mrp line))).
Qed.

Lemma reduce_is_sum (f : QuotationPart -> Number) (parts : list QuotationPart)
    (acc : Number) :
  fold_left (fun acc part => Number_add acc (f part)) parts acc
  = fold_left Number_add (map f parts) acc.
Proof.
  revert acc. induction parts as [|p parts IH]; intros acc; [reflexivity|].
  cbn. apply IH.
Qed.

(** C5. The totals are derived from the lines and the discount: each line
    counts its [mrp], parsed after stripping everything but digits, dots
    and minus signs (0 when that does not parse), times its quantity; the
    subtotal is the sum of these; the discount amount is the subtotal times
    a hundredth of the percentage; the total is the subtotal less the
    discount amount.  Two lines of "₹100.00" twice and "₹50" once at 10%
    give 250, 25 and 225. *)
Theorem totals_derivation (parts : list QuotationPart) (discount : Number) :
  let subtotal_ :=
    Number_sum (map (fun line => Number_mul (parsedMrp line) (quantity line)) parts) in
  let discountAmount_ :=
    Number_mul subtotal_ (Number_div discount (Number_of_Z 100)) in
  totals parts discount =
    {| subtotal := subtotal_;
       discountAmount := discountAmount_;
       total := Number_sub subtotal_ discountAmount_ |} /\
  (forall a b : QuotationPart,
     mrp a = "₹100.00" -> quantity a = Number_of_Z 2 ->
     mrp b = "₹50" -> quantity b = Number_of_Z 1 ->
     totals [a; b] (Number_of_Z 10) =
       {| subtotal := Number_of_Z 250;
          discountAmount := Number_of_Z 25;
          total := Number_of_Z 225 |}).
Proof.
  cbn zeta. split.
  - unfold totals, Number_sum.
    rewrite <- (reduce_is_sum (fun line => Number_mul (parsedMrp line) (quantity line))).
    assert (Hfold : forall l acc,
      fold_left (fun acc (part : QuotationPart) =>
                   Number_add acc (Number_mul (parseCurrency (mrp part)) (quantity part)))
        l acc
      = fold_left (fun acc (part : QuotationPart) =>
                   Number_add acc (Number_mul (parsedMrp part) (quantity part)))
        l acc).
    { induction l as [|p l IH]; intros acc; [reflexivity|].
      cbn. rewrite parsedMrp_parseCurrency. apply IH. }
    rewrite Hfold. reflexivity.
  - intros [pa qa] [pb qb]. cbn. intros Ha -> Hb ->.
    unfold totals. cbn [fold_left mrp part quantity Types.part Types.quantity].
    rewrite Ha, Hb. vm_compute. reflexivity.
Qed.

(** ** Header validation *)

Lemma includes_found (columns : list (option string)) (k : string) :
  includes k (omap id (map mappedColumn columns)) = hasSourceColumn columns k.
Proof.
  induction columns as [|c columns IH]; [reflexivity|].
  cbn [map omap hasSourceColumn existsb]. fold (hasSourceColumn columns k).
  rewrite <- IH. clear IH.
  destruct c as [h|]; cbn [mappedColumn]; [|reflexivity].
  unfold HEADER_MAPPING, spells.
  destruct (HEADER_MAPPING_own !! h) as [k'|]; [reflexivity|].
  destruct (isInherited h); reflexivity.
Qed.

Lemma missingHeaders_missingFields (columns : list (option string)) :
  missingHeaders (omap id (map mappedColumn columns)) = missingFields columns.
Proof.
  unfold missingHeaders, missingFields.
  apply List.filter_ext. intros k. now rewrite includes_found.
Qed.

Lemma missingFields_spec (columns : list (option string)) (k : string) :
  In k (missingFields columns) <->
  In k REQUIRED_HEADERS /\ hasSourceColumn columns k = false.
Proof.
  unfold missingFields. rewrite List.filter_In, negb_true_iff. reflexivity.
Qed.

Lemma missingFields_nil (columns : list (option string)) :
  missingFields columns = [] <->
  forall k, In k REQUIRED_HEADERS -> hasSourceColumn columns k = true.
Proof.
  split.
  - intros Hnil k Hk. destruct (hasSourceColumn columns k) eqn:Hs; [reflexivity|].
    assert (In k (missingFields columns)) as Hin by (now apply missingFields_spec).
    rewrite Hnil in Hin. destruct Hin.
  - intros Hall. destruct (missingFields columns) as [|k l] eqn:Hm; [reflexivity|].
    assert (In k (missingFields columns)) as Hin by (rewrite Hm; now left).
    apply missingFields_spec in Hin as [Hk Hs]. rewrite (Hall k Hk) in Hs. discriminate.
Qed.

Lemma length_pos_nonempty {A : Type} (l : list A) :
  (0 <? Z.of_nat (length l)) = negb (match l with [] => true | _ => false end).
Proof. destruct l; [reflexivity|]. cbn [length negb]. apply Z.ltb_lt. lia. Qed.

(** ** Record extraction *)

(** The values of [HEADER_MAPPING] are canonical field names. *)
Lemma own_values_required (h k : string) :
  HEADER_MAPPING_own !! h = Some k -> In k REQUIRED_HEADERS.
Proof.
  intros H.
  assert (Hin : (h, k) ∈ map_to_list HEADER_MAPPING_own)
    by (now apply elem_of_map_to_list).
  revert Hin. vm_compute map_to_list.
  rewrite !elem_of_cons, elem_of_nil.
  intros [Heq|[Heq|[Heq|[Heq|[Heq|[Heq|[Heq|[Heq|[Heq|[Heq|[Heq|[]]]]]]]]]]]];
    injection Heq as -> ->; cbn; tauto.
Qed.

(** No canonical field name is the text of an inherited value. *)
Lemma inherited_key_not_required (name k : string) :
  In k REQUIRED_HEADERS -> String_inherited name <> k.
Proof.
  unfold String_inherited. intros Hk.
  destruct (String.eqb name "__proto__").
  - cbn in Hk. intuition (subst; discriminate).
  - cbn in Hk. intuition (subst; discriminate).
Qed.

Lemma assign_lookup_required (c : option string) (t k : string)
    (part : gmap string string) :
  In k REQUIRED_HEADERS ->
  assign c t part !! k =
    match c with
    | Some h => if spells k h then Some t else part !! k
    | None => part !! k
    end.
Proof.
  intros Hk. unfold assign, mappedColumn. destruct c as [h|]; [|reflexivity].
  unfold HEADER_MAPPING, spells.
  destruct (HEADER_MAPPING_own !! h) as [k'|]; cbn [ToPropertyKey].
  - destruct (String.eqb_spec k' k) as [->|Hne].
    + apply lookup_insert_eq.
    + now apply lookup_insert_ne.
  - destruct (isInherited h); [|reflexivity]. cbn [ToPropertyKey].
    apply lookup_insert_ne. now apply inherited_key_not_required.
Qed.

Lemma assignAll_lookup_required (columns : list (option string))
    (texts : list string) (k : string) (part : gmap string string) :
  In k REQUIRED_HEADERS ->
  assignAll columns texts part !! k =
    match lastText columns texts k with
    | Some t => Some t
    | None => part !! k
    end.
Proof.
  intros Hk. revert texts part.
  induction columns as [|c columns IH]; intros texts part; [reflexivity|].
  destruct texts as [|t texts]; [reflexivity|].
  cbn [assignAll lastText]. rewrite IH.
  destruct (lastText columns texts k); [reflexivity|].
  rewrite assign_lookup_required by exact Hk.
  destruct c as [h|]; [|reflexivity]. now destruct (spells k h).
Qed.

Lemma assignAll_lookup_other (columns : list (option string))
    (texts : list string) (key : string) (part : gmap string string) :
  noInheritedHeader columns = true ->
  ~ In key REQUIRED_HEADERS ->
  assignAll columns texts part !! key = part !! key.
Proof.
  intros Hno Hkey. revert texts part Hno.
  induction columns as [|c columns IH]; intros texts part Hno; [reflexivity|].
  destruct texts as [|t texts]; [reflexivity|].
  cbn [noInheritedHeader forallb] in Hno. apply andb_true_iff in Hno as [Hc Hno].
  cbn [assignAll]. rewrite IH by exact Hno.
  unfold assign, mappedColumn. destruct c as [h|]; [|reflexivity].
  unfold HEADER_MAPPING.
  destruct (HEADER_MAPPING_own !! h) as [k'|] eqn:Hown; cbn [ToPropertyKey].
  - apply lookup_insert_ne. intros ->. apply Hkey.
    now apply (own_values_required h).
  - apply negb_true_iff in Hc. now rewrite Hc.
Qed.

Lemma lastText_Some (columns : list (option string)) (texts : list string)
    (k : string) :
  length texts = length columns ->
  hasSourceColumn columns k = true ->
  is_Some (lastText columns texts k).
Proof.
  revert texts. induction columns as [|c columns IH]; intros texts Hlen Hs.
  - discriminate Hs.
  - destruct texts as [|t texts]; [discriminate Hlen|].
    injection Hlen as Hlen. cbn [lastText].
    destruct (lastText columns texts k) eqn:Hl; [eauto|].
    cbn [hasSourceColumn existsb] in Hs. apply orb_true_iff in Hs as [Hs|Hs].
    + destruct c as [h|]; [|discriminate Hs]. rewrite Hs. eauto.
    + specialize (IH texts Hlen Hs). rewrite Hl in IH. now destruct IH.
Qed.

(** The object built from a row, read through the eight typed fields, is
    the record the row stands for. *)
Lemma asPart_assignAll (columns : list (option string)) (texts : list string) :
  asPart (assignAll columns texts ∅) = recordOf columns texts.
Proof.
  unfold asPart, recordOf, fieldOf.
  rewrite !assignAll_lookup_required by (cbn; tauto).
  rewrite !lookup_empty.
  f_equal; match goal with |- context [lastText ?c ?t ?k] =>
                     now destruct (lastText c t k) end.
Qed.

(** With all eight columns there and no inherited name among the headers,
    the object holds the eight canonical properties and nothing else. *)
Lemma assignAll_dom (columns : list (option string)) (texts : list string) :
  length texts = length columns ->
  missingFields columns = [] ->
  noInheritedHeader columns = true ->
  dom (assignAll columns texts ∅) = list_to_set REQUIRED_HEADERS.
Proof.
  intros Hlen Hall Hno. apply set_eq. intros key.
  rewrite elem_of_dom, elem_of_list_to_set, list_elem_of_In.
  split.
  - intros Hsome. destruct (in_dec string_dec key REQUIRED_HEADERS) as [Hin|Hout];
      [exact Hin|].
    rewrite assignAll_lookup_other, lookup_empty in Hsome by assumption.
    now destruct Hsome.
  - intros Hin. rewrite assignAll_lookup_required by exact Hin.
    destruct (lastText_Some columns texts key Hlen) as [t ->]; [|eauto].
    now apply missingFields_nil.
Qed.

Lemma csvRow_object_assignAll (row : gmap string string) (headers : list string)
    (part : gmap string string) :
  csvRow_object row headers part
  = assignAll (map Some headers) (map (csvCellText row) headers) part.
Proof.
  revert part. induction headers as [|h headers IH]; intros part; [reflexivity|].
  cbn [csvRow_object map assignAll]. rewrite IH. reflexivity.
Qed.

(** The names the synonym table defines are not names that objects
    inherit. *)
Lemma own_not_inherited (h k : string) :
  HEADER_MAPPING_own !! h = Some k -> isInherited h = false.
Proof.
  intros H.
  assert (Hin : (h, k) ∈ map_to_list HEADER_MAPPING_own)
    by (now apply elem_of_map_to_list).
  revert Hin. vm_compute map_to_list.
  rewrite !elem_of_cons, elem_of_nil.
  intros [Heq|[Heq|[Heq|[Heq|[Heq|[Heq|[Heq|[Heq|[Heq|[Heq|[Heq|[]]]]]]]]]]]];
    injection Heq as -> ->; reflexivity.
Qed.

Lemma lastText_None (columns : list (option string)) (texts : list string)
    (k : string) :
  hasSourceColumn columns k = false -> lastText columns texts k = None.
Proof.
  revert texts. induction columns as [|c columns IH]; intros texts Hs; [reflexivity|].
  destruct texts as [|t texts]; [reflexivity|].
  cbn [hasSourceColumn existsb] in Hs. apply orb_false_iff in Hs as [Hc Hs].
  cbn [lastText]. rewrite (IH texts Hs).
  destruct c as [h|]; [|reflexivity]. now rewrite Hc.
Qed.

Lemma hasSourceColumn_false (columns : list (option string)) (k : string)
    (j : nat) (h : string) :
  hasSourceColumn columns k = false ->
  columns !! j = Some (Some h) -> spells k h = false.
Proof.
  revert j. induction columns as [|c columns IH]; intros j Hs Hj; [discriminate Hj|].
  cbn [hasSourceColumn existsb] in Hs. apply orb_false_iff in Hs as [Hc Hs].
  destruct j as [|j].
  - injection Hj as ->. exact Hc.
  - now apply (IH j).
Qed.

(** The text taken for a canonical field is that of the last column that is
    a source for it. *)
Lemma lastText_source (columns : list (option string)) (texts : list string)
    (k : string) :
  length texts = length columns ->
  hasSourceColumn columns k = true ->
  exists (j : nat) (h : string),
    columns !! j = Some (Some h) /\ spells k h = true /\
    (forall (j' : nat) (h' : string),
       (j < j')%nat -> columns !! j' = Some (Some h') -> spells k h' = false) /\
    lastText columns texts k = texts !! j.
Proof.
  revert texts. induction columns as [|c columns IH]; intros texts Hlen Hs;
    [discriminate Hs|].
  destruct texts as [|t texts]; [discriminate Hlen|]. injection Hlen as Hlen.
  destruct (hasSourceColumn columns k) eqn:Hrest.
  - destruct (IH texts Hlen eq_refl) as (j & h & Hj & Hh & Hlast & Htext).
    exists (S j), h. split; [exact Hj|]. split; [exact Hh|]. split.
    + intros [|j'] h' Hlt Hj'; [lia|]. apply (Hlast j' h'); [lia | exact Hj'].
    + cbn [lastText]. rewrite Htext.
      assert (Hsome : is_Some (texts !! j)).
      { apply lookup_lt_is_Some. rewrite Hlen. apply lookup_lt_is_Some. eauto. }
      destruct Hsome as [x Hx]. now rewrite Hx.
  - cbn [hasSourceColumn existsb] in Hs. fold (hasSourceColumn columns k) in Hs.
    rewrite Hrest, orb_false_r in Hs.
    destruct c as [h|]; [|discriminate Hs].
    exists 0%nat, h. split; [reflexivity|]. split; [exact Hs|]. split.
    + intros [|j'] h' Hlt Hj'; [lia|].
      now apply (hasSourceColumn_false columns k j' h').
    + cbn [lastText]. rewrite (lastText_None columns texts k Hrest), Hs. reflexivity.
Qed.

Lemma field_recordOf (columns : list (option string)) (texts : list string)
    (k : string) :
  In k REQUIRED_HEADERS ->
  field k (recordOf columns texts) = fieldOf columns texts k.
Proof.
  intros Hk. cbn in Hk.
  destruct Hk as [<-|[<-|[<-|[<-|[<-|[<-|[<-|[<-|[]]]]]]]]]; reflexivity.
Qed.

(** A field of the record of a data row is the text of the row's cell in
    the last column that is a source for the field. *)
Lemma field_source (columns : list (option string)) (texts : list string)
    (k : string) :
  length texts = length columns ->
  In k REQUIRED_HEADERS ->
  hasSourceColumn columns k = true ->
  exists (j : nat) (h : string),
    columns !! j = Some (Some h) /\ spells k h = true /\
    (forall (j' : nat) (h' : string),
       (j < j')%nat -> columns !! j' = Some (Some h') -> spells k h' = false) /\
    Some (field k (recordOf columns texts)) = texts !! j.
Proof.
  intros Hlen Hk Hs.
  destruct (lastText_source columns texts k Hlen Hs) as (j & h & Hj & Hh & Hlast & Htext).
  exists j, h. split; [exact Hj|]. split; [exact Hh|]. split; [exact Hlast|].
  rewrite field_recordOf by exact Hk. unfold fieldOf. rewrite Htext.
  assert (Hsome : is_Some (texts !! j)).
  { apply lookup_lt_is_Some. rewrite Hlen. apply lookup_lt_is_Some. eauto. }
  destruct Hsome as [x Hx]. now rewrite Hx.
Qed.

Section Sheets.

Variable Cell : Type.
Variable String_ : Cell -> string.

Lemma processRow_from_assignAll (row : Row Cell) (index : nat)
    (columns : list (option string)) (part : gmap string string) :
  processRow_from Cell String_ row index (map mappedColumn columns) part
  = assignAll columns
      (map (cellText Cell String_ row) (seq index (length columns))) part.
Proof.
  revert index part.
  induction columns as [|c columns IH]; intros index part; [reflexivity|].
  cbn [map processRow_from length seq assignAll]. rewrite IH. reflexivity.
Qed.

Lemma sheetHeaderMap_mapped (json : list (Row Cell)) :
  sheetHeaderMap Cell String_ json
  = map mappedColumn (sheetHeaders Cell String_ json).
Proof. reflexivity. Qed.

(** What [parseExcel] does with a sheet of at least two rows. *)
Lemma parseExcel_table (json : list (Row Cell)) :
  2 <= Z.of_nat (length json) ->
  let table := sheetTable Cell String_ json in
  parseExcel Cell String_ (Sheet Cell json) =
    match missingFields (columns table) with
    | [] => resolve (map (recordOf (columns table)) (rows table))
    | missing => reject (missingColumnsMessage missing)
    end.
Proof.
  intros Hlen. cbn zeta. unfold parseExcel.
  replace (Z.of_nat (length json) <? 2) with false by (symmetry; apply Z.ltb_ge; lia).
  rewrite sheetHeaderMap_mapped, missingHeaders_missingFields, length_pos_nonempty.
  cbn [sheetTable columns rows].
  destruct (missingFields (sheetHeaders Cell String_ json)); cbn [negb]; [|reflexivity].
  f_equal. rewrite map_map. apply map_ext. intros row.
  unfold processRow, processRow_object.
  rewrite processRow_from_assignAll. apply asPart_assignAll.
Qed.

End Sheets.

(** What [parseCsvTsv] does with a parse that reported no error. *)
Lemma parseCsvTsv_table (fields : list string) (data : list (gmap string string)) :
  let table := csvTable fields data in
  parseCsvTsv (PapaComplete [] fields data) =
    match missingFields (columns table) with
    | [] => resolve (map (recordOf (columns table)) (rows table))
    | missing => reject (missingColumnsMessage missing)
    end.
Proof.
  cbn zeta. unfold parseCsvTsv.
  replace (map HEADER_MAPPING (map normalizeHeader fields))
    with (map mappedColumn (map Some (map normalizeHeader fields)))
    by (now rewrite (map_map Some mappedColumn)).
  rewrite missingHeaders_missingFields, length_pos_nonempty.
  cbn [csvTable columns rows].
  destruct (missingFields (map Some (map normalizeHeader fields))); cbn [negb];
    [|reflexivity].
  f_equal. rewrite map_map. apply map_ext. intros row.
  rewrite csvRow_object_assignAll. apply asPart_assignAll.
Qed.

(** ** Ingestion *)

Section Ingestion.

Variable Cell : Type.
Variable String_ : Cell -> string.

Abbreviation tableOf := (tableOf Cell String_).
Abbreviation objectsOf := (objectsOf Cell String_).
Abbreviation headerRow := (headerRow Cell String_).
Abbreviation parsePartsFile := (parsePartsFile Cell String_).
Abbreviation ingest := (ingest Cell String_).
Abbreviation handleFileChange := (handleFileChange Cell String_).
Abbreviation upload := (upload Cell String_).

(** What [parsePartsFile] does with a file that has a table. *)
Lemma parsePartsFile_table (file : File Cell) (table : Table) :
  tableOf file = Some table ->
  parsePartsFile file =
    match missingFields (columns table) with
    | [] => resolve (map (recordOf (columns table)) (rows table))
    | missing => reject (missingColumnsMessage missing)
    end.
Proof.
  unfold Spec.tableOf, FileParser.parsePartsFile.
  destruct (String.eqb (extensionOf Cell file) "xlsx").
  - destruct (sheet Cell file) as [| |json]; try discriminate.
    destruct (2 <=? Z.of_nat (length json)) eqn:Hlen; [|discriminate].
    intros [= <-]. apply parseExcel_table. now apply Z.leb_le.
  - destruct (String.eqb (extensionOf Cell file) "csv"
              || String.eqb (extensionOf Cell file) "tsv")%bool; [|discriminate].
    destruct (papa Cell file) as [|errors fields data]; [discriminate|].
    destruct errors; [|discriminate].
    intros [= <-]. apply parseCsvTsv_table.
Qed.

(** The objects behind the records of a file that has a table. *)
Lemma objectsOf_table (file : File Cell) (table : Table) :
  tableOf file = Some table ->
  objectsOf file = map (fun texts => assignAll (columns table) texts ∅) (rows table)
  /\ forall texts, In texts (rows table) -> length texts = length (columns table).
Proof.
  unfold Spec.tableOf, Spec.objectsOf.
  destruct (String.eqb (extensionOf Cell file) "xlsx").
  - destruct (sheet Cell file) as [| |json]; try discriminate.
    destruct (2 <=? Z.of_nat (length json)); [|discriminate].
    intros [= <-]. cbn [sheetTable columns rows]. split.
    + unfold sheetObjects. rewrite map_map. apply map_ext. intros row.
      unfold processRow_object. rewrite sheetHeaderMap_mapped.
      apply processRow_from_assignAll.
    + intros texts Hin. apply in_map_iff in Hin as (row & <- & _).
      now rewrite length_map, length_seq.
  - destruct (String.eqb (extensionOf Cell file) "csv"
              || String.eqb (extensionOf Cell file) "tsv")%bool; [|discriminate].
    destruct (papa Cell file) as [|errors fields data]; [discriminate|].
    destruct errors; [|discriminate].
    intros [= <-]. cbn [csvTable columns rows]. split.
    + unfold csvObjects. rewrite map_map. apply map_ext. intros row.
      apply csvRow_object_assignAll.
    + intros texts Hin. apply in_map_iff in Hin as (row & <- & _).
      now rewrite !length_map.
Qed.

Lemma tableOf_columns (file : File Cell) (table : Table) :
  tableOf file = Some table -> columns table = headerRow file.
Proof.
  unfold Spec.tableOf, Spec.headerRow.
  destruct (String.eqb (extensionOf Cell file) "xlsx").
  - destruct (sheet Cell file) as [| |json]; try discriminate.
    destruct (2 <=? Z.of_nat (length json)); [|discriminate].
    now intros [= <-].
  - destruct (String.eqb (extensionOf Cell file) "csv"
              || String.eqb (extensionOf Cell file) "tsv")%bool; [|discriminate].
    destruct (papa Cell file) as [|errors fields data]; [discriminate|].
    destruct errors; [|discriminate].
    intros [= <-]. cbn [csvTable columns]. now rewrite map_map.
Qed.

(** Every rejection of an ingestion is one of the five errors. *)
Lemma ingest_rejects_with_error (file : File Cell) (message : string) :
  ingest file = reject message -> IngestionError message.
Proof.
  unfold App.ingest.
  destruct (parsePartsFile file) as [parsedData|message'] eqn:Hparse.
  - destruct (MAX_PARTS_LIMIT <? Z.of_nat (length parsedData)) eqn:Hsize;
      [|discriminate].
    intros [= <-]. apply SizeExceeded. now apply Z.ltb_lt.
  - intros [= <-]. revert Hparse. unfold FileParser.parsePartsFile.
    destruct (String.eqb (extensionOf Cell file) "xlsx").
    + unfold parseExcel. destruct (sheet Cell file) as [| |json].
      * intros [= <-]. constructor.
      * intros [= <-]. constructor.
      * destruct (Z.of_nat (length json) <? 2); [intros [= <-]; constructor|].
        rewrite length_pos_nonempty.
        destruct (missingHeaders _) as [|k missing]; cbn [negb]; [discriminate|].
        intros [= <-]. now constructor.
    + destruct (String.eqb (extensionOf Cell file) "csv"
                || String.eqb (extensionOf Cell file) "tsv")%bool;
        [|intros [= <-]; constructor].
      unfold parseCsvTsv. destruct (papa Cell file) as [detail|errors fields data].
      * intros [= <-]. constructor.
      * destruct errors as [|e errors]; [|intros [= <-]; constructor].
        rewrite length_pos_nonempty.
        destruct (missingHeaders _) as [|k missing]; cbn [negb]; [discriminate|].
        intros [= <-]. now constructor.
Qed.

(** After the upload of a file that parses to a non-empty catalog within
    the limit, the index is the one of that catalog. *)
Lemma upload_builds_index (file : File Cell) (st : AppState)
    (parsedData : list Part) :
  ingest file = resolve parsedData -> parsedData <> [] ->
  parts (upload file st) = parsedData /\ fuseRef (upload file st) = Some parsedData.
Proof.
  intros Hingest Hne. unfold App.upload, useEffect_parts, App.handleFileChange.
  rewrite Hingest. cbn. rewrite length_pos_nonempty.
  destruct parsedData; [contradiction|]. cbn. auto.
Qed.

(** C2, as the code has it.  A supported file that its reader read without
    error, that (for a spreadsheet) has at least two rows, whose header row
    has a source column for each of the eight canonical fields, in whatever
    spelling of the synonym table and whatever order, and that has at most
    65,000 data rows, is ingested: there is exactly one record per data
    row, in the order of the rows, and each field of a record is the text
    of the row's cell in the last column whose normalised header is a
    spelling of the field, whatever the other columns hold.  In a
    spreadsheet that text is [String] of the cell's value, and the empty
    string when the row has no cell there or a blank one; in a
    comma-separated or tab-separated file it is the text Papa gave the row
    under the header, and the empty string when it gave none.  Unless a
    header is a name that objects inherit, the object built for a row has
    the eight canonical properties and no other. *)
Theorem complete_file_ingested (file : File Cell) (table : Table) :
  tableOf file = Some table ->
  (forall k, In k REQUIRED_HEADERS -> hasSourceColumn (columns table) k = true) ->
  Z.of_nat (length (rows table)) <= MAX_PARTS_LIMIT ->
  exists records : list Part,
    ingest file = resolve records /\
    length records = length (rows table) /\
    records = map (recordOf (columns table)) (rows table) /\
    records = map asPart (objectsOf file) /\
    (noInheritedHeader (columns table) = true ->
     forall o, In o (objectsOf file) -> dom o = list_to_set REQUIRED_HEADERS) /\
    (forall json : list (Row Cell),
       extensionOf Cell file = "xlsx" ->
       sheet Cell file = Sheet Cell json ->
       columns table
       = map (option_map (fun h => normalizeHeader (String_ h))) (hd [] json) /\
       length records = length (tail json) /\
       forall (i : nat) (row : Row Cell) (record : Part) (k : string),
         tail json !! i = Some row ->
         records !! i = Some record ->
         In k REQUIRED_HEADERS ->
         exists (j : nat) (h : string),
           columns table !! j = Some (Some h) /\ spells k h = true /\
           (forall (j' : nat) (h' : string),
              (j < j')%nat -> columns table !! j' = Some (Some h') ->
              spells k h' = false) /\
           field k record = match row !! j with
                            | Some (Some value) => String_ value
                            | _ => ""
                            end) /\
    (forall (errors fields : list string) (data : list (gmap string string)),
       extensionOf Cell file <> "xlsx" ->
       papa Cell file = PapaComplete errors fields data ->
       columns table = map (fun h => Some (normalizeHeader h)) fields /\
       length records = length data /\
       forall (i : nat) (row : gmap string string) (record : Part) (k : string),
         data !! i = Some row ->
         records !! i = Some record ->
         In k REQUIRED_HEADERS ->
         exists (j : nat) (h : string),
           columns table !! j = Some (Some h) /\ spells k h = true /\
           (forall (j' : nat) (h' : string),
              (j < j')%nat -> columns table !! j' = Some (Some h') ->
              spells k h' = false) /\
           field k record = match row !! h with
                            | Some text => text
                            | None => ""
                            end).
Proof.
  intros Htable Hall Hsize.
  pose proof Hall as Hsources.
  apply missingFields_nil in Hall.
  destruct (objectsOf_table file table Htable) as [Hobjects Hwidth].
  exists (map (recordOf (columns table)) (rows table)).
  split; [|split; [|split; [|split; [|split; [|split]]]]].
  - unfold App.ingest. rewrite (parsePartsFile_table file table Htable), Hall.
    rewrite length_map.
    replace (MAX_PARTS_LIMIT <? Z.of_nat (length (rows table))) with false
      by (symmetry; apply Z.ltb_ge; exact Hsize).
    reflexivity.
  - apply length_map.
  - reflexivity.
  - rewrite Hobjects, map_map. apply map_ext. intros texts.
    symmetry. apply asPart_assignAll.
  - intros Hno o Ho. rewrite Hobjects in Ho.
    apply in_map_iff in Ho as (texts & <- & Hin).
    apply assignAll_dom; auto.
  - intros json Hext Hsheet. revert Htable. unfold Spec.tableOf.
    rewrite Hext, Hsheet. cbn [String.eqb Ascii.eqb Bool.eqb].
    change (if ("xlsx" =? "xlsx")%string then ?a else ?b) with a.
    destruct (2 <=? Z.of_nat (length json)); [|discriminate].
    intros [= Htable]. subst table. clear Hobjects Hwidth Hall Hsize.
    cbn [sheetTable columns rows] in *.
    split; [reflexivity|]. split; [now rewrite !length_map|].
    intros i row record k Hrow Hrecord Hk.
    rewrite !list_lookup_fmap, Hrow in Hrecord. injection Hrecord as <-.
    set (headers := sheetHeaders Cell String_ json) in *.
    destruct (field_source headers
                (map (cellText Cell String_ row) (seq 0 (length headers))) k)
      as (j & h & Hj & Hh & Hlast & Htext);
      [now rewrite length_map, length_seq | exact Hk | now apply Hsources |].
    exists j, h. split; [exact Hj|]. split; [exact Hh|]. split; [exact Hlast|].
    rewrite list_lookup_fmap, lookup_seq_lt in Htext
      by (apply lookup_lt_is_Some; eauto).
    injection Htext as ->. reflexivity.
  - intros errors fields data Hext Hpapa. revert Htable. unfold Spec.tableOf.
    apply String.eqb_neq in Hext. rewrite Hext, Hpapa.
    destruct (String.eqb (extensionOf Cell file) "csv"
              || String.eqb (extensionOf Cell file) "tsv")%bool; [|discriminate].
    destruct errors; [|discriminate].
    intros [= Htable]. subst table. clear Hobjects Hwidth Hall Hsize.
    cbn [csvTable columns rows] in *.
    split; [now rewrite map_map|]. split; [now rewrite !length_map|].
    intros i row record k Hrow Hrecord Hk.
    rewrite !list_lookup_fmap, Hrow in Hrecord. injection Hrecord as <-.
    set (headers := map normalizeHeader fields) in *.
    destruct (field_source (map Some headers) (map (csvCellText row) headers) k)
      as (j & h & Hj & Hh & Hlast & Htext);
      [now rewrite !length_map | exact Hk | now apply Hsources |].
    exists j, h. split; [exact Hj|]. split; [exact Hh|]. split; [exact Hlast|].
    rewrite list_lookup_fmap in Hj. rewrite list_lookup_fmap in Htext.
    destruct (headers !! j) as [h0|]; [|discriminate Hj].
    injection Hj as ->. injection Htext as ->.
    unfold csvCellText. destruct (row !! h); [reflexivity|].
    unfold spells in Hh.
    destruct (HEADER_MAPPING_own !! h) as [k'|] eqn:Hown; [|discriminate Hh].
    now rewrite (own_not_inherited h k' Hown).
Qed.

(** C3, as the code has it.  When a supported file was read without error
    and (for a spreadsheet) has at least two rows, and some required
    canonical field has no source column in its header row, the parse is
    rejected with the message that lists the missing fields, in the order
    of [REQUIRED_HEADERS]: exactly the required fields without a source
    column.  No record is produced, and the upload handler leaves an empty
    catalog. *)
Theorem missing_columns_reported (file : File Cell) (table : Table) (st : AppState) :
  tableOf file = Some table ->
  (exists k, In k REQUIRED_HEADERS /\ hasSourceColumn (columns table) k = false) ->
  let missing := missingFields (columns table) in
  let st' := handleFileChange (Some file) st in
  parsePartsFile file = reject (missingColumnsMessage missing) /\
  ingest file = reject (missingColumnsMessage missing) /\
  missing <> [] /\
  (forall k, In k missing <->
             In k REQUIRED_HEADERS /\ hasSourceColumn (columns table) k = false) /\
  uploadStatus st' = error /\
  uploadMessage st' = "⚠️ " +:+ missingColumnsMessage missing /\
  parts st' = [].
Proof.
  intros Htable (k & Hk & Hs). cbn zeta.
  assert (Hin : In k (missingFields (columns table)))
    by (now apply missingFields_spec).
  assert (Hparse : parsePartsFile file
                   = reject (missingColumnsMessage (missingFields (columns table)))).
  { rewrite (parsePartsFile_table file table Htable).
    destruct (missingFields (columns table)); [destruct Hin | reflexivity]. }
  assert (Hingest : ingest file
                    = reject (missingColumnsMessage (missingFields (columns table)))).
  { unfold App.ingest. now rewrite Hparse. }
  split; [exact Hparse|]. split; [exact Hingest|].
  split; [intros Hnil; rewrite Hnil in Hin; destruct Hin|].
  split; [intros k'; apply missingFields_spec|].
  unfold App.handleFileChange. rewrite Hingest. cbn. auto.
Qed.

(** C4. A file that parses to exactly 65,001 records is refused with the
    size message and the catalog is left empty; one that parses to exactly
    65,000 records is accepted and becomes the catalog.  The size is
    checked on the outcome of a successful parse: a rejected parse is
    reported with its own message. *)
Theorem size_limit (file : File Cell) (st : AppState) :
  let st' := handleFileChange (Some file) st in
  (forall parsedData : list Part,
     parsePartsFile file = resolve parsedData ->
     (Z.of_nat (length parsedData) = 65001 ->
        ingest file
        = reject "File contains 65001 items, exceeding the limit of 65000." /\
        uploadStatus st' = error /\
        uploadMessage st'
        = "⚠️ File contains 65001 items, exceeding the limit of 65000." /\
        parts st' = []) /\
     (Z.of_nat (length parsedData) = 65000 ->
        ingest file = resolve parsedData /\
        uploadStatus st' = success /\
        parts st' = parsedData)) /\
  (forall message : string,
     parsePartsFile file = reject message -> ingest file = reject message).
Proof.
  cbn zeta. split.
  - intros parsedData Hparse. split; intros Hlen.
    + assert (Hingest : ingest file
        = reject "File contains 65001 items, exceeding the limit of 65000.").
      { unfold App.ingest. rewrite Hparse, Hlen. reflexivity. }
      split; [exact Hingest|].
      unfold App.handleFileChange. rewrite Hingest. cbn. auto.
    + assert (Hingest : ingest file = resolve parsedData).
      { unfold App.ingest. rewrite Hparse, Hlen. reflexivity. }
      split; [exact Hingest|].
      unfold App.handleFileChange. rewrite Hingest. cbn. auto.
  - intros message Hparse. unfold App.ingest. now rewrite Hparse.
Qed.

(** C6. Whatever becomes of the ingestion of a selected file, the handler
    leaves an empty quotation and a discount of 0, and so does the
    re-render that follows; when the ingestion fails, with whatever
    error, the catalog is empty as well. *)
Theorem upload_resets_quotation (file : File Cell) (st : AppState) :
  let st' := handleFileChange (Some file) st in
  quotationParts st' = [] /\
  discountPercentage st' = Number_of_Z 0 /\
  quotationParts (upload file st) = [] /\
  discountPercentage (upload file st) = Number_of_Z 0 /\
  (forall message : string,
     ingest file = reject message ->
     uploadStatus st' = error /\ parts st' = [] /\ parts (upload file st) = []) /\
  (forall parsedData : list Part,
     ingest file = resolve parsedData ->
     uploadStatus st' = success /\ parts st' = parsedData).
Proof.
  cbn zeta. unfold App.upload, useEffect_parts, App.handleFileChange.
  destruct (ingest file) as [parsedData|message]; cbn.
  - destruct (0 <? Z.of_nat (length parsedData)); cbn;
      (split; [reflexivity|]); (split; [reflexivity|]);
      (split; [reflexivity|]); (split; [reflexivity|]);
      (split; [intros message Hm; discriminate Hm|]);
      intros parsedData' [= <-]; split; reflexivity.
  - split; [reflexivity|]. split; [reflexivity|].
    split; [reflexivity|]. split; [reflexivity|].
    split; [intros message' _; repeat split|].
    intros parsedData Hp. discriminate Hp.
Qed.

End Ingestion.

(** ** Search *)

Section SearchProps.

Variable Fuse_search : list Part -> string -> list FuseResult.



End SearchProps.

(** ** The properties on sample data *)

Lemma sheetFile_parses (n : nat) :
  (1 <= n)%nat ->
  parsePartsFile string Sample.String_ (Sample.sheetFile n)
  = resolve (repeat Sample.oilFilter n).
Proof.
  intros Hn. unfold parsePartsFile.
  change (extensionOf string (Sample.sheetFile n)) with "xlsx".
  cbn [String.eqb Ascii.eqb Bool.eqb sheet Sample.sheetFile].
  change (if ("xlsx" =? "xlsx")%string then ?a else ?b) with a.
  rewrite parseExcel_table
    by (cbn [length]; rewrite repeat_length; lia).
  change (columns (sheetTable string Sample.String_
                     (Sample.headerCells :: repeat Sample.oilFilterCells n)))
    with [ Some "item no."; Some "description"; Some "item group"; Some "model";
           Some "bhl/hln flag"; Some "hsn tax %"; Some "sale rate"; Some "mrp";
           Some "remarks" ].
  change (missingFields _) with (@nil string).
  cbn [sheetTable rows tail]. rewrite !map_repeat. reflexivity.
Qed.

Lemma add_once_witness :
  linesOf "AB-123"
    (handleAddToQuotation Sample.oilFilter
       (handleAddToQuotation Sample.oilFilter initialState))
  = [ {| part := Sample.oilFilter; quantity := Number_of_Z 1 |} ].
Proof.
  destruct (add_once Sample.oilFilter initialState) as (_ & _ & Hagain).
  destruct (Hagain Sample.oilFilter eq_refl) as (_ & Hone).
  destruct (Hone (List.NoDup_nil string)) as (l & Hlines & Hnew & _).
  rewrite <- (Hnew eq_refl). exact Hlines.
Defined.

Lemma setQuantity_clamps_witness :
  handleUpdateQuotationQuantity "AB-123" (Number_of_Z (-5)) Sample.oneLineState
  = handleRemoveFromQuotation "AB-123" Sample.oneLineState /\
  handleUpdateQuotationQuantity "AB-123" (Number_of_Z 0) Sample.oneLineState
  = handleRemoveFromQuotation "AB-123" Sample.oneLineState /\
  quotationParts (handleRemoveFromQuotation "AB-123" Sample.oneLineState) = [] /\
  quotationParts
    (handleUpdateQuotationQuantity "AB-123" (Number_of_Z 3) Sample.oneLineState)
  = [ {| part := Sample.oilFilter; quantity := Number_of_Z 3 |} ].
Proof.
  split; [|split; [|split]].
  - apply (setQuantity_clamps "AB-123" (Number_of_Z (-5)) Sample.oneLineState).
    reflexivity.
  - apply (setQuantity_clamps "AB-123" (Number_of_Z 0) Sample.oneLineState).
    reflexivity.
  - reflexivity.
  - destruct (setQuantity_clamps "AB-123" (Number_of_Z 3) Sample.oneLineState)
      as (_ & _ & _ & _ & Hreplace).
    rewrite (Hreplace eq_refl). reflexivity.
Defined.

Lemma setQuantity_absent_witness :
  isPartInQuotation "ZZ-9" Sample.oneLineState = false /\
  Number_le (Number_of_Z 1) (Number_of_Z 3) = true /\
  handleUpdateQuotationQuantity "ZZ-9" (Number_of_Z 3) Sample.oneLineState
  = Sample.oneLineState.
Proof.
  split; [reflexivity|]. split; [reflexivity|].
  apply setQuantity_absent; reflexivity.
Defined.

Lemma totals_derivation_witness :
  totals [ Sample.line "A" "₹100.00" 2; Sample.line "B" "₹50" 1 ] (Number_of_Z 10)
  = {| subtotal := Number_of_Z 250;
       discountAmount := Number_of_Z 25;
       total := Number_of_Z 225 |}.
Proof.
  apply (proj2 (totals_derivation [] (Number_of_Z 0))); reflexivity.
Defined.

Lemma complete_file_ingested_witness :
  ingest string Sample.String_ Sample.tsvFile = resolve [Sample.oilFilter] /\
  (forall o, In o (objectsOf string Sample.String_ Sample.tsvFile) ->
             dom o = list_to_set REQUIRED_HEADERS) /\
  ingest string Sample.String_ Sample.repricedFile = resolve [Sample.repriced] /\
  ingest string Sample.String_ Sample.unnumberedFile
  = resolve [Sample.unnumbered; Sample.oilFilter].
Proof.
  split; [|split; [|split]].
  - destruct (complete_file_ingested string Sample.String_ Sample.tsvFile
                (csvTable
                   [ "mrp"; "item no"; "item description"; "item group"; "model";
                     "bhl/hln flag"; "hsn tax %"; "sale rate"; "remarks" ]
                   [ list_to_map
                       [ ("mrp", "₹500.00"); ("item no", "AB-123");
                         ("item description", "Oil filter");
                         ("item group", "Filters"); ("model", "3DX");
                         ("bhl/hln flag", "BHL"); ("hsn tax %", "18");
                         ("sale rate", "₹450.00"); ("remarks", "fast moving") ] ]))
      as (records & Hingest & _ & Hrecords & _).
    + vm_compute. reflexivity.
    + intros k Hk. cbn in Hk.
      destruct Hk as [<-|[<-|[<-|[<-|[<-|[<-|[<-|[<-|[]]]]]]]]];
        vm_compute; reflexivity.
    + cbn. unfold MAX_PARTS_LIMIT. lia.
    + rewrite Hingest, Hrecords. vm_compute. reflexivity.
  - destruct (complete_file_ingested string Sample.String_ Sample.tsvFile
                (csvTable
                   [ "mrp"; "item no"; "item description"; "item group"; "model";
                     "bhl/hln flag"; "hsn tax %"; "sale rate"; "remarks" ]
                   [ list_to_map
                       [ ("mrp", "₹500.00"); ("item no", "AB-123");
                         ("item description", "Oil filter");
                         ("item group", "Filters"); ("model", "3DX");
                         ("bhl/hln flag", "BHL"); ("hsn tax %", "18");
                         ("sale rate", "₹450.00"); ("remarks", "fast moving") ] ]))
      as (records & _ & _ & _ & _ & Hdom & _).
    + vm_compute. reflexivity.
    + intros k Hk. cbn in Hk.
      destruct Hk as [<-|[<-|[<-|[<-|[<-|[<-|[<-|[<-|[]]]]]]]]];
        vm_compute; reflexivity.
    + cbn. unfold MAX_PARTS_LIMIT. lia.
    + apply Hdom. vm_compute. reflexivity.
  - destruct (complete_file_ingested string Sample.String_ Sample.repricedFile
                (sheetTable string Sample.String_
                   [Sample.paddedHeaderCells; Sample.repricedCells]))
      as (records & Hingest & _ & Hrecords & _).
    + vm_compute. reflexivity.
    + intros k Hk. cbn in Hk.
      destruct Hk as [<-|[<-|[<-|[<-|[<-|[<-|[<-|[<-|[]]]]]]]]];
        vm_compute; reflexivity.
    + cbn. unfold MAX_PARTS_LIMIT. lia.
    + rewrite Hingest, Hrecords. vm_compute. reflexivity.
  - destruct (complete_file_ingested string Sample.String_ Sample.unnumberedFile
                (sheetTable string Sample.String_
                   [Sample.headerCells; Sample.unnumberedCells;
                    Sample.oilFilterCells]))
      as (records & Hingest & _ & Hrecords & _).
    + vm_compute. reflexivity.
    + intros k Hk. cbn in Hk.
      destruct Hk as [<-|[<-|[<-|[<-|[<-|[<-|[<-|[<-|[]]]]]]]]];
        vm_compute; reflexivity.
    + cbn. unfold MAX_PARTS_LIMIT. lia.
    + rewrite Hingest, Hrecords. vm_compute. reflexivity.
Defined.

(** White space of any kind around a header is of no consequence, and of
    two columns for one field the last one counts. *)
Example padded_headers_are_recognised :
  normalizeHeader (Sample.nbsp +:+ "MRP" +:+ Sample.nbsp) = "mrp" /\
  normalizeHeader (Sample.byteOrderMark +:+ "Item No") = "item no" /\
  parsePartsFile string Sample.String_ Sample.paddedFile
  = resolve [Sample.oilFilter] /\
  parsePartsFile string Sample.String_ Sample.repricedFile
  = resolve [Sample.repriced].
Proof. vm_compute. repeat split; reflexivity. Qed.

(** Letters outside ASCII have their case folded as well: the valve with
    the item number "ÄB-9" is the exact match of the query "äb-9". *)
Example accented_item_number_is_matched :
  toLowerCase "ÄB-9" = "äb-9" /\
  map item (Sample.offerAll (parts Sample.valveSearchState) "äb-9")
  = [Sample.pump; Sample.valve] /\
  searchResults (handleSearch Sample.offerAll Sample.valveSearchState)
  = Some [Sample.valve].
Proof. vm_compute. repeat split; reflexivity. Qed.

(** A column headed "constructor" is not ignored by the object that is
    built: its cell is stored under the text of the inherited value. *)
Example inherited_header_is_stored :
  processRow_object string Sample.String_
    [Some "AB-123"; Some "x"]
    [HEADER_MAPPING "item no"; HEADER_MAPPING "constructor"]
  = {[ "itemNo" := "AB-123";
       "function Object() { [native code] }" := "x" ]}.
Proof. vm_compute. reflexivity. Qed.

Lemma missing_columns_reported_witness :
  parsePartsFile string Sample.String_ Sample.noPricesFile
  = reject "Missing required columns: saleRate, mrp" /\
  parts (handleFileChange string Sample.String_ (Some Sample.noPricesFile)
           Sample.oneLineState) = [].
Proof.
  destruct (missing_columns_reported string Sample.String_ Sample.noPricesFile
              (csvTable
                 [ "item no"; "description"; "item group"; "model";
                   "bhl/hln flag"; "hsn tax" ]
                 [ list_to_map
                     [ ("item no", "AB-123"); ("description", "Oil filter");
                       ("item group", "Filters"); ("model", "3DX");
                       ("bhl/hln flag", "BHL"); ("hsn tax", "18") ] ])
              Sample.oneLineState)
    as (Hparse & _ & _ & _ & _ & _ & Hparts).
  - reflexivity.
  - exists "mrp". split; [cbn; tauto | reflexivity].
  - split; [|exact Hparts]. rewrite Hparse. reflexivity.
Defined.

Lemma size_limit_witness :
  uploadStatus
    (handleFileChange string Sample.String_
       (Some (Sample.sheetFile (Z.to_nat 65001))) Sample.oneLineState) = error /\
  parts
    (handleFileChange string Sample.String_
       (Some (Sample.sheetFile (Z.to_nat 65001))) Sample.oneLineState) = [] /\
  parts
    (handleFileChange string Sample.String_
       (Some (Sample.sheetFile (Z.to_nat 65000))) Sample.oneLineState)
  = repeat Sample.oilFilter (Z.to_nat 65000).
Proof.
  split; [|split].
  - apply (proj1 (size_limit string Sample.String_
                    (Sample.sheetFile (Z.to_nat 65001)) Sample.oneLineState)
             (repeat Sample.oilFilter (Z.to_nat 65001))).
    + apply sheetFile_parses. lia.
    + rewrite repeat_length. lia.
  - apply (proj1 (size_limit string Sample.String_
                    (Sample.sheetFile (Z.to_nat 65001)) Sample.oneLineState)
             (repeat Sample.oilFilter (Z.to_nat 65001))).
    + apply sheetFile_parses. lia.
    + rewrite repeat_length. lia.
  - apply (proj1 (size_limit string Sample.String_
                    (Sample.sheetFile (Z.to_nat 65000)) Sample.oneLineState)
             (repeat Sample.oilFilter (Z.to_nat 65000))).
    + apply sheetFile_parses. lia.
    + rewrite repeat_length. lia.
Defined.

Lemma upload_resets_quotation_witness :
  quotationParts Sample.oneLineState <> [] /\
  quotationParts
    (handleFileChange string Sample.String_ (Some Sample.headerOnlyFile)
       Sample.oneLineState) = [] /\
  parts
    (handleFileChange string Sample.String_ (Some Sample.headerOnlyFile)
       Sample.oneLineState) = [].
Proof.
  split; [discriminate|].
  destruct (upload_resets_quotation string Sample.String_ Sample.headerOnlyFile
              Sample.oneLineState) as (Hq & _ & _ & _ & Hfail & _).
  split; [exact Hq|].
  apply (Hfail "File is empty or contains only headers."). reflexivity.
Defined.


(** ** Where the stated claims fail *)


(** C2, as stated, fails: a spreadsheet that has all eight columns and no
    data row is not ingested; nor is a comma-separated file with all eight
    columns in which Papa reported an error, nor a spreadsheet with all
    eight columns and 65,001 data rows. *)
Lemma header_only_sheet_rejected :
  (extensionOf string Sample.headerOnlyFile = "xlsx" /\
   forallb (hasSourceColumn (headerRow string Sample.String_ Sample.headerOnlyFile))
     REQUIRED_HEADERS = true /\
   parsePartsFile string Sample.String_ Sample.headerOnlyFile
   = reject "File is empty or contains only headers." /\
   ingest string Sample.String_ Sample.headerOnlyFile
   = reject "File is empty or contains only headers.") /\
  (extensionOf string Sample.raggedFile = "csv" /\
   forallb (hasSourceColumn (headerRow string Sample.String_ Sample.raggedFile))
     REQUIRED_HEADERS = true /\
   ingest string Sample.String_ Sample.raggedFile
   = reject "CSV parsing error: Too few fields: expected 8 fields but parsed 7") /\
  (extensionOf string (Sample.sheetFile (Z.to_nat 65001)) = "xlsx" /\
   forallb (hasSourceColumn
              (headerRow string Sample.String_ (Sample.sheetFile (Z.to_nat 65001))))
     REQUIRED_HEADERS = true /\
   ingest string Sample.String_ (Sample.sheetFile (Z.to_nat 65001))
   = reject "File contains 65001 items, exceeding the limit of 65000.").
Proof.
  split; [|split].
  - vm_compute. repeat split; reflexivity.
  - vm_compute. repeat split; reflexivity.
  - split; [vm_compute; reflexivity|]. split; [vm_compute; reflexivity|].
    unfold ingest. rewrite sheetFile_parses by lia. rewrite repeat_length.
    vm_compute. reflexivity.
Qed.

(** C3, as stated, fails: a spreadsheet whose only row is a header row
    without seven of the required columns is rejected for having no data
    row, not for its missing columns; a comma-separated file without them
    in which Papa reported an error is rejected for that error; and a file
    of a kind that is not supported is rejected for its kind. *)
Lemma short_header_only_sheet_rejected_as_empty :
  (missingFields (headerRow string Sample.String_ Sample.shortHeaderOnlyFile)
   = [ "itemDescription"; "itemGroup"; "model"; "bhlHlnFlag"; "hsnTax";
       "saleRate"; "mrp" ] /\
   parsePartsFile string Sample.String_ Sample.shortHeaderOnlyFile
   = reject "File is empty or contains only headers." /\
   forall missing : list string,
     parsePartsFile string Sample.String_ Sample.shortHeaderOnlyFile
     <> reject (missingColumnsMessage missing)) /\
  (missingFields (headerRow string Sample.String_ Sample.raggedShortFile)
   = [ "itemDescription"; "itemGroup"; "model"; "bhlHlnFlag"; "hsnTax";
       "saleRate"; "mrp" ] /\
   parsePartsFile string Sample.String_ Sample.raggedShortFile
   = reject "CSV parsing error: Quoted field unterminated" /\
   forall missing : list string,
     parsePartsFile string Sample.String_ Sample.raggedShortFile
     <> reject (missingColumnsMessage missing)) /\
  (missingFields (headerRow string Sample.String_ Sample.shortNotesFile)
   = [ "itemDescription"; "itemGroup"; "model"; "bhlHlnFlag"; "hsnTax";
       "saleRate"; "mrp" ] /\
   parsePartsFile string Sample.String_ Sample.shortNotesFile
   = reject "File format not supported. Please upload CSV, TSV, or Excel." /\
   forall missing : list string,
     parsePartsFile string Sample.String_ Sample.shortNotesFile
     <> reject (missingColumnsMessage missing)).
Proof.
  split; [|split].
  - split; [vm_compute; reflexivity|]. split; [vm_compute; reflexivity|].
    intros missing H. vm_compute in H. discriminate H.
  - split; [vm_compute; reflexivity|]. split; [vm_compute; reflexivity|].
    intros missing H.
    assert (Hparse : parsePartsFile string Sample.String_ Sample.raggedShortFile
                     = reject "CSV parsing error: Quoted field unterminated")
      by (vm_compute; reflexivity).
    rewrite Hparse in H. discriminate H.
  - split; [vm_compute; reflexivity|]. split; [vm_compute; reflexivity|].
    intros missing H.
    assert (Hparse : parsePartsFile string Sample.String_ Sample.shortNotesFile
                     = reject "File format not supported. Please upload CSV, TSV, or Excel.")
      by (vm_compute; reflexivity).
    rewrite Hparse in H. discriminate H.
Qed.

(** * Further properties of the sources *)

(** ** White space *)

Lemma append_cons (c : ascii) (a b : string) :
  String c a +:+ b = String c (a +:+ b).
Proof. reflexivity. Qed.

Lemma append_empty_r (s : string) : s +:+ "" = s.
Proof.
  induction s as [|c s IH]; [reflexivity|].
  rewrite append_cons. now rewrite IH.
Qed.

Lemma append_assoc (a b c : string) : (a +:+ b) +:+ c = a +:+ (b +:+ c).
Proof.
  induction a as [|x a IH]; [reflexivity|].
  rewrite !append_cons. now rewrite IH.
Qed.

Lemma append_length (a b : string) :
  String.length (a +:+ b) = (String.length a + String.length b)%nat.
Proof.
  induction a as [|x a IH]; [reflexivity|].
  rewrite append_cons. cbn [String.length]. now rewrite IH.
Qed.

Lemma stripPrefix_Some (w s r : string) :
  stripPrefix w s = Some r -> s = w +:+ r.
Proof.
  revert s. induction w as [|a w IH]; intros s; cbn [stripPrefix].
  - now intros [= ->].
  - destruct s as [|b s]; [discriminate|].
    destruct (Ascii.eqb_spec a b) as [->|_]; [|discriminate].
    intros H. rewrite append_cons. now rewrite (IH s H).
Qed.

Lemma stripPrefix_app (w r : string) : stripPrefix w (w +:+ r) = Some r.
Proof.
  induction w as [|a w IH]; [reflexivity|].
  rewrite append_cons. cbn [stripPrefix]. now rewrite Ascii.eqb_refl.
Qed.

(** What holds of each white-space character holds of a given one. *)
Lemma WhiteSpace_cases (w : string) (P : string -> Prop) :
  In w WhiteSpace ->
  Forall P WhiteSpace -> P w.
Proof. intros Hin Hall. exact (proj1 (List.Forall_forall P WhiteSpace) Hall w Hin). Qed.

Lemma stripWhiteSpace_Some (s r : string) :
  stripWhiteSpace s = Some r -> exists w, In w WhiteSpace /\ s = w +:+ r.
Proof.
  unfold stripWhiteSpace. induction WhiteSpace as [|w l IH]; [discriminate|].
  cbn [fold_right]. destruct (stripPrefix w s) as [r'|] eqn:Hw.
  - intros [= ->]. exists w. split; [now left | now apply stripPrefix_Some].
  - intros H. destruct (IH H) as (w' & Hin & Hs). exists w'. split; [now right | exact Hs].
Qed.

Lemma stripWhiteSpace_app (w r : string) :
  In w WhiteSpace -> stripWhiteSpace (w +:+ r) = Some r.
Proof.
  intros Hin. revert r. pattern w. apply (WhiteSpace_cases w); [exact Hin|].
  vm_compute WhiteSpace.
  repeat (apply List.Forall_cons; [intros r; reflexivity|]). apply List.Forall_nil.
Qed.

Lemma WhiteSpace_length (w : string) :
  In w WhiteSpace -> (1 <= String.length w)%nat.
Proof.
  intros Hin. pattern w. apply (WhiteSpace_cases w); [exact Hin|].
  vm_compute WhiteSpace.
  repeat (apply List.Forall_cons; [cbn; lia|]). apply List.Forall_nil.
Qed.

Lemma stripWhiteSpace_shorter (s r : string) :
  stripWhiteSpace s = Some r -> (String.length r < String.length s)%nat.
Proof.
  intros H. destruct (stripWhiteSpace_Some s r H) as (w & Hin & ->).
  rewrite append_length. pose proof (WhiteSpace_length w Hin). lia.
Qed.

(** The length of a string is fuel enough for [trimStart_from]: more fuel
    gives the same result. *)
Lemma trimStart_from_enough (n m : nat) (s : string) :
  (String.length s <= n)%nat -> (String.length s <= m)%nat ->
  trimStart_from n s = trimStart_from m s.
Proof.
  revert m s. induction n as [|n IH]; intros m s Hn Hm.
  - destruct s; [|cbn in Hn; lia]. destruct m; reflexivity.
  - destruct m as [|m].
    + destruct s; [reflexivity | cbn in Hm; lia].
    + cbn [trimStart_from]. destruct (stripWhiteSpace s) as [r|] eqn:Hs; [|reflexivity].
      apply stripWhiteSpace_shorter in Hs. apply IH; lia.
Qed.

Lemma trimStart_step (s : string) :
  trimStart s =
    match stripWhiteSpace s with
    | Some r => trimStart r
    | None => s
    end.
Proof.
  unfold trimStart. destruct s as [|c s]; [reflexivity|].
  cbn [String.length trimStart_from].
  destruct (stripWhiteSpace (String c s)) as [r|] eqn:Hs; [|reflexivity].
  apply stripWhiteSpace_shorter in Hs. cbn [String.length] in Hs.
  apply trimStart_from_enough; lia.
Qed.

Lemma trimStart_blank_app (b x : string) :
  isBlank b -> trimStart (b +:+ x) = trimStart x.
Proof.
  induction 1 as [|w s Hw Hs IH]; [reflexivity|].
  rewrite append_assoc, trimStart_step, stripWhiteSpace_app by exact Hw. exact IH.
Qed.

Lemma trimStart_blank (b : string) : isBlank b -> trimStart b = "".
Proof.
  intros Hb. rewrite <- (append_empty_r b). now rewrite trimStart_blank_app.
Qed.

(** What [trimStart] leaves does not begin with white space. *)
Lemma trimStart_head (s : string) : stripWhiteSpace (trimStart s) = None \/ trimStart s = "".
Proof.
  remember (String.length s) as n eqn:Hn. revert s Hn.
  induction n as [n IH] using lt_wf_ind. intros s ->.
  rewrite trimStart_step. destruct (stripWhiteSpace s) as [r|] eqn:Hs.
  - apply (IH (String.length r)); [now apply stripWhiteSpace_shorter | reflexivity].
  - now left.
Qed.

Lemma trimStart_idempotent (s : string) : trimStart (trimStart s) = trimStart s.
Proof.
  destruct (trimStart_head s) as [H|H].
  - now rewrite (trimStart_step (trimStart s)), H.
  - now rewrite H.
Qed.

Lemma trimStart_empty (s : string) : trimStart s = "" -> isBlank s.
Proof.
  remember (String.length s) as n eqn:Hn. revert s Hn.
  induction n as [n IH] using lt_wf_ind. intros s ->.
  rewrite trimStart_step. destruct (stripWhiteSpace s) as [r|] eqn:Hs.
  - intros Hr. destruct (stripWhiteSpace_Some s r Hs) as (w & Hw & ->).
    apply blank_more; [exact Hw|].
    apply (IH (String.length r)); [now apply stripWhiteSpace_shorter | reflexivity | exact Hr].
  - intros ->. constructor.
Qed.

(** No white-space character begins with a byte that another one has at
    its second or third place: white space that follows a text cannot
    complete a character the text has begun. *)
Lemma WhiteSpace_bytes_apart :
  forallb (fun w => forallb (fun w' => negb (firstByteIn (laterBytes w) w')) WhiteSpace)
    WhiteSpace = true.
Proof. vm_compute. reflexivity. Qed.

Lemma stripPrefix_across (w t b r : string) :
  t <> "" ->
  stripPrefix w t = None ->
  stripPrefix w (t +:+ b) = Some r ->
  firstByteIn (laterBytes w) b = true.
Proof.
  revert t. induction w as [|a w IH]; intros t Ht Hnone Hsome; [discriminate Hnone|].
  destruct t as [|c t]; [contradiction|].
  rewrite append_cons in Hsome. cbn [stripPrefix] in Hnone, Hsome.
  destruct (Ascii.eqb a c); [|discriminate].
  cbn [laterBytes]. destruct t as [|c' t].
  - change ("" +:+ b) with b in Hsome.
    destruct w as [|a' w]; [discriminate Hnone|].
    destruct b as [|x b]; [discriminate Hsome|].
    cbn [stripPrefix] in Hsome. destruct (Ascii.eqb_spec a' x) as [->|_]; [|discriminate].
    cbn [firstByteIn list_ascii_of_string existsb]. now rewrite Ascii.eqb_refl.
  - assert (H : firstByteIn (laterBytes w) b = true)
      by (apply (IH (String c' t)); [discriminate | exact Hnone | exact Hsome]).
    destruct b as [|x b]; [destruct w; discriminate H|].
    destruct w as [|a' w]; [discriminate H|].
    cbn [firstByteIn laterBytes list_ascii_of_string existsb] in *.
    rewrite H. apply orb_true_r.
Qed.

Lemma isBlank_first_byte (b w : string) :
  isBlank b -> In w WhiteSpace -> firstByteIn (laterBytes w) b = false.
Proof.
  intros Hb Hw. destruct Hb as [|w' s Hw' _]; [reflexivity|].
  pose proof WhiteSpace_bytes_apart as H.
  rewrite forallb_forall in H. specialize (H w Hw).
  rewrite forallb_forall in H. specialize (H w' Hw'). apply negb_true_iff in H.
  pose proof (WhiteSpace_length w' Hw') as Hlen.
  destruct w' as [|c w']; [cbn in Hlen; lia|]. exact H.
Qed.

Lemma stripWhiteSpace_across (t b : string) :
  t <> "" -> isBlank b ->
  stripWhiteSpace t = None -> stripWhiteSpace (t +:+ b) = None.
Proof.
  intros Ht Hb. unfold stripWhiteSpace.
  assert (Hall : forall w, In w WhiteSpace -> In w WhiteSpace) by auto.
  revert Hall. generalize WhiteSpace at 1 3 4. intros l.
  induction l as [|w l IH]; intros Hall; [reflexivity|].
  cbn [fold_right]. destruct (stripPrefix w t) as [r|] eqn:Hw; [discriminate|].
  intros Hrest. destruct (stripPrefix w (t +:+ b)) as [r|] eqn:Hwb.
  - pose proof (stripPrefix_across w t b r Ht Hw Hwb) as Hfirst.
    rewrite (isBlank_first_byte b w Hb) in Hfirst by (apply Hall; now left).
    discriminate Hfirst.
  - apply IH; [|exact Hrest]. intros w' Hw'. apply Hall. now right.
Qed.

(** White space behind a text: it is all that [trimStart] leaves to
    [trimEnd] of it. *)
Lemma trimStart_app_blank (x b : string) :
  isBlank b ->
  trimStart (x +:+ b) = if String.eqb (trimStart x) "" then "" else trimStart x +:+ b.
Proof.
  intros Hb. remember (String.length x) as n eqn:Hn. revert x Hn.
  induction n as [n IH] using lt_wf_ind. intros x ->.
  rewrite (trimStart_step x). destruct (stripWhiteSpace x) as [r|] eqn:Hs.
  - destruct (stripWhiteSpace_Some x r Hs) as (w & Hw & ->).
    rewrite append_assoc, trimStart_step, stripWhiteSpace_app by exact Hw.
    apply (IH (String.length r)); [now apply stripWhiteSpace_shorter | reflexivity].
  - destruct x as [|c x].
    + change ("" +:+ b) with b. now rewrite trimStart_blank.
    + cbn [String.eqb]. rewrite trimStart_step.
      now rewrite (stripWhiteSpace_across (String c x) b) by (discriminate || assumption).
Qed.

Lemma allWhiteSpace_app_blank (x b : string) :
  isBlank b -> allWhiteSpace (x +:+ b) = allWhiteSpace x.
Proof.
  intros Hb. unfold allWhiteSpace. rewrite trimStart_app_blank by exact Hb.
  destruct (trimStart x) as [|c r]; reflexivity.
Qed.

Lemma trimEnd_blank (b : string) : isBlank b -> trimEnd b = "".
Proof.
  intros Hb. destruct b as [|c b]; [reflexivity|].
  cbn [trimEnd]. unfold allWhiteSpace. now rewrite trimStart_blank.
Qed.

Lemma trimEnd_app_blank (x b : string) :
  isBlank b -> trimEnd (x +:+ b) = trimEnd x.
Proof.
  intros Hb. induction x as [|c x IH].
  - change ("" +:+ b) with b. now apply trimEnd_blank.
  - rewrite append_cons. cbn [trimEnd]. rewrite <- append_cons.
    rewrite allWhiteSpace_app_blank by exact Hb. now rewrite IH.
Qed.

Lemma trim_blank (s : string) : isBlank s -> trim s = "".
Proof. intros Hs. unfold trim. now rewrite trimStart_blank. Qed.

Lemma trim_empty (s : string) : trim s = "" -> isBlank s.
Proof.
  unfold trim. intros H. apply trimStart_empty.
  destruct (trimStart s) as [|c r] eqn:Hs; [reflexivity|].
  cbn [trimEnd] in H. destruct (allWhiteSpace (String c r)) eqn:Hall; [|discriminate H].
  unfold allWhiteSpace in Hall. apply String.eqb_eq in Hall.
  rewrite <- Hs, trimStart_idempotent in Hall. congruence.
Qed.

Lemma trim_blank_app (b s : string) : isBlank b -> trim (b +:+ s) = trim s.
Proof. intros Hb. unfold trim. now rewrite trimStart_blank_app. Qed.

Lemma trim_app_blank (s b : string) : isBlank b -> trim (s +:+ b) = trim s.
Proof.
  intros Hb. unfold trim. rewrite trimStart_app_blank by exact Hb.
  destruct (trimStart s) as [|c r]; [reflexivity|].
  cbn [String.eqb]. now apply trimEnd_app_blank.
Qed.

(** ** Code points and their bytes *)

Ltac divmod := intros; zify; Z.to_euclidean_division_equations; lia.

Lemma byte_N_of_ascii (c : ascii) : byte (N_of_ascii c) = c.
Proof. apply ascii_N_embedding. Qed.

Lemma N_of_ascii_byte (n : N) : (n < 256)%N -> N_of_ascii (byte n) = n.
Proof. apply N_ascii_embedding. Qed.

Lemma N_of_ascii_lt (c : ascii) : (N_of_ascii c < 256)%N.
Proof. apply N_ascii_bounded. Qed.

Lemma continuation_Some (c : ascii) (x : N) :
  continuation c = Some x -> (x < 64)%N /\ N_of_ascii c = (0x80 + x)%N.
Proof.
  unfold continuation.
  destruct (N.leb_spec 0x80 (N_of_ascii c)); [|discriminate].
  destruct (N.leb_spec (N_of_ascii c) 0xBF); [|discriminate].
  cbn [andb]. intros [= <-]. lia.
Qed.

Lemma continuation_byte (x : N) :
  (x < 64)%N -> continuation (byte (0x80 + x)) = Some x.
Proof.
  intros Hx. unfold continuation. rewrite N_of_ascii_byte by lia.
  destruct (N.leb_spec 0x80 (0x80 + x)); [|lia].
  destruct (N.leb_spec (0x80 + x) 0xBF); [|lia].
  cbn [andb]. f_equal. lia.
Qed.

Lemma encodeUTF8_1 (n : N) :
  (n < 0x80)%N -> encodeUTF8 n = String (byte n) "".
Proof.
  intros Hn. unfold encodeUTF8. destruct (N.ltb_spec n 0x80); [reflexivity | lia].
Qed.

Lemma encodeUTF8_2 (a x : N) :
  (2 <= a < 32)%N -> (x < 64)%N ->
  encodeUTF8 (a * 0x40 + x)
  = String (byte (0xC0 + a)) (String (byte (0x80 + x)) "").
Proof.
  intros Ha Hx. unfold encodeUTF8.
  destruct (N.ltb_spec (a * 0x40 + x) 0x80); [lia|].
  destruct (N.ltb_spec (a * 0x40 + x) 0x800); [|lia].
  repeat f_equal; divmod.
Qed.

Lemma encodeUTF8_3 (a x y : N) :
  (a < 16)%N -> (x < 64)%N -> (y < 64)%N ->
  (0x800 <= a * 0x1000 + x * 0x40 + y)%N ->
  encodeUTF8 (a * 0x1000 + x * 0x40 + y)
  = String (byte (0xE0 + a))
      (String (byte (0x80 + x)) (String (byte (0x80 + y)) "")).
Proof.
  intros Ha Hx Hy Hcp. unfold encodeUTF8.
  destruct (N.ltb_spec (a * 0x1000 + x * 0x40 + y) 0x80); [lia|].
  destruct (N.ltb_spec (a * 0x1000 + x * 0x40 + y) 0x800); [lia|].
  destruct (N.ltb_spec (a * 0x1000 + x * 0x40 + y) 0x10000); [|lia].
  repeat f_equal; divmod.
Qed.

Lemma encodeUTF8_4 (a x y z : N) :
  (x < 64)%N -> (y < 64)%N -> (z < 64)%N ->
  (0x10000 <= a * 0x40000 + x * 0x1000 + y * 0x40 + z < 0x110000)%N ->
  encodeUTF8 (a * 0x40000 + x * 0x1000 + y * 0x40 + z)
  = String (byte (0xF0 + a))
      (String (byte (0x80 + x))
         (String (byte (0x80 + y)) (String (byte (0x80 + z)) ""))).
Proof.
  intros Hx Hy Hz Hcp. unfold encodeUTF8.
  destruct (N.ltb_spec (a * 0x40000 + x * 0x1000 + y * 0x40 + z) 0x80); [lia|].
  destruct (N.ltb_spec (a * 0x40000 + x * 0x1000 + y * 0x40 + z) 0x800); [lia|].
  destruct (N.ltb_spec (a * 0x40000 + x * 0x1000 + y * 0x40 + z) 0x10000); [lia|].
  destruct (N.ltb_spec (a * 0x40000 + x * 0x1000 + y * 0x40 + z) 0x110000); [|lia].
  repeat f_equal; divmod.
Qed.

Lemma encodeUTF8_stray (c : ascii) :
  encodeUTF8 (0x110000 + N_of_ascii c) = String c "".
Proof.
  unfold encodeUTF8.
  destruct (N.ltb_spec (0x110000 + N_of_ascii c) 0x80); [lia|].
  destruct (N.ltb_spec (0x110000 + N_of_ascii c) 0x800); [lia|].
  destruct (N.ltb_spec (0x110000 + N_of_ascii c) 0x10000); [lia|].
  destruct (N.ltb_spec (0x110000 + N_of_ascii c) 0x110000); [lia|].
  replace (0x110000 + N_of_ascii c - 0x110000)%N with (N_of_ascii c) by lia.
  now rewrite byte_N_of_ascii.
Qed.

Lemma payloads_S (count : nat) (s : string) (xs : list N) (rest : string) :
  payloads (S count) s = Some (xs, rest) ->
  exists (c : ascii) (r : string) (x : N) (xs' : list N),
    s = String c r /\ continuation c = Some x /\
    payloads count r = Some (xs', rest) /\ xs = x :: xs'.
Proof.
  cbn [payloads]. destruct s as [|c r]; [discriminate|].
  destruct (continuation c) as [x|] eqn:Hc; [|discriminate].
  destruct (payloads count r) as [[xs' rest']|] eqn:Hp; [|discriminate].
  intros [= <- <-]. now exists c, r, x, xs'.
Qed.

Lemma payloads_1 (s : string) (xs : list N) (rest : string) :
  payloads 1 s = Some (xs, rest) ->
  exists (c1 : ascii) (x1 : N),
    s = String c1 rest /\ continuation c1 = Some x1 /\ xs = [x1].
Proof.
  intros H. apply payloads_S in H as (c1 & r1 & x1 & xs' & -> & H1 & H & ->).
  injection H as <- <-. now exists c1, x1.
Qed.

Lemma payloads_2 (s : string) (xs : list N) (rest : string) :
  payloads 2 s = Some (xs, rest) ->
  exists (c1 c2 : ascii) (x1 x2 : N),
    s = String c1 (String c2 rest) /\
    continuation c1 = Some x1 /\ continuation c2 = Some x2 /\ xs = [x1; x2].
Proof.
  intros H. apply payloads_S in H as (c1 & r1 & x1 & xs' & -> & H1 & H & ->).
  apply payloads_1 in H as (c2 & x2 & -> & H2 & ->). now exists c1, c2, x1, x2.
Qed.

Lemma payloads_3 (s : string) (xs : list N) (rest : string) :
  payloads 3 s = Some (xs, rest) ->
  exists (c1 c2 c3 : ascii) (x1 x2 x3 : N),
    s = String c1 (String c2 (String c3 rest)) /\
    continuation c1 = Some x1 /\ continuation c2 = Some x2 /\
    continuation c3 = Some x3 /\ xs = [x1; x2; x3].
Proof.
  intros H. apply payloads_S in H as (c1 & r1 & x1 & xs' & -> & H1 & H & ->).
  apply payloads_2 in H as (c2 & c3 & x2 & x3 & -> & H2 & H3 & ->).
  now exists c1, c2, c3, x1, x2, x3.
Qed.

(** What [sequenceAt] reads is a code point, and the string begins with
    its encoding. *)
Lemma sequenceAt_Some (s : string) (cp : N) (rest : string) :
  sequenceAt s = Some (cp, rest) ->
  isScalar cp = true /\ s = encodeUTF8 cp +:+ rest.
Proof.
  destruct s as [|c0 r0]; [discriminate|]. unfold sequenceAt, isScalar.
  pose proof (N_of_ascii_lt c0) as Hlt. pose proof (byte_N_of_ascii c0) as Hc0.
  set (b0 := N_of_ascii c0) in *.
  destruct (N.ltb_spec b0 0x80) as [H1|H1].
  { intros [= <- <-]. rewrite encodeUTF8_1 by exact H1. rewrite Hc0.
    split; [|reflexivity].
    destruct (N.ltb_spec b0 0xD800); [reflexivity | lia]. }
  destruct ((0xC2 <=? b0) && (b0 <=? 0xDF))%N eqn:H2.
  { apply andb_true_iff in H2 as [H2%N.leb_le H2'%N.leb_le].
    destruct (payloads 1 r0) as [[xs rest']|] eqn:Hp; [|discriminate].
    apply payloads_1 in Hp as (c1 & x1 & -> & Hx1 & ->).
    apply continuation_Some in Hx1 as [Hx1 Hn1].
    intros [= <- <-].
    rewrite (encodeUTF8_2 (b0 - 0xC0) x1) by lia.
    replace (0xC0 + (b0 - 0xC0))%N with b0 by lia.
    rewrite <- Hn1, Hc0, byte_N_of_ascii. split; [|reflexivity].
    destruct (N.ltb_spec ((b0 - 0xC0) * 0x40 + x1) 0xD800); [reflexivity | lia]. }
  destruct ((0xE0 <=? b0) && (b0 <=? 0xEF))%N eqn:H3.
  { apply andb_true_iff in H3 as [H3%N.leb_le H3'%N.leb_le].
    destruct (payloads 2 r0) as [[xs rest']|] eqn:Hp; [|discriminate].
    apply payloads_2 in Hp as (c1 & c2 & x1 & x2 & -> & Hx1 & Hx2 & ->).
    apply continuation_Some in Hx1 as [Hx1 Hn1].
    apply continuation_Some in Hx2 as [Hx2 Hn2].
    cbn zeta. set (cp3 := ((b0 - 0xE0) * 0x1000 + x1 * 0x40 + x2)%N).
    destruct (N.leb_spec 0x800 cp3) as [H8|H8]; [|discriminate].
    assert (Hsur : (if (0xD800 <=? cp3)%N && (cp3 <=? 0xDFFF)%N then false else true)
                   = ((cp3 <? 0xD800) || (0xDFFF <? cp3) && (cp3 <? 0x110000))%N).
    { destruct (N.leb_spec 0xD800 cp3), (N.leb_spec cp3 0xDFFF),
        (N.ltb_spec cp3 0xD800), (N.ltb_spec 0xDFFF cp3), (N.ltb_spec cp3 0x110000);
        cbn; try reflexivity; subst cp3; lia. }
    unfold negb. cbn [andb]. rewrite Hsur.
    destruct ((cp3 <? 0xD800) || (0xDFFF <? cp3) && (cp3 <? 0x110000))%N eqn:Hscalar;
      [|discriminate].
    intros [= <- <-]. split; [exact Hscalar|]. subst cp3.
    rewrite (encodeUTF8_3 (b0 - 0xE0) x1 x2) by lia.
    replace (0xE0 + (b0 - 0xE0))%N with b0 by lia.
    now rewrite <- Hn1, <- Hn2, Hc0, !byte_N_of_ascii. }
  destruct ((0xF0 <=? b0) && (b0 <=? 0xF4))%N eqn:H4; [|discriminate].
  apply andb_true_iff in H4 as [H4%N.leb_le H4'%N.leb_le].
  destruct (payloads 3 r0) as [[xs rest']|] eqn:Hp; [|discriminate].
  apply payloads_3 in Hp as (c1 & c2 & c3 & x1 & x2 & x3 & -> & Hx1 & Hx2 & Hx3 & ->).
  apply continuation_Some in Hx1 as [Hx1 Hn1].
  apply continuation_Some in Hx2 as [Hx2 Hn2].
  apply continuation_Some in Hx3 as [Hx3 Hn3].
  cbn zeta. set (cp4 := ((b0 - 0xF0) * 0x40000 + x1 * 0x1000 + x2 * 0x40 + x3)%N).
  destruct (N.leb_spec 0x10000 cp4) as [Hlo|Hlo]; [|discriminate].
  destruct (N.ltb_spec cp4 0x110000) as [Hhi|Hhi]; [|discriminate].
  cbn [andb]. intros [= <- <-]. split.
  - destruct (N.ltb_spec cp4 0xD800); [lia|].
    destruct (N.ltb_spec 0xDFFF cp4); [|lia].
    destruct (N.ltb_spec cp4 0x110000); [reflexivity | lia].
  - subst cp4. rewrite (encodeUTF8_4 (b0 - 0xF0) x1 x2 x3) by lia.
    replace (0xF0 + (b0 - 0xF0))%N with b0 by lia.
    now rewrite <- Hn1, <- Hn2, <- Hn3, Hc0, !byte_N_of_ascii.
Qed.


Lemma encodeUTF8_length (cp : N) : (1 <= String.length (encodeUTF8 cp))%nat.
Proof.
  unfold encodeUTF8.
  destruct (cp <? 0x80)%N; [cbn; lia|].
  destruct (cp <? 0x800)%N; [cbn; lia|].
  destruct (cp <? 0x10000)%N; [cbn; lia|].
  destruct (cp <? 0x110000)%N; cbn; lia.
Qed.

Lemma sequenceAt_shorter (s : string) (cp : N) (rest : string) :
  sequenceAt s = Some (cp, rest) -> (String.length rest < String.length s)%nat.
Proof.
  intros H. apply sequenceAt_Some in H as [_ ->].
  rewrite append_length. pose proof (encodeUTF8_length cp). lia.
Qed.

(** The length of a string is fuel enough for [decodeUTF8_from]. *)
Lemma decodeUTF8_from_enough (n m : nat) (s : string) :
  (String.length s <= n)%nat -> (String.length s <= m)%nat ->
  decodeUTF8_from n s = decodeUTF8_from m s.
Proof.
  revert m s. induction n as [|n IH]; intros m s Hn Hm.
  - destruct s; [|cbn in Hn; lia]. destruct m; reflexivity.
  - destruct s as [|c0 r0]; [destruct m; reflexivity|].
    destruct m as [|m]; [cbn in Hm; lia|].
    cbn [decodeUTF8_from]. cbn [String.length] in Hn, Hm.
    destruct (sequenceAt (String c0 r0)) as [[cp rest]|] eqn:Hs.
    + apply sequenceAt_shorter in Hs. cbn [String.length] in Hs.
      f_equal. apply IH; lia.
    + f_equal. apply IH; lia.
Qed.

Lemma decodeUTF8_step (c0 : ascii) (r0 : string) :
  decodeUTF8 (String c0 r0) =
    match sequenceAt (String c0 r0) with
    | Some (cp, rest) => cp :: decodeUTF8 rest
    | None => (0x110000 + N_of_ascii c0)%N :: decodeUTF8 r0
    end.
Proof.
  unfold decodeUTF8. cbn [String.length decodeUTF8_from].
  destruct (sequenceAt (String c0 r0)) as [[cp rest]|] eqn:Hs; [|reflexivity].
  apply sequenceAt_shorter in Hs. cbn [String.length] in Hs.
  f_equal. apply decodeUTF8_from_enough; lia.
Qed.

(** Decoding loses nothing: the bytes of a string are those of its code
    points. *)
Lemma encodeAll_decodeUTF8 (s : string) : encodeAll (decodeUTF8 s) = s.
Proof.
  remember (String.length s) as n eqn:Hn. revert s Hn.
  induction n as [n IH] using lt_wf_ind. intros s ->.
  destruct s as [|c0 r0]; [reflexivity|].
  rewrite decodeUTF8_step.
  destruct (sequenceAt (String c0 r0)) as [[cp rest]|] eqn:Hs.
  - pose proof (sequenceAt_shorter _ _ _ Hs) as Hlen.
    apply sequenceAt_Some in Hs as [_ ->].
    cbn [encodeAll fold_right]. fold (encodeAll (decodeUTF8 rest)).
    now rewrite (IH (String.length rest) Hlen rest eq_refl).
  - cbn [encodeAll fold_right]. fold (encodeAll (decodeUTF8 r0)).
    rewrite encodeUTF8_stray.
    now rewrite (IH (String.length r0) ltac:(cbn; lia) r0 eq_refl).
Qed.

Lemma payloads_bytes_1 (x1 : N) (rest : string) :
  (x1 < 64)%N ->
  payloads 1 (String (byte (0x80 + x1)) rest) = Some ([x1], rest).
Proof. intros H1. cbn [payloads]. now rewrite continuation_byte. Qed.

Lemma payloads_bytes_2 (x1 x2 : N) (rest : string) :
  (x1 < 64)%N -> (x2 < 64)%N ->
  payloads 2 (String (byte (0x80 + x1)) (String (byte (0x80 + x2)) rest))
  = Some ([x1; x2], rest).
Proof. intros H1 H2. cbn [payloads]. now rewrite !continuation_byte. Qed.

Lemma payloads_bytes_3 (x1 x2 x3 : N) (rest : string) :
  (x1 < 64)%N -> (x2 < 64)%N -> (x3 < 64)%N ->
  payloads 3 (String (byte (0x80 + x1))
                (String (byte (0x80 + x2)) (String (byte (0x80 + x3)) rest)))
  = Some ([x1; x2; x3], rest).
Proof. intros H1 H2 H3. cbn [payloads]. now rewrite !continuation_byte. Qed.

(** The encoding of a code point is read back as that code point, whatever
    follows it. *)
Lemma sequenceAt_encodeUTF8 (cp : N) (rest : string) :
  isScalar cp = true -> sequenceAt (encodeUTF8 cp +:+ rest) = Some (cp, rest).
Proof.
  unfold isScalar. intros Hcp.
  assert (Hrange : (cp < 0xD800 \/ 0xDFFF < cp < 0x110000)%N).
  { destruct (N.ltb_spec cp 0xD800); [now left|].
    destruct (N.ltb_spec 0xDFFF cp); [|discriminate].
    destruct (N.ltb_spec cp 0x110000); [right; lia | discriminate]. }
  clear Hcp.
  destruct (N.ltb_spec cp 0x80) as [H1|H1].
  { rewrite encodeUTF8_1 by exact H1. rewrite append_cons.
    unfold sequenceAt. rewrite N_of_ascii_byte by lia.
    now destruct (N.ltb_spec cp 0x80); [|lia]. }
  destruct (N.ltb_spec cp 0x800) as [H2|H2].
  { replace cp with ((cp / 0x40) * 0x40 + cp mod 0x40)%N at 1 by divmod.
    rewrite encodeUTF8_2 by divmod. rewrite !append_cons.
    unfold sequenceAt. rewrite N_of_ascii_byte by divmod.
    destruct (N.ltb_spec (0xC0 + cp / 0x40) 0x80); [divmod|].
    destruct (N.leb_spec 0xC2 (0xC0 + cp / 0x40)); [|divmod].
    destruct (N.leb_spec (0xC0 + cp / 0x40) 0xDF); [|divmod].
    cbn [andb]. change ("" +:+ rest) with rest.
    rewrite payloads_bytes_1 by divmod. do 2 f_equal. divmod. }
  destruct (N.ltb_spec cp 0x10000) as [H3|H3].
  { replace cp with ((cp / 0x1000) * 0x1000 + ((cp / 0x40) mod 0x40) * 0x40
                     + cp mod 0x40)%N at 1 by divmod.
    rewrite encodeUTF8_3 by divmod. rewrite !append_cons.
    unfold sequenceAt. rewrite N_of_ascii_byte by divmod.
    destruct (N.ltb_spec (0xE0 + cp / 0x1000) 0x80); [divmod|].
    destruct (N.leb_spec 0xC2 (0xE0 + cp / 0x1000)); [|divmod].
    destruct (N.leb_spec (0xE0 + cp / 0x1000) 0xDF); [divmod|].
    destruct (N.leb_spec 0xE0 (0xE0 + cp / 0x1000)); [|divmod].
    destruct (N.leb_spec (0xE0 + cp / 0x1000) 0xEF); [|divmod].
    cbn [andb]. change ("" +:+ rest) with rest.
    rewrite payloads_bytes_2 by divmod. cbn zeta.
    replace ((0xE0 + cp / 0x1000 - 0xE0) * 0x1000 + (cp / 0x40) mod 0x40 * 0x40
             + cp mod 0x40)%N with cp by divmod.
    destruct (N.leb_spec 0x800 cp); [|lia].
    destruct (N.leb_spec 0xD800 cp), (N.leb_spec cp 0xDFFF);
      cbn [andb negb]; try reflexivity; lia. }
  replace cp with ((cp / 0x40000) * 0x40000 + ((cp / 0x1000) mod 0x40) * 0x1000
                   + ((cp / 0x40) mod 0x40) * 0x40 + cp mod 0x40)%N at 1 by divmod.
  rewrite encodeUTF8_4 by divmod. rewrite !append_cons.
  unfold sequenceAt. rewrite N_of_ascii_byte by divmod.
  destruct (N.ltb_spec (0xF0 + cp / 0x40000) 0x80); [divmod|].
  destruct (N.leb_spec 0xC2 (0xF0 + cp / 0x40000)); [|divmod].
  destruct (N.leb_spec (0xF0 + cp / 0x40000) 0xDF); [divmod|].
  destruct (N.leb_spec 0xE0 (0xF0 + cp / 0x40000)); [|divmod].
  destruct (N.leb_spec (0xF0 + cp / 0x40000) 0xEF); [divmod|].
  destruct (N.leb_spec 0xF0 (0xF0 + cp / 0x40000)); [|divmod].
  destruct (N.leb_spec (0xF0 + cp / 0x40000) 0xF4); [|divmod].
  cbn [andb]. change ("" +:+ rest) with rest.
  rewrite payloads_bytes_3 by divmod. cbn zeta.
  replace ((0xF0 + cp / 0x40000 - 0xF0) * 0x40000 + (cp / 0x1000) mod 0x40 * 0x1000
           + (cp / 0x40) mod 0x40 * 0x40 + cp mod 0x40)%N with cp by divmod.
  destruct (N.leb_spec 0x10000 cp); [|lia].
  destruct (N.ltb_spec cp 0x110000); [reflexivity | lia].
Qed.

Lemma decodeUTF8_encodeUTF8 (cp : N) (rest : string) :
  isScalar cp = true ->
  decodeUTF8 (encodeUTF8 cp +:+ rest) = cp :: decodeUTF8 rest.
Proof.
  intros Hcp. pose proof (sequenceAt_encodeUTF8 cp rest Hcp) as Hs.
  pose proof (encodeUTF8_length cp) as Hlen.
  destruct (encodeUTF8 cp) as [|c0 r0]; [cbn in Hlen; lia|].
  rewrite append_cons in *. now rewrite decodeUTF8_step, Hs.
Qed.

(** ** Letter case and white space *)

Lemma encodeAll_app (l1 l2 : list N) :
  encodeAll (l1 ++ l2) = encodeAll l1 +:+ encodeAll l2.
Proof.
  induction l1 as [|cp l1 IH]; [reflexivity|].
  cbn [app encodeAll fold_right]. fold (encodeAll (l1 ++ l2)). fold (encodeAll l1).
  now rewrite IH, append_assoc.
Qed.

Lemma whiteSpace_isScalar (cp : N) :
  In cp whiteSpaceCodePoints -> isScalar cp = true.
Proof.
  intros Hcp. pattern cp.
  apply (proj1 (List.Forall_forall _ whiteSpaceCodePoints)); [|exact Hcp].
  unfold whiteSpaceCodePoints.
  repeat (apply List.Forall_cons; [reflexivity|]). apply List.Forall_nil.
Qed.

(** The code points of a white-space character followed by a text. *)
Lemma decodeUTF8_WhiteSpace (w x : string) :
  In w WhiteSpace ->
  exists cp, In cp whiteSpaceCodePoints /\ w = encodeUTF8 cp /\
             decodeUTF8 (w +:+ x) = cp :: decodeUTF8 x.
Proof.
  unfold WhiteSpace. intros Hin. apply in_map_iff in Hin as (cp & <- & Hcp).
  exists cp. split; [exact Hcp|]. split; [reflexivity|].
  apply decodeUTF8_encodeUTF8. now apply whiteSpace_isScalar.
Qed.

(** White space begins with a byte that continues no character. *)
Lemma isBlank_continuation (b : string) :
  isBlank b ->
  match b with
  | String c _ => continuation c = None
  | EmptyString => True
  end.
Proof.
  intros [|w s Hw _]; [exact I|].
  revert s. pattern w. apply (WhiteSpace_cases w); [exact Hw|].
  vm_compute WhiteSpace.
  repeat (apply List.Forall_cons; [intros s; reflexivity|]). apply List.Forall_nil.
Qed.

Lemma payloads_app_blank (count : nat) (r b : string) :
  isBlank b ->
  payloads count (r +:+ b)
  = option_map (fun '(xs, rest) => (xs, rest +:+ b)) (payloads count r).
Proof.
  intros Hb. pose proof (isBlank_continuation b Hb) as Hfirst.
  revert r. induction count as [|count IH]; intros r; [reflexivity|].
  destruct r as [|c r].
  - change ("" +:+ b) with b. cbn [payloads option_map].
    destruct b as [|cb b']; [reflexivity | now rewrite Hfirst].
  - rewrite append_cons. cbn [payloads]. rewrite IH.
    destruct (continuation c); [|reflexivity].
    now destruct (payloads count r) as [[xs rest]|].
Qed.

Lemma sequenceAt_app_blank (c0 : ascii) (r0 b : string) :
  isBlank b ->
  sequenceAt (String c0 r0 +:+ b)
  = option_map (fun '(cp, rest) => (cp, rest +:+ b)) (sequenceAt (String c0 r0)).
Proof.
  intros Hb. rewrite append_cons. unfold sequenceAt.
  rewrite !payloads_app_blank by exact Hb.
  destruct (N_of_ascii c0 <? 0x80)%N; [reflexivity|].
  destruct ((0xC2 <=? N_of_ascii c0) && (N_of_ascii c0 <=? 0xDF))%N.
  { destruct (payloads 1 r0) as [[[|x1 [|x2 xs]] rest]|]; reflexivity. }
  destruct ((0xE0 <=? N_of_ascii c0) && (N_of_ascii c0 <=? 0xEF))%N.
  { destruct (payloads 2 r0) as [[[|x1 [|x2 [|x3 xs]]] rest]|]; try reflexivity.
    cbn [option_map]. cbn zeta.
    now destruct ((0x800 <=? _) && negb _)%N. }
  destruct ((0xF0 <=? N_of_ascii c0) && (N_of_ascii c0 <=? 0xF4))%N; [|reflexivity].
  destruct (payloads 3 r0) as [[[|x1 [|x2 [|x3 [|x4 xs]]]] rest]|]; try reflexivity.
  cbn [option_map]. cbn zeta.
  now destruct ((0x10000 <=? _) && (_ <? 0x110000))%N.
Qed.

(** White space that follows a text begins a character of its own. *)
Lemma decodeUTF8_app_blank (x b : string) :
  isBlank b -> decodeUTF8 (x +:+ b) = decodeUTF8 x ++ decodeUTF8 b.
Proof.
  intros Hb. remember (String.length x) as n eqn:Hn. revert x Hn.
  induction n as [n IH] using lt_wf_ind. intros x ->.
  destruct x as [|c0 r0]; [reflexivity|].
  rewrite (decodeUTF8_step c0 r0).
  pose proof (sequenceAt_app_blank c0 r0 b Hb) as Hs.
  rewrite append_cons in *. rewrite decodeUTF8_step, Hs.
  destruct (sequenceAt (String c0 r0)) as [[cp rest]|] eqn:Hx; cbn [option_map app].
  - apply sequenceAt_shorter in Hx.
    now rewrite (IH (String.length rest) Hx rest eq_refl).
  - now rewrite (IH (String.length r0) ltac:(cbn; lia) r0 eq_refl).
Qed.

(** The code points of white space. *)
Lemma decodeUTF8_blank (b : string) :
  isBlank b ->
  Forall (fun cp => In cp whiteSpaceCodePoints) (decodeUTF8 b) /\
  encodeAll (decodeUTF8 b) = b.
Proof.
  induction 1 as [|w s Hw Hs [IHall IHenc]]; [split; [constructor | reflexivity]|].
  destruct (decodeUTF8_WhiteSpace w s Hw) as (cp & Hcp & -> & ->).
  split; [now constructor|].
  cbn [encodeAll fold_right]. fold (encodeAll (decodeUTF8 s)). now rewrite IHenc.
Qed.

(** A white-space character has no case.  (The byte order mark is
    case-ignorable: a word does not end where it stands.) *)
Lemma whiteSpace_caseless (cp : N) :
  In cp whiteSpaceCodePoints ->
  isCased cp = false /\
  (cp =? 0x3A3)%N = false /\ (cp =? 0x130)%N = false /\ simpleLowerCase cp = cp.
Proof.
  intros Hcp. pattern cp.
  apply (proj1 (List.Forall_forall _ whiteSpaceCodePoints)); [|exact Hcp].
  unfold whiteSpaceCodePoints.
  repeat (apply List.Forall_cons; [vm_compute; repeat split; reflexivity|]).
  apply List.Forall_nil.
Qed.

Lemma lowerCodePoints_whiteSpace (cp : N) (rest : list N) :
  In cp whiteSpaceCodePoints ->
  lowerCodePoints false (cp :: rest) = cp :: lowerCodePoints false rest.
Proof.
  intros Hcp. destruct (whiteSpace_caseless cp Hcp) as (Hc & Hs & Hd & Hl).
  cbn [lowerCodePoints]. rewrite Hc, Hs, Hd, Hl.
  now destruct (isCaseIgnorable cp).
Qed.

Lemma lowerCodePoints_blank (afterCased : bool) (blank : list N) :
  Forall (fun cp => In cp whiteSpaceCodePoints) blank ->
  lowerCodePoints afterCased blank = blank.
Proof.
  intros Hall. revert afterCased.
  induction Hall as [|cp blank Hcp Hall IH]; intros afterCased; [reflexivity|].
  destruct (whiteSpace_caseless cp Hcp) as (Hc & Hs & Hd & Hl).
  cbn [lowerCodePoints]. now rewrite Hs, Hd, Hl, IH.
Qed.

Lemma followedByCased_app_blank (l blank : list N) :
  Forall (fun cp => In cp whiteSpaceCodePoints) blank ->
  followedByCased (l ++ blank) = followedByCased l.
Proof.
  intros Hall. induction l as [|cp l IH].
  - cbn [app]. induction Hall as [|cp blank Hcp Hall IH]; [reflexivity|].
    destruct (whiteSpace_caseless cp Hcp) as (Hc & _).
    cbn [followedByCased]. rewrite Hc, IH. now destruct (isCaseIgnorable cp).
  - cbn [app followedByCased]. now rewrite IH.
Qed.

Lemma lowerCodePoints_app_blank (afterCased : bool) (l blank : list N) :
  Forall (fun cp => In cp whiteSpaceCodePoints) blank ->
  lowerCodePoints afterCased (l ++ blank) = lowerCodePoints afterCased l ++ blank.
Proof.
  intros Hall. revert afterCased. induction l as [|cp l IH]; intros afterCased.
  - now apply lowerCodePoints_blank.
  - cbn [app lowerCodePoints]. rewrite IH, followedByCased_app_blank by exact Hall.
    now rewrite <- app_assoc.
Qed.

(** Lower-casing leaves the white space around a text in place. *)
Lemma toLowerCase_padding (before x behind : string) :
  isBlank before -> isBlank behind ->
  toLowerCase (before +:+ x +:+ behind) = before +:+ toLowerCase x +:+ behind.
Proof.
  intros Hbefore Hbehind.
  destruct (decodeUTF8_blank behind Hbehind) as [Hall' Henc'].
  assert (H : toLowerCase (x +:+ behind) = toLowerCase x +:+ behind).
  { unfold toLowerCase. rewrite decodeUTF8_app_blank by exact Hbehind.
    rewrite lowerCodePoints_app_blank by exact Hall'.
    now rewrite encodeAll_app, Henc'. }
  rewrite <- H. generalize (x +:+ behind). intros y.
  induction Hbefore as [|w s Hw Hs IH]; [reflexivity|].
  rewrite append_assoc. unfold toLowerCase in *.
  destruct (decodeUTF8_WhiteSpace w (s +:+ y) Hw) as (cp & Hcp & -> & ->).
  rewrite lowerCodePoints_whiteSpace by exact Hcp.
  cbn [encodeAll fold_right]. fold (encodeAll (lowerCodePoints false (decodeUTF8 (s +:+ y)))).
  now rewrite IH, append_assoc.
Qed.

(** ** Lower-casing twice *)

Lemma mappedBy_In (first last step image cp : N) :
  (first <=? cp)%N && (cp <=? last)%N && ((cp - first) mod step =? 0)%N = true ->
  In cp (mappedBy (first, last, step, image)).
Proof.
  intros H. apply andb_true_iff in H as [H Hmod]. apply andb_true_iff in H as [Hlo Hhi].
  apply N.leb_le in Hlo, Hhi. apply N.eqb_eq in Hmod.
  unfold mappedBy. apply in_map_iff.
  exists (N.to_nat ((cp - first) / step)). split.
  - rewrite N2Nat.id. pose proof (N.div_mod' (cp - first) step) as Hdiv.
    rewrite Hmod in Hdiv.
    set (p := (step * ((cp - first) / step))%N) in *. lia.
  - assert (Hle : ((cp - first) / step <= (last - first) / step)%N).
    { apply N.Div0.div_le_mono. lia. }
    revert Hle. generalize ((cp - first) / step)%N, ((last - first) / step)%N.
    intros q q' Hle. apply in_seq. lia.
Qed.

(** A code point is left alone by [simpleLowerCase] or is one of the
    finitely many that the table maps. *)
Lemma simpleLowerCase_cases (cp : N) :
  simpleLowerCase cp = cp \/ In cp mappedCodePoints.
Proof.
  unfold simpleLowerCase.
  destruct (List.find _ lowerCaseMappings) as [[[[first last] step] image]|] eqn:Hfind;
    [|now left].
  right. apply List.find_some in Hfind as [Hin Htest].
  unfold mappedCodePoints. apply in_flat_map.
  exists (first, last, step, image). split; [exact Hin|]. now apply mappedBy_In.
Qed.

Lemma mappedCodePoints_lowered :
  forallb (fun cp => (cp <? 0x110000)%N
                     && isScalar (simpleLowerCase cp)
                     && isLowerCased (simpleLowerCase cp)) mappedCodePoints = true.
Proof. vm_compute. reflexivity. Qed.

Lemma simpleLowerCase_lowered (cp : N) :
  (cp =? 0x3A3)%N = false -> (cp =? 0x130)%N = false ->
  isLowerCased (simpleLowerCase cp) = true.
Proof.
  intros Hs Hd. destruct (simpleLowerCase_cases cp) as [Hsame|Hin].
  - unfold isLowerCased. rewrite !Hsame, Hs, Hd. cbn [negb andb]. apply N.eqb_refl.
  - pose proof mappedCodePoints_lowered as H. rewrite forallb_forall in H.
    specialize (H cp Hin). now apply andb_true_iff in H as [_ H].
Qed.

Lemma simpleLowerCase_isScalar (cp : N) :
  isScalar cp = true -> isScalar (simpleLowerCase cp) = true.
Proof.
  intros Hcp. destruct (simpleLowerCase_cases cp) as [Hsame|Hin].
  - now rewrite Hsame.
  - pose proof mappedCodePoints_lowered as H. rewrite forallb_forall in H.
    specialize (H cp Hin). apply andb_true_iff in H as [H _].
    now apply andb_true_iff in H as [_ H].
Qed.

Lemma simpleLowerCase_stray (cp : N) :
  (0x110000 <= cp)%N -> simpleLowerCase cp = cp.
Proof.
  intros Hcp. destruct (simpleLowerCase_cases cp) as [Hsame|Hin]; [exact Hsame|].
  pose proof mappedCodePoints_lowered as H. rewrite forallb_forall in H.
  specialize (H cp Hin). apply andb_true_iff in H as [H _].
  apply andb_true_iff in H as [H _]. apply N.ltb_lt in H. lia.
Qed.

(** What lower-casing produces is lower-cased. *)
Lemma lowerCodePoints_lowered (afterCased : bool) (l : list N) :
  Forall (fun cp => isLowerCased cp = true) (lowerCodePoints afterCased l).
Proof.
  revert afterCased. induction l as [|cp l IH]; intros afterCased; [constructor|].
  cbn [lowerCodePoints]. apply Forall_app. split; [|apply IH].
  destruct (cp =? 0x3A3)%N eqn:Hs.
  - destruct (afterCased && negb (followedByCased l))%bool;
      (constructor; [vm_compute; reflexivity | constructor]).
  - destruct (cp =? 0x130)%N eqn:Hd.
    + repeat (constructor; [vm_compute; reflexivity|]). constructor.
    + constructor; [now apply simpleLowerCase_lowered | constructor].
Qed.

Lemma lowerCodePoints_of_lowered (afterCased : bool) (l : list N) :
  Forall (fun cp => isLowerCased cp = true) l -> lowerCodePoints afterCased l = l.
Proof.
  intros Hall. revert afterCased.
  induction Hall as [|cp l Hcp Hall IH]; intros afterCased; [reflexivity|].
  unfold isLowerCased in Hcp. apply andb_true_iff in Hcp as [Hcp Hsame].
  apply andb_true_iff in Hcp as [Hs Hd].
  apply negb_true_iff in Hs, Hd. apply N.eqb_eq in Hsame.
  cbn [lowerCodePoints]. now rewrite Hs, Hd, Hsame, IH.
Qed.

Lemma lowerCodePoints_idempotent (afterCased afterCased' : bool) (l : list N) :
  lowerCodePoints afterCased' (lowerCodePoints afterCased l)
  = lowerCodePoints afterCased l.
Proof. apply lowerCodePoints_of_lowered, lowerCodePoints_lowered. Qed.

(** What is decoded from a string is code points and stray bytes. *)
Lemma decodeUTF8_isDecoded (s : string) :
  Forall (fun cp => isDecoded cp = true) (decodeUTF8 s).
Proof.
  remember (String.length s) as n eqn:Hn. revert s Hn.
  induction n as [n IH] using lt_wf_ind. intros s ->.
  destruct s as [|c0 r0]; [constructor|].
  rewrite decodeUTF8_step.
  destruct (sequenceAt (String c0 r0)) as [[cp rest]|] eqn:Hs.
  - pose proof (sequenceAt_shorter _ _ _ Hs) as Hlen.
    apply sequenceAt_Some in Hs as [Hcp _].
    constructor; [unfold isDecoded; now rewrite Hcp|].
    now apply (IH (String.length rest)).
  - constructor.
    + unfold isDecoded. apply orb_true_iff. right. apply N.leb_le. lia.
    + apply (IH (String.length r0)); [cbn; lia | reflexivity].
Qed.

Lemma recased_lowerCodePoints (afterCased : bool) (l : list N) :
  Forall (fun cp => isDecoded cp = true) l ->
  recased l (lowerCodePoints afterCased l).
Proof.
  intros Hall. revert afterCased.
  induction Hall as [|cp l Hcp Hall IH]; intros afterCased; [constructor|].
  cbn [lowerCodePoints]. unfold isDecoded in Hcp.
  destruct (isScalar cp) eqn:Hscalar.
  - apply recased_scalar; [exact Hscalar | | | apply IH].
    + destruct (cp =? 0x3A3)%N; [discriminate|].
      destruct (cp =? 0x130)%N; discriminate.
    + destruct (cp =? 0x3A3)%N.
      * destruct (afterCased && negb (followedByCased l))%bool;
          (constructor; [reflexivity | constructor]).
      * destruct (cp =? 0x130)%N.
        -- repeat (constructor; [reflexivity|]). constructor.
        -- constructor; [now apply simpleLowerCase_isScalar | constructor].
  - cbn [orb] in Hcp. apply N.leb_le in Hcp.
    destruct (N.eqb_spec cp 0x3A3) as [->|_]; [lia|].
    destruct (N.eqb_spec cp 0x130) as [->|_]; [lia|].
    rewrite simpleLowerCase_stray by exact Hcp.
    cbn [app]. apply recased_stray; [exact Hcp | apply IH].
Qed.

Lemma payloads_length (count : nat) (s : string) (xs : list N) (rest : string) :
  payloads count s = Some (xs, rest) -> length xs = count.
Proof.
  revert s xs. induction count as [|count IH]; intros s xs.
  - now intros [= <- _].
  - intros H. apply payloads_S in H as (c & r & x & xs' & _ & _ & H & ->).
    cbn [length]. now rewrite (IH r xs' H).
Qed.

(** Whether a well-formed encoding begins at a byte is decided by the
    continuation bytes that follow it. *)
Lemma sequenceAt_None_payloads (c0 : ascii) (r r' : string) :
  (forall count, option_map fst (payloads count r)
                 = option_map fst (payloads count r')) ->
  sequenceAt (String c0 r) = None -> sequenceAt (String c0 r') = None.
Proof.
  intros Hsame. unfold sequenceAt.
  destruct (N_of_ascii c0 <? 0x80)%N; [discriminate|].
  destruct ((0xC2 <=? N_of_ascii c0) && (N_of_ascii c0 <=? 0xDF))%N.
  { specialize (Hsame 1%nat).
    destruct (payloads 1 r) as [[xs rest]|] eqn:Hr,
             (payloads 1 r') as [[xs' rest']|] eqn:Hr'; try discriminate Hsame;
      [|reflexivity].
    injection Hsame as <-. apply payloads_1 in Hr as (c1 & x1 & _ & _ & ->).
    discriminate. }
  destruct ((0xE0 <=? N_of_ascii c0) && (N_of_ascii c0 <=? 0xEF))%N.
  { specialize (Hsame 2%nat).
    destruct (payloads 2 r) as [[xs rest]|] eqn:Hr,
             (payloads 2 r') as [[xs' rest']|] eqn:Hr'; try discriminate Hsame;
      [|reflexivity].
    injection Hsame as <-.
    apply payloads_2 in Hr as (c1 & c2 & x1 & x2 & _ & _ & _ & ->).
    cbn zeta. now destruct ((0x800 <=? _) && negb _)%N. }
  destruct ((0xF0 <=? N_of_ascii c0) && (N_of_ascii c0 <=? 0xF4))%N; [|reflexivity].
  specialize (Hsame 3%nat).
  destruct (payloads 3 r) as [[xs rest]|] eqn:Hr,
           (payloads 3 r') as [[xs' rest']|] eqn:Hr'; try discriminate Hsame;
    [|reflexivity].
  injection Hsame as <-.
  apply payloads_3 in Hr as (c1 & c2 & c3 & x1 & x2 & x3 & _ & _ & _ & _ & ->).
  cbn zeta. now destruct ((0x10000 <=? _) && (_ <? 0x110000))%N.
Qed.

(** The encoding of a code point begins with a byte that continues no
    character. *)
Lemma encodeUTF8_first_byte (cp : N) (rest : string) (count : nat) :
  isScalar cp = true -> payloads (S count) (encodeUTF8 cp +:+ rest) = None.
Proof.
  intros Hcp. pose proof (sequenceAt_encodeUTF8 cp rest Hcp) as Hs.
  pose proof (encodeUTF8_length cp) as Hlen.
  destruct (encodeUTF8 cp) as [|c0 r0]; [cbn in Hlen; lia|].
  rewrite append_cons in *. cbn [payloads].
  destruct (continuation c0) as [x|] eqn:Hc0; [|reflexivity].
  exfalso. apply continuation_Some in Hc0 as [Hx Hn]. revert Hs. unfold sequenceAt.
  rewrite Hn.
  destruct (N.ltb_spec (0x80 + x) 0x80); [lia|].
  destruct (N.leb_spec 0xC2 (0x80 + x)); [lia|].
  destruct (N.leb_spec 0xE0 (0x80 + x)); [lia|].
  destruct (N.leb_spec 0xF0 (0x80 + x)); [lia|].
  discriminate.
Qed.

Lemma recased_payloads (l l' : list N) (count : nat) :
  recased l l' ->
  option_map fst (payloads count (encodeAll l))
  = option_map fst (payloads count (encodeAll l')).
Proof.
  intros H. revert count. induction H as [|cp l l' Hcp H IH|cp cps l l' Hcp Hne Hcps H IH];
    intros count; [reflexivity| |].
  - destruct count as [|count]; [reflexivity|].
    cbn [encodeAll fold_right]. fold (encodeAll l). fold (encodeAll l').
    unfold encodeUTF8.
    destruct (N.ltb_spec cp 0x80); [lia|]. destruct (N.ltb_spec cp 0x800); [lia|].
    destruct (N.ltb_spec cp 0x10000); [lia|].
    destruct (N.ltb_spec cp 0x110000); [lia|].
    rewrite !append_cons. cbn [payloads].
    change ("" +:+ encodeAll l) with (encodeAll l).
    change ("" +:+ encodeAll l') with (encodeAll l').
    destruct (continuation _); [|reflexivity].
    specialize (IH count).
    destruct (payloads count (encodeAll l)) as [[xs rest]|],
             (payloads count (encodeAll l')) as [[xs' rest']|];
      try discriminate IH; [|reflexivity].
    injection IH as ->. reflexivity.
  - destruct count as [|count]; [reflexivity|].
    cbn [encodeAll fold_right]. fold (encodeAll l).
    rewrite encodeUTF8_first_byte by exact Hcp.
    destruct cps as [|cp' cps]; [contradiction|].
    apply Forall_cons_iff in Hcps as [Hcp' _].
    cbn [app encodeAll fold_right]. fold (encodeAll (cps ++ l')).
    now rewrite encodeUTF8_first_byte by exact Hcp'.
Qed.

Lemma decodeUTF8_encodeAll (cps : list N) (rest : string) :
  Forall (fun c => isScalar c = true) cps ->
  decodeUTF8 (encodeAll cps +:+ rest) = cps ++ decodeUTF8 rest.
Proof.
  induction 1 as [|cp cps Hcp Hcps IH]; [reflexivity|].
  cbn [encodeAll fold_right app]. fold (encodeAll cps).
  now rewrite append_assoc, decodeUTF8_encodeUTF8, IH.
Qed.

(** Replacing code points by code points does not change where the
    encodings begin and end. *)
Lemma recased_decodeUTF8 (l l' : list N) :
  recased l l' ->
  decodeUTF8 (encodeAll l) = l -> decodeUTF8 (encodeAll l') = l'.
Proof.
  induction 1 as [|cp l l' Hcp H IH|cp cps l l' Hcp Hne Hcps H IH]; [reflexivity| |].
  - pose proof (fun count => recased_payloads l l' count H) as Hsame. revert Hsame.
    cbn [encodeAll fold_right]. fold (encodeAll l). fold (encodeAll l').
    unfold encodeUTF8.
    destruct (N.ltb_spec cp 0x80); [lia|]. destruct (N.ltb_spec cp 0x800); [lia|].
    destruct (N.ltb_spec cp 0x10000); [lia|].
    destruct (N.ltb_spec cp 0x110000); [lia|].
    rewrite !append_cons.
    change ("" +:+ encodeAll l) with (encodeAll l).
    change ("" +:+ encodeAll l') with (encodeAll l').
    rewrite !decodeUTF8_step. intros Hsame.
    destruct (sequenceAt (String (byte (cp - 0x110000)) (encodeAll l)))
      as [[cp0 rest]|] eqn:Hs.
    + apply sequenceAt_Some in Hs as [Hscalar _]. intros [= -> _].
      exfalso. revert Hscalar. unfold isScalar.
      destruct (N.ltb_spec cp 0xD800); [lia|].
      destruct (N.ltb_spec cp 0x110000); [lia|].
      now rewrite andb_false_r.
    + rewrite (sequenceAt_None_payloads _ _ _ Hsame Hs).
      intros [= Hcp' Hl]. rewrite (IH Hl). now rewrite Hcp'.
  - cbn [encodeAll fold_right]. fold (encodeAll l).
    rewrite decodeUTF8_encodeUTF8 by exact Hcp. intros [= Hl].
    rewrite encodeAll_app, decodeUTF8_encodeAll by exact Hcps.
    now rewrite (IH Hl).
Qed.

(** Lower-casing a second time changes nothing. *)
Lemma toLowerCase_idempotent (s : string) :
  toLowerCase (toLowerCase s) = toLowerCase s.
Proof.
  unfold toLowerCase.
  rewrite (recased_decodeUTF8 (decodeUTF8 s) (lowerCodePoints false (decodeUTF8 s))).
  - now rewrite lowerCodePoints_idempotent.
  - apply recased_lowerCodePoints, decodeUTF8_isDecoded.
  - now rewrite encodeAll_decodeUTF8.
Qed.

(** ** Trimming twice *)

Lemma isBlank_app (a b : string) : isBlank a -> isBlank b -> isBlank (a +:+ b).
Proof.
  induction 1 as [|w s Hw Hs IH]; intros Hb; [exact Hb|].
  rewrite append_assoc. apply blank_more; [exact Hw | now apply IH].
Qed.

Lemma trimStart_split (s : string) :
  exists before, isBlank before /\ s = before +:+ trimStart s.
Proof.
  remember (String.length s) as n eqn:Hn. revert s Hn.
  induction n as [n IH] using lt_wf_ind. intros s ->.
  rewrite trimStart_step. destruct (stripWhiteSpace s) as [r|] eqn:Hs.
  - pose proof (stripWhiteSpace_shorter s r Hs) as Hlen.
    destruct (stripWhiteSpace_Some s r Hs) as (w & Hw & ->).
    destruct (IH (String.length r) Hlen r eq_refl) as (before & Hbefore & Hr).
    exists (w +:+ before). split; [now apply blank_more|].
    now rewrite append_assoc, <- Hr.
  - exists "". split; [constructor | reflexivity].
Qed.

Lemma trimEnd_split (s : string) :
  exists behind, isBlank behind /\ s = trimEnd s +:+ behind.
Proof.
  induction s as [|c s (behind & Hbehind & Hs)].
  - exists "". split; [constructor | reflexivity].
  - cbn [trimEnd]. destruct (allWhiteSpace (String c s)) eqn:Hall.
    + exists (String c s). split; [|reflexivity].
      apply trimStart_empty. now apply String.eqb_eq.
    + exists behind. split; [exact Hbehind|]. rewrite append_cons. now rewrite <- Hs.
Qed.

(** A string is its trimmed text with white space in front and behind. *)
Lemma trim_split (s : string) :
  exists before behind,
    isBlank before /\ isBlank behind /\ s = before +:+ trim s +:+ behind.
Proof.
  destruct (trimStart_split s) as (before & Hbefore & Hs).
  destruct (trimEnd_split (trimStart s)) as (behind & Hbehind & Ht).
  exists before, behind. split; [exact Hbefore|]. split; [exact Hbehind|].
  unfold trim. now rewrite <- Ht.
Qed.

Lemma trim_idempotent (s : string) : trim (trim s) = trim s.
Proof.
  destruct (trim_split s) as (before & behind & Hbefore & Hbehind & Hs).
  rewrite Hs at 2.
  now rewrite trim_blank_app, trim_app_blank.
Qed.

Lemma append_inv_head (a x y : string) : a +:+ x = a +:+ y -> x = y.
Proof.
  induction a as [|c a IH]; [auto|].
  rewrite !append_cons. intros [= H]. now apply IH.
Qed.

Lemma append_inv_tail (x y c : string) : x +:+ c = y +:+ c -> x = y.
Proof.
  revert y. induction x as [|a x IH]; intros [|b y] H.
  - reflexivity.
  - exfalso. apply (f_equal String.length) in H.
    change ("" +:+ c) with c in H.
    rewrite append_cons in H. cbn [String.length] in H.
    rewrite append_length in H. lia.
  - exfalso. apply (f_equal String.length) in H.
    change ("" +:+ c) with c in H.
    rewrite append_cons in H. cbn [String.length] in H.
    rewrite append_length in H. lia.
  - rewrite !append_cons in H. injection H as -> H. f_equal. now apply IH.
Qed.

(** Trimming a lower-cased text leaves it lower-cased. *)
Lemma toLowerCase_trim_lowered (s : string) :
  toLowerCase s = s -> toLowerCase (trim s) = trim s.
Proof.
  intros Hs.
  destruct (trim_split s) as (before & behind & Hbefore & Hbehind & Hsplit).
  assert (H : toLowerCase (before +:+ trim s +:+ behind)
              = before +:+ trim s +:+ behind) by (now rewrite <- Hsplit).
  rewrite toLowerCase_padding in H by assumption.
  apply append_inv_head in H. now apply append_inv_tail in H.
Qed.

(** ** Header normalisation *)

(** Normalising a header twice is normalising it once: [parseCsvTsv], which
    normalises the headers Papa has already passed through
    [transformHeader], looks the rows up under the names Papa used. *)
Theorem normalizeHeader_idempotent (header : string) :
  normalizeHeader (normalizeHeader header) = normalizeHeader header.
Proof.
  unfold normalizeHeader.
  rewrite (toLowerCase_trim_lowered (toLowerCase header))
    by apply toLowerCase_idempotent.
  apply trim_idempotent.
Qed.

(** A header is recognised whatever its letter case and whatever white
    space surrounds it: it normalises to the same text, and maps to the
    same canonical field, as any header that differs from it by case and
    by white space in front and behind. *)
Theorem header_recognition_ignores_case_and_padding
    (header header' before behind : string) :
  isBlank before ->
  isBlank behind ->
  toLowerCase header' = toLowerCase header ->
  normalizeHeader (before +:+ header' +:+ behind) = normalizeHeader header /\
  HEADER_MAPPING (normalizeHeader (before +:+ header' +:+ behind))
  = HEADER_MAPPING (normalizeHeader header).
Proof.
  intros Hbefore Hbehind Hcase.
  assert (H : normalizeHeader (before +:+ header' +:+ behind)
              = normalizeHeader header).
  { unfold normalizeHeader.
    rewrite toLowerCase_padding by assumption. rewrite Hcase.
    rewrite trim_blank_app by exact Hbefore. now apply trim_app_blank. }
  split; [exact H | now rewrite H].
Qed.

(** ** The kind of a file *)

Lemma lastSegment_no_dot (acc ext : string) :
  hasNoDot ext = true -> lastSegment acc ext = acc +:+ ext.
Proof.
  revert acc. induction ext as [|c ext IH]; intros acc Hext.
  - cbn [lastSegment]. symmetry. apply append_empty_r.
  - change (hasNoDot (String c ext))
      with (negb (Ascii.eqb c ".") && hasNoDot ext)%bool in Hext.
    apply andb_true_iff in Hext as [Hc Hext]. apply negb_true_iff in Hc.
    cbn [lastSegment]. rewrite Hc, IH by exact Hext.
    now rewrite append_assoc.
Qed.

Lemma lastSegment_after_dot (acc stem ext : string) :
  hasNoDot ext = true -> lastSegment acc (stem +:+ "." +:+ ext) = ext.
Proof.
  intros Hext. revert acc. induction stem as [|c stem IH]; intros acc.
  - change ("" +:+ "." +:+ ext) with (String "." ext).
    cbn [lastSegment]. rewrite Ascii.eqb_refl.
    now rewrite lastSegment_no_dot.
  - change (String c stem +:+ "." +:+ ext) with (String c (stem +:+ "." +:+ ext)).
    cbn [lastSegment]. destruct (Ascii.eqb c "."); apply IH.
Qed.

Section FileKinds.

Variable Cell : Type.
Variable String_ : Cell -> string.

(** The kind of a file is read off the text after the last dot of its name,
    whatever the letter case: [xlsx] goes to the sheet reader, [csv] and
    [tsv] go to the text reader, and anything else is refused without a
    look at the contents, which leaves an error and an empty catalog. *)
Theorem file_kind_is_last_segment (file : File Cell) (stem ext : string)
    (st : AppState) :
  name Cell file = stem +:+ "." +:+ ext ->
  hasNoDot ext = true ->
  extensionOf Cell file = toLowerCase ext /\
  (toLowerCase ext = "xlsx" ->
     parsePartsFile Cell String_ file = parseExcel Cell String_ (sheet Cell file)) /\
  (toLowerCase ext = "csv" \/ toLowerCase ext = "tsv" ->
     parsePartsFile Cell String_ file = parseCsvTsv (papa Cell file)) /\
  (toLowerCase ext <> "xlsx" -> toLowerCase ext <> "csv" ->
   toLowerCase ext <> "tsv" ->
     parsePartsFile Cell String_ file
     = reject "File format not supported. Please upload CSV, TSV, or Excel." /\
     uploadStatus (handleFileChange Cell String_ (Some file) st) = error /\
     parts (handleFileChange Cell String_ (Some file) st) = []).
Proof.
  intros Hname Hext.
  assert (Hextension : extensionOf Cell file = toLowerCase ext).
  { unfold extensionOf. rewrite Hname. now rewrite lastSegment_after_dot. }
  split; [exact Hextension|].
  unfold parsePartsFile. rewrite Hextension.
  split; [|split].
  - intros ->. reflexivity.
  - intros [-> | ->]; reflexivity.
  - intros Hx Hc Ht.
    apply String.eqb_neq in Hx, Hc, Ht.
    assert (Hparse :
      (if String.eqb (toLowerCase ext) "xlsx"
       then parseExcel Cell String_ (sheet Cell file)
       else if (String.eqb (toLowerCase ext) "csv"
                || String.eqb (toLowerCase ext) "tsv")%bool
            then parseCsvTsv (papa Cell file)
            else reject "File format not supported. Please upload CSV, TSV, or Excel.")
      = reject "File format not supported. Please upload CSV, TSV, or Excel.")
      by (now rewrite Hx, Hc, Ht).
    split; [exact Hparse|].
    unfold handleFileChange, ingest, parsePartsFile.
    rewrite Hextension, Hparse. cbn. auto.
Qed.

End FileKinds.

(** ** Search *)

Section MoreSearch.

Variable Fuse_search : list Part -> string -> list FuseResult.

(** A query of white space only, or an empty one, clears the results
    display: the results become [null], not an empty list, whether or not
    there is an index, and nothing else changes. *)
Theorem blank_query_clears_results (st : AppState) :
  isBlank (searchQuery st) ->
  handleSearch Fuse_search st = setSearchResults None st /\
  searchResults (handleSearch Fuse_search st) <> Some [].
Proof.
  intros Hblank. apply trim_blank in Hblank.
  unfold handleSearch. rewrite Hblank. cbn. split; [reflexivity | discriminate].
Qed.

(** When no candidate of the fuzzy search has the trimmed query as its
    [itemNo], up to letter case, all candidates are shown, in the engine's
    order; none at all gives the empty list, not [null]. *)
Theorem no_exact_match_lists_all (st : AppState) (index : list Part) :
  let trimmedQuery := trim (searchQuery st) in
  let candidates := map item (Fuse_search index trimmedQuery) in
  fuseRef st = Some index ->
  ~ isBlank (searchQuery st) ->
  (forall c, In c candidates ->
             toLowerCase (itemNo c) <> toLowerCase trimmedQuery) ->
  handleSearch Fuse_search st = setSearchResults (Some candidates) st.
Proof.
  cbn zeta. intros Hindex Hblank Hnone.
  unfold handleSearch. rewrite Hindex.
  destruct (String.eqb_spec (trim (searchQuery st)) "") as [Hempty|_].
  - apply trim_empty in Hempty. contradiction.
  - destruct (List.find _ (Fuse_search index (trim (searchQuery st))))
      as [exactMatch|] eqn:Hfind; [|reflexivity].
    apply List.find_some in Hfind as [Hcand Hmatch].
    apply String.eqb_eq in Hmatch.
    exfalso. apply (Hnone (item exactMatch)); [now apply in_map | exact Hmatch].
Qed.

(** A search never shows a record that the fuzzy search did not return,
    and never more records than it returned. *)
Theorem shown_results_are_candidates (st : AppState) (index : list Part)
    (shown : list Part) :
  let candidates := map item (Fuse_search index (trim (searchQuery st))) in
  fuseRef st = Some index ->
  searchResults (handleSearch Fuse_search st) = Some shown ->
  (forall r, In r shown -> In r candidates) /\
  (length shown <= length candidates)%nat.
Proof.
  cbn zeta. intros Hindex. unfold handleSearch. rewrite Hindex.
  destruct (String.eqb (trim (searchQuery st)) ""); cbn [searchResults setSearchResults].
  - discriminate.
  - destruct (List.find _ (Fuse_search index (trim (searchQuery st))))
      as [exactMatch|] eqn:Hfind; cbn [searchResults setSearchResults];
      intros [= <-].
    + apply List.find_some in Hfind as [Hcand _]. split.
      * intros r [<-|[]]. now apply in_map.
      * rewrite length_map. destruct (Fuse_search index (trim (searchQuery st)));
          [destruct Hcand | cbn; lia].
    + split; [auto | lia].
Qed.

End MoreSearch.

(** ** More on the quotation ledger *)

Lemma filter_other_absent (i : string) (l : list QuotationPart) :
  (forall p : QuotationPart, In p l -> itemNo p <> i) ->
  List.filter (fun p : QuotationPart => negb (String.eqb (itemNo p) i)) l = l.
Proof.
  induction l as [|p l IH]; intros H; [reflexivity|].
  cbn [List.filter].
  destruct (String.eqb_spec (itemNo p) i) as [Heq|Hne]; cbn [negb].
  - exfalso. apply (H p); [now left | exact Heq].
  - f_equal. apply IH. intros p' Hp'. apply H. now right.
Qed.

Lemma existsb_filter_other (i j : string) (l : list QuotationPart) :
  existsb (fun p : QuotationPart => String.eqb (itemNo p) j)
    (List.filter (fun p : QuotationPart => negb (String.eqb (itemNo p) i)) l)
  = (negb (String.eqb j i)
     && existsb (fun p : QuotationPart => String.eqb (itemNo p) j) l)%bool.
Proof.
  induction l as [|p l IH]; [now rewrite andb_false_r|].
  cbn [List.filter existsb].
  destruct (String.eqb_spec (itemNo p) i) as [Hpi|Hpi]; cbn [negb existsb];
    rewrite IH; destruct (String.eqb_spec (itemNo p) j) as [Hpj|Hpj];
    destruct (String.eqb_spec j i) as [Hji|Hji]; cbn; try reflexivity;
    try congruence.
Qed.

Lemma filter_same_filter_other (i j : string) (l : list QuotationPart) :
  j <> i ->
  List.filter (fun p : QuotationPart => String.eqb (itemNo p) j)
    (List.filter (fun p : QuotationPart => negb (String.eqb (itemNo p) i)) l)
  = List.filter (fun p : QuotationPart => String.eqb (itemNo p) j) l.
Proof.
  intros Hji. induction l as [|p l IH]; [reflexivity|].
  cbn [List.filter].
  destruct (String.eqb_spec (itemNo p) i) as [Hpi|Hpi]; cbn [negb List.filter].
  - destruct (String.eqb_spec (itemNo p) j) as [Hpj|Hpj]; [congruence | exact IH].
  - destruct (String.eqb (itemNo p) j); now rewrite IH.
Qed.

(** [remove(itemNo)] leaves no line with that [itemNo] and keeps every
    other line; when there was no such line, the state stays as it is, so
    that removing twice is removing once. *)
Theorem remove_deletes_line (itemNoToRemove : string) (st : AppState) :
  let st' := handleRemoveFromQuotation itemNoToRemove st in
  isPartInQuotation itemNoToRemove st' = false /\
  (forall j, j <> itemNoToRemove ->
     isPartInQuotation j st' = isPartInQuotation j st /\
     linesOf j st' = linesOf j st) /\
  (isPartInQuotation itemNoToRemove st = false -> st' = st) /\
  handleRemoveFromQuotation itemNoToRemove st' = st'.
Proof.
  cbn zeta.
  assert (Hgone : isPartInQuotation itemNoToRemove
                    (handleRemoveFromQuotation itemNoToRemove st) = false).
  { unfold isPartInQuotation, handleRemoveFromQuotation.
    cbn [quotationParts setQuotationParts].
    now rewrite existsb_filter_other, String.eqb_refl. }
  assert (Hnoop : forall s, isPartInQuotation itemNoToRemove s = false ->
                            handleRemoveFromQuotation itemNoToRemove s = s).
  { intros s Hs. unfold handleRemoveFromQuotation.
    rewrite filter_other_absent by (now apply isPartInQuotation_false).
    apply setQuotationParts_same. }
  split; [exact Hgone|]. split; [|split].
  - intros j Hj. unfold isPartInQuotation, linesOf, handleRemoveFromQuotation.
    cbn [quotationParts setQuotationParts]. split.
    + rewrite existsb_filter_other.
      apply String.eqb_neq in Hj. now rewrite Hj.
    + now apply filter_same_filter_other.
  - apply Hnoop.
  - now apply Hnoop.
Qed.

(** After [add(part)] the part's [itemNo] is in the quotation, which is
    what disables the card's button; the item numbers in the quotation are
    otherwise the same, and the lines that were there come first,
    unchanged. *)
Theorem added_part_is_in_quotation (partToAdd : Part) (st : AppState) :
  let st' := handleAddToQuotation partToAdd st in
  isPartInQuotation (itemNo partToAdd) st' = true /\
  (forall j, j <> itemNo partToAdd ->
     isPartInQuotation j st' = isPartInQuotation j st) /\
  (exists added, quotationParts st' = quotationParts st ++ added /\
                 (length added <= 1)%nat).
Proof.
  cbn zeta. unfold handleAddToQuotation, isPartInQuotation.
  destruct (existsb _ (quotationParts st)) eqn:Hex; cbn [negb].
  - split; [exact Hex|]. split; [reflexivity|].
    exists []. split; [now rewrite app_nil_r | cbn; lia].
  - cbn [quotationParts setQuotationParts]. split; [|split].
    + rewrite existsb_app. cbn. rewrite String.eqb_refl. now rewrite orb_true_r.
    + intros j Hj. rewrite existsb_app. cbn.
      apply not_eq_sym in Hj. apply String.eqb_neq in Hj. rewrite Hj.
      now rewrite !orb_false_r.
    + eexists. split; [reflexivity | cbn; lia].
Qed.

(** [add(part)] followed by [remove] of the part's [itemNo] restores the
    state, when the quotation did not hold that [itemNo] before. *)
Theorem add_then_remove (partToAdd : Part) (st : AppState) :
  isPartInQuotation (itemNo partToAdd) st = false ->
  handleRemoveFromQuotation (itemNo partToAdd) (handleAddToQuotation partToAdd st)
  = st.
Proof.
  intros Habsent. unfold handleAddToQuotation.
  change (existsb (fun p : QuotationPart => String.eqb (itemNo p) (itemNo partToAdd))
            (quotationParts st)) with (isPartInQuotation (itemNo partToAdd) st).
  rewrite Habsent. cbn [negb]. unfold handleRemoveFromQuotation.
  cbn [quotationParts setQuotationParts].
  rewrite List.filter_app.
  rewrite filter_other_absent by (now apply isPartInQuotation_false).
  cbn [List.filter part itemNo]. rewrite String.eqb_refl. cbn [negb].
  rewrite app_nil_r. destruct st; reflexivity.
Qed.

(** ** Numbers that are never [NaN] *)

Lemma shr_1_nonneg (mrs : shr_record) :
  0 <= shr_m mrs -> 0 <= shr_m (shr_1 mrs).
Proof.
  destruct mrs as [m r s]. cbn [shr_m]. intros Hm.
  destruct m as [|[p|p|]|p]; cbn; lia.
Qed.

Lemma iter_shr_1_nonneg (p : positive) (mrs : shr_record) :
  0 <= shr_m mrs -> 0 <= shr_m (SpecFloat.iter_pos shr_1 p mrs).
Proof.
  revert mrs. induction p as [p IH|p IH|]; intros mrs Hm; cbn [SpecFloat.iter_pos].
  - apply IH, IH. now apply shr_1_nonneg.
  - now apply IH, IH.
  - now apply shr_1_nonneg.
Qed.

Lemma shr_fexp_nonneg (m e : Z) (l : location) :
  0 <= m -> 0 <= shr_m (fst (shr_fexp prec emax m e l)).
Proof.
  intros Hm. unfold shr_fexp, shr.
  assert (H0 : 0 <= shr_m (shr_record_of_loc m l))
    by (destruct l as [|[]]; exact Hm).
  destruct (fexp prec emax (Zdigits2 m + e) - e) as [|p|p]; cbn [fst];
    [exact H0 | now apply iter_shr_1_nonneg | exact H0].
Qed.

Lemma round_nearest_even_nonneg (m : Z) (l : location) :
  0 <= m -> 0 <= round_nearest_even m l.
Proof.
  intros Hm. unfold round_nearest_even.
  destruct l as [|[]]; [lia | destruct (Z.even m); lia | lia | lia].
Qed.

(** Rounding a non-negative mantissa never yields [NaN]. *)
Lemma binary_round_aux_not_NaN (sx : bool) (mx ex : Z) (lx : location) :
  0 <= mx -> binary_round_aux prec emax sx mx ex lx <> NaN.
Proof.
  intros Hmx. unfold binary_round_aux.
  pose proof (shr_fexp_nonneg mx ex lx Hmx) as H1.
  destruct (shr_fexp prec emax mx ex lx) as [mrs' e']. cbn [fst] in H1.
  pose proof (shr_fexp_nonneg
                (round_nearest_even (shr_m mrs') (loc_of_shr_record mrs')) e'
                loc_Exact (round_nearest_even_nonneg _ _ H1)) as H2.
  destruct (shr_fexp prec emax _ e' loc_Exact) as [mrs'' e'']. cbn [fst] in H2.
  destruct (shr_m mrs'') as [|m|m]; [discriminate| |lia].
  destruct (e'' <=? emax - prec); discriminate.
Qed.

Lemma binary_normalize_not_NaN (m e : Z) (szero : bool) :
  binary_normalize prec emax m e szero <> NaN.
Proof.
  unfold binary_normalize, binary_round.
  destruct m as [|p|p]; [discriminate| |];
    destruct (shl_align _ _ _) as [mz ez]; now apply binary_round_aux_not_NaN.
Qed.

Lemma Number_of_Z_not_NaN (z : Z) : Number_of_Z z <> NaN.
Proof. apply binary_normalize_not_NaN. Qed.

(** The quotient of two finite numbers other than zero is not [NaN]. *)
Lemma div_finite_not_NaN (sx sy : bool) (mx my : positive) (ex ey : Z) :
  SFdiv prec emax (S754_finite sx mx ex) (S754_finite sy my ey) <> NaN.
Proof.
  cbn [SFdiv]. unfold SFdiv_core_binary.
  set (m' := match _ - _ - _ with Z0 => Zpos mx | Zpos _ => _ | Zneg _ => 0 end).
  assert (Hm' : 0 <= m').
  { subst m'. destruct (_ - _ - _) as [|p|p]; [lia| |lia].
    apply Z.shiftl_nonneg. lia. }
  pose proof (Z.div_pos m' (Zpos my) Hm' ltac:(lia)) as Hq.
  unfold Z.div in Hq. destruct (Z.div_eucl m' (Zpos my)) as [q r].
  now apply binary_round_aux_not_NaN.
Qed.

Lemma decimalValue_not_NaN (neg : bool) (m e10 : Z) : decimalValue neg m e10 <> NaN.
Proof.
  unfold decimalValue. destruct m as [|p|p]; [discriminate| |discriminate].
  apply div_finite_not_NaN.
Qed.

(** A number above 0 is [+Infinity] or a positive finite number. *)
Lemma positive_cases (x : Number) :
  Number_gt x (Number_of_Z 0) = true ->
  x = S754_infinity false \/ exists m e, x = S754_finite false m e.
Proof.
  rewrite Number_zero. destruct x as [[]|[]| |[] m e]; cbn; try discriminate; eauto.
Qed.

Lemma sub_one_not_NaN (x : Number) :
  Number_gt x (Number_of_Z 0) = true ->
  Number_sub x (Number_of_Z 1) <> NaN.
Proof.
  intros [->|(m & e & ->)]%positive_cases; rewrite Number_one.
  - discriminate.
  - unfold Number_sub. cbn [SFsub]. apply binary_normalize_not_NaN.
Qed.

Lemma add_one_not_NaN (x : Number) :
  Number_gt x (Number_of_Z 0) = true ->
  Number_add x (Number_of_Z 1) <> NaN.
Proof.
  intros [->|(m & e & ->)]%positive_cases; rewrite Number_one.
  - discriminate.
  - unfold Number_add. cbn [SFadd]. apply binary_normalize_not_NaN.
Qed.

Lemma or_one_not_NaN (x : Number) : Number_or x (Number_of_Z 1) <> NaN.
Proof.
  unfold Number_or. destruct x as [[]|[]| |[] m e]; cbn; try discriminate;
    apply Number_of_Z_not_NaN.
Qed.

(** A clamped quantity that is not 0 is above 0, unless it is [NaN]. *)
Lemma clamped_positive (n : Number) :
  n <> NaN ->
  Number_strictEq (Math_max (Number_of_Z 0) n) (Number_of_Z 0) = false ->
  Number_gt (Math_max (Number_of_Z 0) n) (Number_of_Z 0) = true.
Proof.
  rewrite Math_max_zero, Number_zero.
  destruct n as [[]|[]| |[] m e]; cbn; congruence.
Qed.

(** ** Currency texts *)

Lemma replace_outside_app (keep : ascii -> bool) (a b : string) :
  replace_outside keep (a +:+ b)
  = replace_outside keep a +:+ replace_outside keep b.
Proof.
  induction a as [|c a IH]; [reflexivity|].
  rewrite append_cons. cbn [replace_outside].
  destruct (keep c); [rewrite append_cons|]; now rewrite IH.
Qed.

Lemma replace_outside_decoration (s : string) :
  isDecoration s = true -> replace_outside isCurrencyChar s = "".
Proof.
  induction s as [|c s IH]; [reflexivity|].
  change (isDecoration (String c s))
    with (negb (isCurrencyChar c) && isDecoration s)%bool.
  intros [Hc Hs]%andb_true_iff. apply negb_true_iff in Hc.
  cbn [replace_outside]. rewrite Hc. now apply IH.
Qed.

(** Whatever stands between the digits, dots and minus signs of a price
    text, currency signs, thousands separators, blanks, letters, is of no
    consequence for the number it is read as. *)
Theorem parseCurrency_ignores_decoration (before decoration behind : string) :
  isDecoration decoration = true ->
  parseCurrency (before +:+ decoration +:+ behind)
  = parseCurrency (before +:+ behind).
Proof.
  intros Hdecoration. unfold parseCurrency.
  now rewrite !replace_outside_app, (replace_outside_decoration _ Hdecoration).
Qed.

Lemma dotsAndDashes_cons (c : ascii) (s : string) :
  dotsAndDashes (String c s) = true ->
  (c = "."%char \/ c = "-"%char) /\ dotsAndDashes s = true.
Proof.
  change (dotsAndDashes (String c s))
    with ((Ascii.eqb c "." || Ascii.eqb c "-") && dotsAndDashes s)%bool.
  intros [Hc Hs]%andb_true_iff. split; [|exact Hs].
  apply orb_true_iff in Hc as [Hc|Hc]; apply Ascii.eqb_eq in Hc; auto.
Qed.

Lemma stripped_without_digit (s : string) :
  hasNoDigit s = true -> dotsAndDashes (replace_outside isCurrencyChar s) = true.
Proof.
  induction s as [|c s IH]; [reflexivity|].
  change (hasNoDigit (String c s)) with (negb (isDigit c) && hasNoDigit s)%bool.
  intros [Hc Hs]%andb_true_iff. apply negb_true_iff in Hc.
  assert (Hk : isCurrencyChar c = (Ascii.eqb c "." || Ascii.eqb c "-")%bool)
    by (unfold isCurrencyChar; now rewrite Hc).
  cbn [replace_outside]. rewrite Hk.
  destruct (Ascii.eqb c "." || Ascii.eqb c "-")%bool eqn:Hkeep; [|now apply IH].
  change (dotsAndDashes (String c (replace_outside isCurrencyChar s)))
    with ((Ascii.eqb c "." || Ascii.eqb c "-")
          && dotsAndDashes (replace_outside isCurrencyChar s))%bool.
  rewrite Hkeep. now apply IH.
Qed.

(** No number can be read from dots and minus signs. *)
Lemma parseFloat_dotsAndDashes (t : string) :
  dotsAndDashes t = true -> parseFloat t = NaN.
Proof.
  destruct t as [|c1 t]; [reflexivity|].
  intros [[-> | ->] Ht]%dotsAndDashes_cons.
  - destruct t as [|c2 t]; [reflexivity|].
    apply dotsAndDashes_cons in Ht as [[-> | ->] _]; reflexivity.
  - destruct t as [|c2 t]; [reflexivity|].
    apply dotsAndDashes_cons in Ht as [[-> | ->] Ht].
    + destruct t as [|c3 t]; [reflexivity|].
      apply dotsAndDashes_cons in Ht as [[-> | ->] _]; reflexivity.
    + reflexivity.
Qed.

Section CardPrices.

Variable Intl_format : Number -> string.

(** A price text without any digit, such as "N/A" or "-", is shown on the
    card as it stands, and counts as 0 in the totals. *)
Theorem price_without_digit (value : string) :
  hasNoDigit value = true ->
  PartCard.formatCurrency Intl_format value = value /\
  parseCurrency value = Number_of_Z 0.
Proof.
  intros Hvalue. unfold PartCard.formatCurrency, parseCurrency.
  rewrite (parseFloat_dotsAndDashes _ (stripped_without_digit value Hvalue)).
  split; reflexivity.
Qed.

End CardPrices.

(** ** Totals without a discount *)

Lemma SFcompare_finite_refl (s : bool) (m : positive) (e : Z) :
  SFcompare (S754_finite s m e) (S754_finite s m e) = Some Eq.
Proof.
  cbn [SFcompare]. rewrite Z.compare_refl.
  change (PosDef.Pos.compare_cont Eq m m) with (Pos.compare_cont Eq m m).
  rewrite Pos.compare_cont_refl. now destruct s.
Qed.

(** With a discount of 0 and a subtotal that is a finite number, the
    discount amount is 0 and the total is the subtotal. *)
Theorem totals_without_discount (parts : list QuotationPart) :
  let t := totals parts (Number_of_Z 0) in
  isFinite (subtotal t) = true ->
  Number_strictEq (discountAmount t) (Number_of_Z 0) = true /\
  Number_strictEq (total t) (subtotal t) = true /\
  (Number_strictEq (subtotal t) (Number_of_Z 0) = false -> total t = subtotal t).
Proof.
  cbn zeta. unfold totals. cbn [subtotal discountAmount total].
  set (x := fold_left _ parts (Number_of_Z 0)).
  replace (Number_div (Number_of_Z 0) (Number_of_Z 100)) with (S754_zero false)
    by (vm_compute; reflexivity).
  rewrite Number_zero. intros Hx.
  destruct x as [s| | |s m e]; try discriminate Hx.
  - destruct s; cbn; repeat split; discriminate.
  - cbn [Number_mul SFmul Number_sub SFsub].
    unfold Number_strictEq, SFeqb. rewrite SFcompare_finite_refl.
    repeat split.
Qed.

(** ** The quantity controls of a line *)

Lemma hasNoDigit_cons (c : ascii) (s : string) :
  hasNoDigit (String c s) = (negb (isDigit c) && hasNoDigit s)%bool.
Proof. reflexivity. Qed.

Lemma hasNoDigit_app (a b : string) :
  hasNoDigit (a +:+ b) = (hasNoDigit a && hasNoDigit b)%bool.
Proof.
  induction a as [|c a IH]; [reflexivity|].
  rewrite append_cons, !hasNoDigit_cons, IH. now rewrite andb_assoc.
Qed.

Lemma hasNoDigit_trimStart (s : string) :
  hasNoDigit s = true -> hasNoDigit (trimStart s) = true.
Proof.
  remember (String.length s) as n eqn:Hn. revert s Hn.
  induction n as [n IH] using lt_wf_ind. intros s -> H.
  rewrite trimStart_step. destruct (stripWhiteSpace s) as [r|] eqn:Hs; [|exact H].
  destruct (stripWhiteSpace_Some s r Hs) as (w & _ & ->).
  rewrite hasNoDigit_app in H. apply andb_true_iff in H as [_ H].
  apply (IH (String.length r)); [now apply stripWhiteSpace_shorter | reflexivity | exact H].
Qed.

Lemma readDigits_without_digit (acc : Z) (n : nat) (s : string) :
  hasNoDigit s = true -> readDigits acc n s = (acc, n, s).
Proof.
  destruct s as [|c s]; [reflexivity|].
  rewrite hasNoDigit_cons. intros [Hc _]%andb_true_iff.
  apply negb_true_iff in Hc. cbn [readDigits]. now rewrite Hc.
Qed.

Lemma readSign_without_digit (s : string) :
  hasNoDigit s = true -> hasNoDigit (snd (readSign s)) = true.
Proof.
  destruct s as [|c s]; [reflexivity|].
  intros H. pose proof H as H'. rewrite hasNoDigit_cons in H'.
  apply andb_true_iff in H' as [_ Hs].
  destruct c as [[] [] [] [] [] [] [] []]; first [exact H | exact Hs].
Qed.

Lemma parseInt_without_digit (value : string) :
  hasNoDigit value = true -> parseInt value = NaN.
Proof.
  intros H. apply hasNoDigit_trimStart, readSign_without_digit in H.
  unfold parseInt. destruct (readSign (trimStart value)) as [neg s1].
  cbn [snd] in H. now rewrite (readDigits_without_digit 0 0 s1 H).
Qed.

(** What [setQuantity] does, by the number handed to it. *)
Lemma update_quantity_cases (i : string) (n : Number) (st : AppState) :
  (Number_le n (Number_of_Z 0) = true ->
     handleUpdateQuotationQuantity i n st = handleRemoveFromQuotation i st) /\
  (Number_strictEq (Math_max (Number_of_Z 0) n) (Number_of_Z 0) = false ->
     handleUpdateQuotationQuantity i n st
     = setQuotationParts
         (map (withQuantity i (Math_max (Number_of_Z 0) n)) (quotationParts st)) st).
Proof.
  unfold handleUpdateQuotationQuantity. split.
  - intros Hle. rewrite (clamp_nonpositive n Hle). reflexivity.
  - intros ->. reflexivity.
Qed.

Lemma update_to_one (i : string) (st : AppState) :
  handleUpdateQuotationQuantity i (Number_of_Z 1) st
  = setQuotationParts (map (withQuantity i (Number_of_Z 1)) (quotationParts st)) st.
Proof.
  unfold handleUpdateQuotationQuantity.
  destruct (clamp_at_least_one (Number_of_Z 1)) as [Hq Hne];
    [vm_compute; reflexivity|].
  rewrite Hne, Hq. reflexivity.
Qed.

(** Whatever is typed into the quantity input of a line, the number handed
    on is neither 0 nor [NaN]: a text without a number, and 0 itself, set
    the quantity to 1 rather than remove the line; a negative number
    removes it. *)
Theorem quantity_input_never_zero (line : QuotationPart) (value : string)
    (st : AppState) :
  let n := Number_or (parseInt value) (Number_of_Z 1) in
  n <> NaN /\
  Number_strictEq n (Number_of_Z 0) = false /\
  (hasNoDigit value = true -> ToBoolean (parseInt value) = false) /\
  (ToBoolean (parseInt value) = false ->
     typeQuantity line value st
     = setQuotationParts
         (map (withQuantity (itemNo line) (Number_of_Z 1)) (quotationParts st)) st) /\
  (Number_gt (Number_of_Z 0) n = true ->
     typeQuantity line value st = handleRemoveFromQuotation (itemNo line) st).
Proof.
  cbn zeta. split; [apply or_one_not_NaN|]. split; [|split; [|split]].
  - unfold Number_or. rewrite Number_zero.
    destruct (parseInt value) as [[]|[]| |[] m e]; cbn [ToBoolean];
      first [reflexivity | vm_compute; reflexivity].
  - intros H. now rewrite (parseInt_without_digit value H).
  - intros Hfalsy. unfold typeQuantity, quantity_onChange, Number_or.
    rewrite Hfalsy. apply update_to_one.
  - intros Hneg. unfold typeQuantity, quantity_onChange.
    destruct (update_quantity_cases (itemNo line)
                (Number_or (parseInt value) (Number_of_Z 1)) st) as [Hremove _].
    apply Hremove. revert Hneg. rewrite Number_zero.
    destruct (Number_or (parseInt value) (Number_of_Z 1)) as [[]|[]| |[] m e];
      cbn; congruence.
Qed.

(** The "-" button of a line whose quantity is 1 removes the line; on a
    line that was just added it restores the state before the [add].  The
    "+" button of such a line makes its quantity 2. *)
Theorem minus_on_single_quantity (partToAdd : Part) (st : AppState) :
  let line := {| part := partToAdd; quantity := Number_of_Z 1 |} in
  (forall st', pressMinus line st'
               = handleRemoveFromQuotation (itemNo partToAdd) st') /\
  (isPartInQuotation (itemNo partToAdd) st = false ->
     pressMinus line (handleAddToQuotation partToAdd st) = st /\
     quotationParts (pressPlus line (handleAddToQuotation partToAdd st))
     = quotationParts st
       ++ [ {| part := partToAdd; quantity := Number_of_Z 2 |} ]).
Proof.
  cbn zeta.
  assert (Hminus : forall st',
    pressMinus {| part := partToAdd; quantity := Number_of_Z 1 |} st'
    = handleRemoveFromQuotation (itemNo partToAdd) st').
  { intros st'. unfold pressMinus, minus_onClick. cbn [quantity part].
    destruct (update_quantity_cases (itemNo partToAdd)
                (Number_sub (Number_of_Z 1) (Number_of_Z 1)) st') as [Hremove _].
    apply Hremove. vm_compute. reflexivity. }
  split; [exact Hminus|]. intros Habsent. split.
  - rewrite Hminus. unfold handleAddToQuotation.
    change (existsb (fun p : QuotationPart => String.eqb (itemNo p) (itemNo partToAdd))
              (quotationParts st)) with (isPartInQuotation (itemNo partToAdd) st).
    rewrite Habsent. cbn [negb]. unfold handleRemoveFromQuotation.
    cbn [quotationParts setQuotationParts].
    rewrite List.filter_app.
    rewrite filter_other_absent by (now apply isPartInQuotation_false).
    cbn [List.filter part itemNo]. rewrite String.eqb_refl. cbn [negb].
    rewrite app_nil_r. destruct st; reflexivity.
  - unfold pressPlus, plus_onClick, handleAddToQuotation. cbn [quantity part].
    change (existsb (fun p : QuotationPart => String.eqb (itemNo p) (itemNo partToAdd))
              (quotationParts st)) with (isPartInQuotation (itemNo partToAdd) st).
    rewrite Habsent. cbn [negb].
    replace (Number_add (Number_of_Z 1) (Number_of_Z 1)) with (Number_of_Z 2)
      by (vm_compute; reflexivity).
    destruct (update_quantity_cases (itemNo partToAdd) (Number_of_Z 2)
                (setQuotationParts
                   (quotationParts st
                    ++ [ {| part := partToAdd; quantity := Number_of_Z 1 |} ]) st))
      as [_ Hreplace].
    rewrite Hreplace by (vm_compute; reflexivity).
    cbn [quotationParts setQuotationParts].
    replace (Math_max (Number_of_Z 0) (Number_of_Z 2)) with (Number_of_Z 2)
      by (vm_compute; reflexivity).
    rewrite List.map_app.
    rewrite map_withQuantity_absent by (now apply isPartInQuotation_false).
    cbn [map]. unfold withQuantity. cbn [part itemNo].
    now rewrite String.eqb_refl.
Qed.

(** ** What every state of the page satisfies *)

Section Invariants.

Variable Cell : Type.
Variable String_ : Cell -> string.
Variable Fuse_search : list Part -> string -> list FuseResult.

Abbreviation Event := (Events.Event Cell).
Abbreviation dispatch := (Events.dispatch Cell String_ Fuse_search).
Abbreviation offered := (Events.offered Cell).
Abbreviation reachable := (Events.reachable Cell String_ Fuse_search).

(** What a search leaves alone. *)
Lemma handleSearch_frame (st : AppState) :
  parts (handleSearch Fuse_search st) = parts st /\
  quotationParts (handleSearch Fuse_search st) = quotationParts st /\
  discountPercentage (handleSearch Fuse_search st) = discountPercentage st /\
  fuseRef (handleSearch Fuse_search st) = fuseRef st.
Proof.
  unfold handleSearch.
  destruct (String.eqb (trim (searchQuery st)) ""); [now cbn|].
  destruct (fuseRef st) as [index|] eqn:Hindex; [|now rewrite Hindex].
  destruct (List.find _ (Fuse_search index (trim (searchQuery st)))); cbn;
    now rewrite Hindex.
Qed.

(** A file selection is the two events, one after the other. *)
Lemma upload_in_two_steps (file : File Cell) (st : AppState) :
  upload Cell String_ file st
  = dispatch (Events.FileSettled Cell file) (dispatch (Events.SelectFile Cell file) st).
Proof. reflexivity. Qed.

(** What the settling of a parse leaves behind. *)
Lemma settled_outcome (file : File Cell) (st : AppState) :
  let st' := useEffect_parts (handleFileChange_settle Cell String_ file st) in
  quotationParts st' = [] /\
  discountPercentage st' = Number_of_Z 0 /\
  Z.of_nat (length (parts st')) <= MAX_PARTS_LIMIT /\
  (parts st' <> [] -> fuseRef st' = Some (parts st')) /\
  (parts st' = [] -> fuseRef st' = fuseRef st).
Proof.
  assert (Hempty : Z.of_nat (@length Part []) <= MAX_PARTS_LIMIT)
    by (unfold MAX_PARTS_LIMIT; cbn; lia).
  cbn zeta. unfold useEffect_parts, handleFileChange_settle, ingest.
  destruct (parsePartsFile Cell String_ file) as [parsedData|message].
  - destruct (MAX_PARTS_LIMIT <? Z.of_nat (length parsedData)) eqn:Hsize.
    + cbn -[Z.of_nat Z.le MAX_PARTS_LIMIT].
      split; [reflexivity|]. split; [reflexivity|]. split; [exact Hempty|].
      split; [intros H; exfalso; now apply H | reflexivity].
    + apply Z.ltb_ge in Hsize.
      cbn -[Z.of_nat Z.le Z.ltb MAX_PARTS_LIMIT length]. rewrite length_pos_nonempty.
      destruct parsedData as [|p parsedData]; cbn [negb].
      * cbn -[Z.of_nat Z.le MAX_PARTS_LIMIT].
        split; [reflexivity|]. split; [reflexivity|]. split; [exact Hempty|].
        split; [intros H; exfalso; now apply H | reflexivity].
      * cbn -[Z.of_nat Z.le MAX_PARTS_LIMIT length].
        split; [reflexivity|]. split; [reflexivity|]. split; [exact Hsize|].
        split; [reflexivity | discriminate].
  - cbn -[Z.of_nat Z.le MAX_PARTS_LIMIT].
    split; [reflexivity|]. split; [reflexivity|]. split; [exact Hempty|].
    split; [intros H; exfalso; now apply H | reflexivity].
Qed.

Lemma update_keeps_positive (i : string) (n : Number) (st : AppState) :
  n <> NaN -> positiveQuantities st ->
  positiveQuantities (handleUpdateQuotationQuantity i n st).
Proof.
  intros Hn Hpos line. unfold handleUpdateQuotationQuantity.
  destruct (Number_strictEq (Math_max (Number_of_Z 0) n) (Number_of_Z 0)) eqn:Hzero.
  - unfold handleRemoveFromQuotation. cbn [quotationParts setQuotationParts].
    intros [Hin _]%List.filter_In. now apply Hpos.
  - cbn [quotationParts setQuotationParts].
    intros (p & <- & Hp)%in_map_iff.
    destruct (String.eqb (itemNo p) i); [|now apply Hpos].
    cbn [quantity]. now apply clamped_positive.
Qed.

(** No line of the quotation ever has a quantity of 0, a negative quantity
    or [NaN] for a quantity, whatever is uploaded, searched, added, typed
    and pressed. *)
Theorem quantities_stay_positive (st : AppState) :
  reachable st -> positiveQuantities st.
Proof.
  induction 1 as [|st ev Hreach IH Hoffered].
  - intros line [].
  - destruct ev; cbn [Events.dispatch Events.offered] in *; try exact IH.
    + intros line. now rewrite (proj1 (settled_outcome file st)).
    + intros line. rewrite (proj1 (proj2 (handleSearch_frame st))). apply IH.
    + intros line. unfold handleAddToQuotation.
      destruct (negb _); [|now apply IH].
      cbn [quotationParts setQuotationParts].
      intros [Hin|[<-|[]]]%in_app_iff; [now apply IH | vm_compute; reflexivity].
    + intros l [Hin _]%List.filter_In. now apply IH.
    + apply update_keeps_positive; [|exact IH].
      apply sub_one_not_NaN. now apply IH.
    + apply update_keeps_positive; [|exact IH].
      apply add_one_not_NaN. now apply IH.
    + apply update_keeps_positive; [|exact IH]. apply or_one_not_NaN.
    + intros line [].
Qed.

(** No two lines of the quotation ever have the same [itemNo]. *)
Theorem itemNos_stay_distinct (st : AppState) :
  reachable st -> distinctItemNos st.
Proof.
  induction 1 as [|st ev Hreach IH Hoffered].
  - constructor.
  - destruct (handlers_keep_itemNos_distinct st IH) as (Hadd & Hremove & Hupdate & Hclear).
    destruct ev; cbn [Events.dispatch] in *; try exact IH.
    + unfold distinctItemNos. rewrite (proj1 (settled_outcome file st)). constructor.
    + unfold distinctItemNos.
      now rewrite (proj1 (proj2 (handleSearch_frame st))).
    + apply Hadd.
    + apply Hremove.
    + apply Hupdate.
    + apply Hupdate.
    + apply Hupdate.
    + exact Hclear.
Qed.

(** The discount is at all times a number between 0 and 100. *)
Theorem discount_stays_in_range (st : AppState) :
  reachable st -> discountInRange st.
Proof.
  assert (Hzero : Number_le (Number_of_Z 0) (Number_of_Z 0) = true /\
                  Number_le (Number_of_Z 0) (Number_of_Z 100) = true)
    by (split; vm_compute; reflexivity).
  induction 1 as [|st ev Hreach IH Hoffered].
  - exact Hzero.
  - unfold discountInRange in *.
    destruct ev; cbn [Events.dispatch] in *; try exact IH.
    + now rewrite (proj1 (proj2 (settled_outcome file st))).
    + now rewrite (proj1 (proj2 (proj2 (handleSearch_frame st)))).
    + unfold handleAddToQuotation. now destruct (negb _).
    + unfold pressMinus, minus_onClick, handleUpdateQuotationQuantity.
      now destruct (Number_strictEq _ _).
    + unfold pressPlus, plus_onClick, handleUpdateQuotationQuantity.
      now destruct (Number_strictEq _ _).
    + unfold typeQuantity, quantity_onChange, handleUpdateQuotationQuantity.
      now destruct (Number_strictEq _ _).
    + exact Hzero.
    + unfold typeDiscount, discount_onChange, onDiscountChange.
      cbn [discountPercentage setDiscountPercentage].
      apply clamp_percentage_range.
Qed.

(** The catalog never holds more than 65,000 records, and whenever it is
    not empty, which is when the search box is shown, the search index is
    the one built from it. *)
Theorem catalog_stays_indexed_and_bounded (st : AppState) :
  reachable st -> indexInSync st /\ catalogWithinLimit st.
Proof.
  induction 1 as [|st ev Hreach IH Hoffered].
  - split; [intros H; now contradiction H | unfold catalogWithinLimit, MAX_PARTS_LIMIT; cbn; lia].
  - unfold indexInSync, catalogWithinLimit in *.
    destruct ev; cbn [Events.dispatch] in *; try exact IH.
    + destruct (settled_outcome file st) as (_ & _ & Hlimit & Hindex & _).
      split; assumption.
    + destruct (handleSearch_frame st) as (-> & _ & _ & ->). exact IH.
    + unfold handleAddToQuotation. now destruct (negb _).
    + unfold pressMinus, minus_onClick, handleUpdateQuotationQuantity.
      now destruct (Number_strictEq _ _).
    + unfold pressPlus, plus_onClick, handleUpdateQuotationQuantity.
      now destruct (Number_strictEq _ _).
    + unfold typeQuantity, quantity_onChange, handleUpdateQuotationQuantity.
      now destruct (Number_strictEq _ _).
Qed.

(** A text file that has the eight columns and no data line is accepted,
    unlike a sheet with a header row only: the upload succeeds with 0
    parts, the catalog is empty and the search index stays the one of the
    catalog before. *)
Theorem header_only_text_file_accepted (file : File Cell) (fields : list string)
    (st : AppState) :
  extensionOf Cell file = "csv" \/ extensionOf Cell file = "tsv" ->
  papa Cell file = PapaComplete [] fields [] ->
  (forall k, In k REQUIRED_HEADERS ->
     hasSourceColumn (map (fun h => Some (normalizeHeader h)) fields) k = true) ->
  let st' := upload Cell String_ file st in
  parsePartsFile Cell String_ file = resolve [] /\
  uploadStatus st' = success /\
  uploadMessage st' = "✔️ 0 parts uploaded successfully." /\
  parts st' = [] /\
  hasData st' = false /\
  fuseRef st' = fuseRef st.
Proof.
  intros Hext Hpapa Hall. cbn zeta.
  assert (Htable : Spec.tableOf Cell String_ file = Some (csvTable fields [])).
  { unfold Spec.tableOf. destruct Hext as [-> | ->]; cbn; now rewrite Hpapa. }
  assert (Hparse : parsePartsFile Cell String_ file = resolve []).
  { rewrite (parsePartsFile_table Cell String_ file _ Htable).
    cbn [csvTable columns rows map].
    replace (missingFields (map Some (map normalizeHeader fields))) with (@nil string);
      [reflexivity|].
    symmetry. apply missingFields_nil. intros k Hk.
    rewrite map_map. now apply Hall. }
  split; [exact Hparse|].
  unfold upload, useEffect_parts, handleFileChange, ingest. rewrite Hparse.
  cbn. repeat split.
Qed.

End Invariants.

(** ** The further properties on sample data *)

Lemma session_reachable :
  Events.reachable string Sample.String_ Sample.offerAll Sample.session.
Proof.
  unfold Sample.session.
  apply (Events.reachable_event string Sample.String_ Sample.offerAll _
           (Events.TypeDiscount string "12.5")); [|exact I].
  apply (Events.reachable_event string Sample.String_ Sample.offerAll _
           (Events.PressPlus string Sample.oilFilterLine)).
  - apply (Events.reachable_event string Sample.String_ Sample.offerAll _
             (Events.PressAdd string Sample.oilFilter)); [|exact I].
    apply (Events.reachable_event string Sample.String_ Sample.offerAll _
             (Events.PressSearch string)); [|exact I].
    apply (Events.reachable_event string Sample.String_ Sample.offerAll _
             (Events.TypeQuery string "  ab-123 ")); [|exact I].
    apply (Events.reachable_event string Sample.String_ Sample.offerAll _
             (Events.FileSettled string Sample.twoPartsFile)); [|exact I].
    apply (Events.reachable_event string Sample.String_ Sample.offerAll _
             (Events.SelectFile string Sample.twoPartsFile)); [|exact I].
    apply Events.reachable_initial.
  - cbn [Events.offered]. vm_compute. left. reflexivity.
Qed.

Lemma header_recognition_ignores_case_and_padding_witness :
  normalizeHeader (Sample.byteOrderMark +:+ "ITEM No." +:+ Sample.nbsp)
  = normalizeHeader "item no." /\
  HEADER_MAPPING (normalizeHeader (Sample.byteOrderMark +:+ "ITEM No." +:+ Sample.nbsp))
  = Some (PartKey "itemNo").
Proof.
  destruct (header_recognition_ignores_case_and_padding
              "item no." "ITEM No." Sample.byteOrderMark Sample.nbsp) as [H1 H2].
  - apply trimStart_empty. vm_compute. reflexivity.
  - apply trimStart_empty. vm_compute. reflexivity.
  - vm_compute. reflexivity.
  - split; [exact H1 | rewrite H2; vm_compute; reflexivity].
Defined.

Lemma file_kind_is_last_segment_witness :
  extensionOf string Sample.twoPartsFile = "xlsx" /\
  parsePartsFile string Sample.String_ Sample.notesFile
  = reject "File format not supported. Please upload CSV, TSV, or Excel." /\
  parts (handleFileChange string Sample.String_ (Some Sample.notesFile)
           Sample.oneLineState) = [].
Proof.
  split.
  - apply (file_kind_is_last_segment string Sample.String_ Sample.twoPartsFile
             "Parts.Final" "XLSX" initialState); reflexivity.
  - destruct (file_kind_is_last_segment string Sample.String_ Sample.notesFile
                "parts.xlsx" "txt" Sample.oneLineState eq_refl eq_refl)
      as (_ & _ & _ & Hother).
    destruct Hother as (Hparse & _ & Hparts); try discriminate.
    split; [exact Hparse | exact Hparts].
Defined.

Lemma blank_query_clears_results_witness :
  searchQuery Sample.whiteSpaceState
  = Sample.nbsp +:+ " " +:+ Sample.ideographicSpace /\
  searchResults (handleSearch Sample.offerAll Sample.whiteSpaceState) = None.
Proof.
  split; [vm_compute; reflexivity|].
  rewrite (proj1 (blank_query_clears_results Sample.offerAll Sample.whiteSpaceState
                    ltac:(apply trimStart_empty; vm_compute; reflexivity))).
  reflexivity.
Defined.

Lemma no_exact_match_lists_all_witness :
  searchResults (handleSearch Sample.offerAll Sample.wordSearchState)
  = Some [Sample.pump; Sample.oilFilter].
Proof.
  rewrite (no_exact_match_lists_all Sample.offerAll Sample.wordSearchState
             [Sample.pump; Sample.oilFilter]).
  - vm_compute. reflexivity.
  - vm_compute. reflexivity.
  - intros Hblank. apply trim_blank in Hblank. vm_compute in Hblank.
    discriminate Hblank.
  - intros c Hc. vm_compute in Hc. destruct Hc as [<-|[<-|[]]]; vm_compute; discriminate.
Defined.

Lemma shown_results_are_candidates_witness :
  searchResults (handleSearch Sample.offerAll Sample.searchState)
  = Some [Sample.oilFilter] /\
  In Sample.oilFilter [Sample.pump; Sample.oilFilter] /\
  (length [Sample.oilFilter] <= length [Sample.pump; Sample.oilFilter])%nat.
Proof.
  assert (Hshown : searchResults (handleSearch Sample.offerAll Sample.searchState)
                   = Some [Sample.oilFilter]) by (vm_compute; reflexivity).
  split; [exact Hshown|].
  destruct (shown_results_are_candidates Sample.offerAll Sample.searchState
              [Sample.pump; Sample.oilFilter] [Sample.oilFilter])
    as [Hcandidates Hlength].
  - vm_compute. reflexivity.
  - exact Hshown.
  - split; [|exact Hlength]. apply Hcandidates. now left.
Defined.

Lemma remove_deletes_line_witness :
  isPartInQuotation "AB-123" Sample.oneLineState = true /\
  isPartInQuotation "AB-123"
    (handleRemoveFromQuotation "AB-123" Sample.oneLineState) = false /\
  handleRemoveFromQuotation "ZZ-9" Sample.oneLineState = Sample.oneLineState.
Proof.
  split; [reflexivity|]. split.
  - exact (proj1 (remove_deletes_line "AB-123" Sample.oneLineState)).
  - exact (proj1 (proj2 (proj2 (remove_deletes_line "ZZ-9" Sample.oneLineState)))
             eq_refl).
Defined.

Lemma added_part_is_in_quotation_witness :
  isPartInQuotation "AB-1234" (handleAddToQuotation Sample.pump Sample.oneLineState)
  = true /\
  isPartInQuotation "AB-123" (handleAddToQuotation Sample.pump Sample.oneLineState)
  = true.
Proof.
  destruct (added_part_is_in_quotation Sample.pump Sample.oneLineState)
    as (Hin & Hother & _).
  split; [exact Hin|].
  rewrite (Hother "AB-123") by discriminate. reflexivity.
Defined.

Lemma add_then_remove_witness :
  handleRemoveFromQuotation "AB-1234"
    (handleAddToQuotation Sample.pump Sample.oneLineState)
  = Sample.oneLineState.
Proof. apply (add_then_remove Sample.pump Sample.oneLineState). reflexivity. Defined.

Lemma parseCurrency_ignores_decoration_witness :
  parseCurrency "₹1,000.50" = parseCurrency "1000.50".
Proof.
  exact (eq_trans
           (parseCurrency_ignores_decoration "₹1" "," "000.50" eq_refl)
           (parseCurrency_ignores_decoration "" "₹" "1000.50" eq_refl)).
Defined.

Lemma price_without_digit_witness :
  PartCard.formatCurrency Sample.rupees "N/A" = "N/A" /\
  parseCurrency "N/A" = Number_of_Z 0.
Proof. apply price_without_digit. reflexivity. Defined.

Lemma totals_without_discount_witness :
  total (totals [ Sample.line "A" "₹100.00" 2; Sample.line "B" "₹50" 1 ]
           (Number_of_Z 0))
  = Number_of_Z 250.
Proof.
  destruct (totals_without_discount
              [ Sample.line "A" "₹100.00" 2; Sample.line "B" "₹50" 1 ])
    as (_ & _ & Hsame).
  - vm_compute. reflexivity.
  - rewrite Hsame by (vm_compute; reflexivity). vm_compute. reflexivity.
Defined.

Lemma quantity_input_never_zero_witness :
  quotationParts (typeQuantity Sample.oilFilterLine "" Sample.oneLineState)
  = [Sample.oilFilterLine] /\
  quotationParts (typeQuantity Sample.oilFilterLine "0" Sample.oneLineState)
  = [Sample.oilFilterLine] /\
  quotationParts (typeQuantity Sample.oilFilterLine "-3" Sample.oneLineState) = [].
Proof.
  split; [|split].
  - destruct (quantity_input_never_zero Sample.oilFilterLine "" Sample.oneLineState)
      as (_ & _ & Hnone & Hone & _).
    rewrite (Hone (Hnone eq_refl)). vm_compute. reflexivity.
  - destruct (quantity_input_never_zero Sample.oilFilterLine "0" Sample.oneLineState)
      as (_ & _ & _ & Hone & _).
    rewrite Hone by (vm_compute; reflexivity). vm_compute. reflexivity.
  - destruct (quantity_input_never_zero Sample.oilFilterLine "-3" Sample.oneLineState)
      as (_ & _ & _ & _ & Hremove).
    rewrite Hremove by (vm_compute; reflexivity). vm_compute. reflexivity.
Defined.

Lemma minus_on_single_quantity_witness :
  pressMinus Sample.oilFilterLine Sample.oneLineState = initialState.
Proof.
  apply (minus_on_single_quantity Sample.oilFilter initialState). reflexivity.
Defined.

Lemma quantities_stay_positive_witness :
  Forall (fun line : QuotationPart =>
            Number_gt (quantity line) (Number_of_Z 0) = true)
    (quotationParts Sample.session).
Proof.
  apply List.Forall_forall.
  exact (quantities_stay_positive string Sample.String_ Sample.offerAll
           Sample.session session_reachable).
Defined.

Lemma itemNos_stay_distinct_witness : distinctItemNos Sample.session.
Proof.
  exact (itemNos_stay_distinct string Sample.String_ Sample.offerAll
           Sample.session session_reachable).
Defined.

Lemma discount_stays_in_range_witness : discountInRange Sample.session.
Proof.
  exact (discount_stays_in_range string Sample.String_ Sample.offerAll
           Sample.session session_reachable).
Defined.

Lemma catalog_stays_indexed_and_bounded_witness :
  fuseRef Sample.session = Some (parts Sample.session) /\
  Z.of_nat (length (parts Sample.session)) <= MAX_PARTS_LIMIT.
Proof.
  destruct (catalog_stays_indexed_and_bounded string Sample.String_ Sample.offerAll
              Sample.session session_reachable) as [Hindex Hlimit].
  split; [|exact Hlimit].
  apply Hindex. vm_compute. discriminate.
Defined.

Lemma header_only_text_file_accepted_witness :
  uploadStatus (upload string Sample.String_ Sample.headerOnlyTextFile
                  Sample.searchState) = success /\
  parts (upload string Sample.String_ Sample.headerOnlyTextFile
           Sample.searchState) = [] /\
  fuseRef (upload string Sample.String_ Sample.headerOnlyTextFile
             Sample.searchState) = Some [Sample.pump; Sample.oilFilter].
Proof.
  destruct (header_only_text_file_accepted string Sample.String_
              Sample.headerOnlyTextFile
              [ "item no"; "description"; "item group"; "model"; "bhl/hln flag";
                "hsn tax"; "sale rate"; "mrp" ]
              Sample.searchState)
    as (_ & Hstatus & _ & Hparts & _ & Hindex).
  - left. reflexivity.
  - reflexivity.
  - intros k Hk. cbn in Hk.
    destruct Hk as [<-|[<-|[<-|[<-|[<-|[<-|[<-|[<-|[]]]]]]]]];
      vm_compute; reflexivity.
  - split; [exact Hstatus|]. split; [exact Hparts|].
    rewrite Hindex. vm_compute. reflexivity.
Defined.

Lemma ingest_rejects_with_error_witness :
  IngestionError "File is empty or contains only headers." /\
  IngestionError "Missing required columns: saleRate, mrp".
Proof.
  split.
  - apply (ingest_rejects_with_error string Sample.String_ Sample.headerOnlyFile).
    reflexivity.
  - apply (ingest_rejects_with_error string Sample.String_ Sample.noPricesFile).
    vm_compute. reflexivity.
Defined.

(** ** A discount within the range, a query with white space around it *)

Lemma SFcompare_Eq_finite (s s' : bool) (m m' : positive) (e e' : Z) :
  SFcompare (S754_finite s m e) (S754_finite s' m' e') = Some Eq ->
  S754_finite s m e = S754_finite s' m' e'.
Proof.
  cbn [SFcompare].
  destruct s, s'; try discriminate;
    destruct (Z.compare_spec e e') as [->|_|_]; try discriminate;
    change (PosDef.Pos.compare_cont Eq m m') with (Pos.compare m m');
    destruct (Pos.compare_spec m m') as [->|_|_]; try discriminate; reflexivity.
Qed.

(** A number typed into the discount input that lies above 0 and not above
    100 is stored as it is; a text that is no number stores 0. *)
Theorem discount_within_range_is_kept (value : string) (st : AppState) :
  (Number_gt (parseFloat value) (Number_of_Z 0) = true ->
   Number_le (parseFloat value) (Number_of_Z 100) = true ->
   discountPercentage (typeDiscount value st) = parseFloat value) /\
  (parseFloat value = NaN ->
   discountPercentage (typeDiscount value st) = Number_of_Z 0).
Proof.
  unfold typeDiscount, discount_onChange, onDiscountChange.
  cbn [discountPercentage setDiscountPercentage].
  split.
  - intros Hpos Hle.
    destruct (positive_cases _ Hpos) as [Hv|(m & e & Hv)]; rewrite Hv in *.
    + rewrite Number_hundred in Hle. discriminate Hle.
    + unfold Number_or. cbn [ToBoolean].
      rewrite Number_hundred in *. rewrite Number_zero.
      unfold Number_le, SFleb in Hle.
      pose proof (SFcompare_antisym (S754_finite false m e)
                    (S754_finite false 7036874417766400 (-46))) as Hanti.
      unfold Math_min.
      destruct (SFcompare (S754_finite false m e)
                  (S754_finite false 7036874417766400 (-46))) as [[]|] eqn:Hc;
        try discriminate Hle; cbn [option_map CompOpp] in Hanti; rewrite Hanti.
      * apply SFcompare_Eq_finite in Hc. rewrite <- Hc. reflexivity.
      * reflexivity.
  - intros ->. vm_compute. reflexivity.
Qed.

Lemma discount_within_range_is_kept_witness :
  discountPercentage (typeDiscount "12.5" Sample.oneLineState) = parseFloat "12.5" /\
  discountPercentage (typeDiscount "ten" Sample.oneLineState) = Number_of_Z 0.
Proof.
  destruct (discount_within_range_is_kept "12.5" Sample.oneLineState) as [Hkept _].
  destruct (discount_within_range_is_kept "ten" Sample.oneLineState) as [_ Hnone].
  split; [apply Hkept | apply Hnone]; vm_compute; reflexivity.
Defined.

Section QueryPadding.

Variable Fuse_search : list Part -> string -> list FuseResult.

(** White space in front of a query and behind it is of no consequence
    for the results of a search. *)
Theorem search_ignores_padding (query before behind : string) (st : AppState) :
  isBlank before ->
  isBlank behind ->
  searchResults
    (handleSearch Fuse_search (setSearchQuery (before +:+ query +:+ behind) st))
  = searchResults (handleSearch Fuse_search (setSearchQuery query st)).
Proof.
  intros Hbefore Hbehind. unfold handleSearch.
  cbn [searchQuery setSearchQuery fuseRef].
  rewrite (trim_blank_app before _ Hbefore), (trim_app_blank query behind Hbehind).
  destruct (String.eqb (trim query) ""); [reflexivity|].
  destruct (fuseRef st) as [index|]; [|reflexivity].
  destruct (List.find _ (Fuse_search index (trim query))); reflexivity.
Qed.

End QueryPadding.

Lemma search_ignores_padding_witness :
  searchResults
    (handleSearch Sample.offerAll
       (setSearchQuery (Sample.nbsp +:+ "ab-123" +:+ Sample.ideographicSpace)
          Sample.wordSearchState))
  = Some [Sample.oilFilter].
Proof.
  rewrite (search_ignores_padding Sample.offerAll "ab-123"
             Sample.nbsp Sample.ideographicSpace Sample.wordSearchState).
  - vm_compute. reflexivity.
  - apply trimStart_empty. vm_compute. reflexivity.
  - apply trimStart_empty. vm_compute. reflexivity.
Defined.
